(** * LinearBot: the session-driven ticket-creation workflow

    A shallow embedding of the parts of the bot that decide the behaviour of
    the ticket-intake state machine:

    - [src/utils/validation.ts]   (input validator),
    - [db/database.ts]            (SQLite store: users, ticket_requests,
                                   sessions, audit_log),
    - [bot/sessionManager.ts]     (session lifecycle),
    - [bot/handlers/messageHandler.ts] and the creation-flow part of
      [CallbackHandler] in [bot/handlers/commandHandler.ts],
    - [config/index.ts],
    - of the rest of [bot/handlers/commandHandler.ts]: /start and /cancel,
      the Add Comment and template buttons and the pages of the issue
      list; of [api/linearService.ts]: the priority numbers.

    Conventions.
    - A JavaScript string is the list of its UTF-16 code units ([jstring]);
      [String.length] is the length of that list.
    - [Date.now()] is a number of milliseconds since the epoch, an integer
      [now : Z].  One event is handled at one instant: every clock read made
      while a handler runs sees the same [now].
    - SQLite [CURRENT_TIMESTAMP] columns hold whole seconds since the epoch;
      columns written from [Date.toISOString()] hold milliseconds.
    - A rejected promise / thrown exception is the [Thrown] outcome of the
      monad [M]; writes made before the throw stay in the store (the code
      opens no transaction). *)

From Stdlib Require Import ZArith NArith Lia String Ascii List Bool.
From stdpp Require Import base option list gmap strings.

Local Open Scope Z_scope.

(** ** JavaScript strings *)

Module JS.

Definition jstring := list N.

(** A string literal of the source (ASCII only). *)
Definition js (s : string) : jstring :=
  List.map N_of_ascii (list_ascii_of_string s).

(** White space of [String.prototype.trim] and of the regex class [\s]:
    TAB, LF, VT, FF, CR, SP, NBSP, U+1680, U+2000..U+200A, LS, PS, U+202F,
    U+205F, U+3000 and the BOM U+FEFF. *)
Definition is_whitespace (c : N) : bool :=
  ((9 <=? c) && (c <=? 13) || (c =? 32) || (c =? 160) || (c =? 5760)
   || (8192 <=? c) && (c <=? 8202) || (c =? 8232) || (c =? 8233)
   || (c =? 8239) || (c =? 8287) || (c =? 12288) || (c =? 65279))%N.

Fixpoint trimStart (s : jstring) : jstring :=
  match s with
  | c :: s' => if is_whitespace c then trimStart s' else s
  | [] => []
  end.

Definition trimEnd (s : jstring) : jstring := rev (trimStart (rev s)).

Definition trim (s : jstring) : jstring := trimEnd (trimStart s).

Definition eqb (a b : jstring) : bool := bool_decide (a = b).

(** Truthiness of a string: non-empty. *)
Definition truthy (s : jstring) : bool :=
  match s with [] => false | _ => true end.

End JS.
Export JS.

(** ** src/utils/validation.ts *)

Module Validation.

Record ValidationResult := {
  isValid : bool;
  error : option string
}.

Definition msg_string_min : string := "Title must be at least 10 characters long".
Definition msg_string_max : string := "Title must not exceed 100 characters".
Definition msg_string_pattern : string :=
  "Title can only contain letters, numbers, spaces, and the following characters: - _ . , !".
(** Joi's stock message for [string.empty], which [titleSchema] does not
    override; the label of a value validated on its own is [value]. *)
Definition msg_string_empty : string :=
  String (ascii_of_nat 34) ("value" +:+ String (ascii_of_nat 34) " is not allowed to be empty").

Definition msg_desc_min : string := "Description must be at least 10 characters long.".

(** The character class [[a-zA-Z0-9\s\-_.,!]]. *)
Definition title_char (c : N) : bool :=
  ((97 <=? c) && (c <=? 122) || (65 <=? c) && (c <=? 90)
   || (48 <=? c) && (c <=? 57) || is_whitespace c
   || (c =? 45) || (c =? 95) || (c =? 46) || (c =? 44) || (c =? 33))%N.

(** [/^[a-zA-Z0-9\s\-_.,!]+$/.test(s)]: one or more characters, all of
    the class. *)
Definition title_pattern (s : jstring) : bool :=
  match s with
  | [] => false
  | _ => forallb title_char s
  end.

Definition strlen (s : jstring) : Z := Z.of_nat (length s).

(** The first failing rule of a Joi string schema (abortEarly): the base
    type refuses the empty string, then the rules run in the order in
    which the schema lists them. *)
Definition titleSchema_validate (title : jstring) : option string :=
  match title with
  | [] => Some msg_string_empty
  | _ =>
    if strlen title <? 10 then Some msg_string_min
    else if 100 <? strlen title then Some msg_string_max
    else if negb (title_pattern title) then Some msg_string_pattern
    else None
  end.

Definition descriptionSchema_validate (description : jstring) : option string :=
  match description with
  | [] => Some msg_string_empty
  | _ => if strlen description <? 10 then Some msg_desc_min else None
  end.

Definition validateTitle (title : jstring) : ValidationResult :=
  match titleSchema_validate title with
  | Some e => {| isValid := false; error := Some e |}
  | None => {| isValid := true; error := None |}
  end.

Definition validateDescription (description : jstring) : ValidationResult :=
  match descriptionSchema_validate description with
  | Some e => {| isValid := false; error := Some e |}
  | None => {| isValid := true; error := None |}
  end.

(** [/[\x00-\x1F\x7F]/] *)
Definition is_control (c : N) : bool := ((c <=? 31) || (c =? 127))%N.

Definition sanitizeInput (input : jstring) : jstring :=
  trim (List.filter (fun c => negb (is_control c)) input).

End Validation.
Export Validation.

(** ** types/index.ts *)

Module Types.

Inductive TicketLabel := BUG | IMPROVEMENT | REQUEST.

(** The string value of each enum member. *)
Definition TicketLabel_value (l : TicketLabel) : jstring :=
  match l with
  | BUG => js "Bug"
  | IMPROVEMENT => js "Improvement"
  | REQUEST => js "Request"
  end.

Inductive TicketPriority := URGENT | HIGH | MEDIUM | LOW.

Definition TicketPriority_value (p : TicketPriority) : jstring :=
  match p with
  | URGENT => js "Urgent"
  | HIGH => js "High"
  | MEDIUM => js "Medium"
  | LOW => js "Low"
  end.

Inductive TicketStatus := DRAFT | SUBMITTED | CREATED | FAILED.

(** [SessionState | LinearSessionState]. *)
Inductive SessionState :=
| IDLE | AWAITING_PASSWORD | AWAITING_CATEGORY | AWAITING_TITLE
| AWAITING_DESCRIPTION | AWAITING_LABEL | AWAITING_PRIORITY
| AWAITING_CONFIRMATION
| VIEWING_ISSUES | VIEWING_ISSUE_DETAIL | SELECTING_STATUS
| SELECTING_ASSIGNEE | ADDING_COMMENT | SEARCHING_ISSUES
| VIEWING_PROJECTS | UPDATING_STATUS | ASSIGNING_ISSUE | VIEWING_TEAMS.

(** A value held under a key of [ticketData].  [JUndefined] is a key that
    is present with the value [undefined]; [JSON.stringify] drops it. *)
Inductive jsval :=
| JStr (s : jstring)
| JBool (b : bool)
| JNum (n : Z)
| JUndefined.

#[global] Instance jsval_eq_dec : EqDecision jsval.
Proof. solve_decision. Defined.

(** [Session['ticketData']]: an object with string keys. *)
Abbreviation TicketData := (gmap string jsval).

Record Session := {
  userId : jstring;
  state : SessionState;
  ticketData : TicketData;
  lastActivity : Z;
  createdAt : Z
}.

(** [Partial<Session>] as the handlers build it: [userId] and [createdAt]
    are never among the keys. *)
Record SessionUpdates := {
  upd_state : option SessionState;
  upd_ticketData : option TicketData;
  upd_lastActivity : option Z
}.

Record User := {
  id : jstring;
  telegram_user_id : jstring;
  telegram_username : option jstring;
  full_name : jstring;
  department : jstring;
  email : option jstring;
  is_active : bool;
  is_authenticated : bool;
  created_at : Z;
  last_active : Z;
  tickets_created_today : Z;
  total_tickets_created : Z
}.

(** A row of [ticket_requests], which is also a [TicketRequest] once
    [mapRowToTicket] has rewritten its label. *)
Record TicketRequest := {
  t_id : jstring;
  t_telegram_user_id : jstring;
  t_telegram_username : option jstring;
  t_department : jstring;
  t_title : jstring;
  t_description : jstring;
  t_label : jstring;
  t_priority : jstring;
  t_status : TicketStatus;
  t_linear_ticket_id : option jstring;
  t_linear_ticket_url : option jstring;
  t_created_at : Z;
  t_submitted_at : option Z;
  t_session_data : option TicketData
}.

(** The argument of [Database.createTicket] as it is at run time: the
    handler reads [title], [description], [label] and [priority] from the
    session with a non-null assertion, so each may be [undefined]. *)
Record NewTicket := {
  n_telegram_user_id : jstring;
  n_telegram_username : option jstring;
  n_department : jstring;
  n_title : option jstring;
  n_description : option jstring;
  n_label : option jstring;
  n_priority : option jstring;
  n_status : TicketStatus;
  n_linear_ticket_id : option jstring;
  n_linear_ticket_url : option jstring;
  n_submitted_at : option Z;
  n_session_data : option TicketData
}.

(** The argument of [Database.createUser]. *)
Record NewUser := {
  u_telegram_user_id : jstring;
  u_telegram_username : option jstring;
  u_full_name : jstring;
  u_department : jstring;
  u_email : option jstring;
  u_is_active : bool;
  u_is_authenticated : bool
}.

Record AuditRow := {
  a_user_id : jstring;
  a_action : string;
  a_details : option jstring;
  a_created_at : Z
}.

(** What [JSON.parse (JSON.stringify d)] gives back. *)
Definition json_roundtrip (d : TicketData) : TicketData :=
  base.filter (fun kv => kv.2 <> JUndefined) d.

(** [{ ...a, ...b }]: the keys of [b] win. *)
Definition spread (a b : TicketData) : TicketData := b ∪ a.

(** A string-typed field of [ticketData] ([Partial<TicketRequest>]: [id],
    [title], [description], [label], [priority] are strings when present);
    a value of another type is outside the declared type and is read as
    absent. *)
Definition field_str (d : TicketData) (k : string) : option jstring :=
  match d !! k with
  | Some (JStr s) => Some s
  | _ => None
  end.

(** Truthiness of a property read. *)
Definition field_truthy (d : TicketData) (k : string) : bool :=
  match d !! k with
  | Some (JStr s) => JS.truthy s
  | Some (JBool b) => b
  | Some (JNum n) => negb (n =? 0)
  | Some JUndefined | None => false
  end.

End Types.
Export Types.

(** ** The store, the outbound calls and the monad of the handlers *)

Module World.

(** The four tables of [Database.initialize]; a table is the list of its
    rows in insertion order. *)
Record DB := {
  users : list User;
  ticket_requests : list TicketRequest;
  sessions : list Session;
  audit_log : list AuditRow
}.

Definition empty_db : DB :=
  {| users := []; ticket_requests := []; sessions := []; audit_log := [] |}.

(** The texts the modelled handlers send, one constructor per template
    of the source (keyboards are left out). *)
Inductive BotMessage :=
| MsgPleaseStart            (* 'Please start with /start [name_department] to begin.' *)
| MsgUseMenuButtons         (* 'Please use the menu buttons to interact with the bot.' *)
| MsgUseProvidedButtons     (* 'Please use the provided buttons to make your selection.' *)
| MsgErrorOccurred          (* 'Sorry, an error occurred. Please try again.' *)
| MsgTitleInvalid (reason : string)   (* validation.error, 'Please provide a valid title:' *)
| MsgTitleDuplicate         (* 'A ticket with this exact title was created in the last 30 days. ...' *)
| MsgTitleSaved             (* 'Title saved! Now, please provide a description ...' *)
| MsgDescriptionInvalid (reason : string) (* validation.error, 'Please provide more detail:' *)
| MsgDescriptionSavedSummary (d : TicketData) (* 'Description saved!' + formatTicketSummary(d) *)
| MsgDescriptionSavedLabel  (* 'Description saved! Now, please select the appropriate label ...' *)
| MsgSessionExpired         (* 'Session expired. Please try again.' *)
| MsgCommentAdded           (* 'Comment added successfully!' *)
| MsgCommentFailed          (* 'Failed to add comment. Please try again.' *)
| MsgNeedAuthentication     (* 'You need to authenticate first. Please use /start to begin.' *)
| MsgDailyLimit (max : Z)   (* 'You've reached your daily limit of ${max} tickets. ...' *)
| MsgSelectCategory         (* 'Creating New Ticket ... Please select the category ...' *)
| MsgGuidelines             (* 'Ticket Creation Guidelines ...' *)
| MsgContactSupport         (* 'Contact Support ...' *)
| MsgCategorySelected (category : jstring) (* 'Category selected: ${category} ... provide a clear title' *)
| MsgLabelOfferTemplate (label : jstring)  (* 'Label selected: ... use a template ...?' *)
| MsgLabelSelectPriority (label : jstring) (* 'Label selected: ... select the priority level:' *)
| MsgReviewSummary (d : TicketData)        (* formatTicketSummary(d) + 'Please review and confirm:' *)
| MsgCreating               (* 'Creating your ticket in Linear...' *)
| MsgTicketCreated (identifier url : jstring) (* 'Ticket Created Successfully! ...' *)
| MsgNewTicketNotice (identifier url : jstring) (d : TicketData) (* 'New Ticket Created ...' to the reviewer *)
| MsgCreateFailed           (* 'Failed to create ticket. Your request has been saved and will be retried. ...' *)
| MsgWhatToEdit             (* 'What would you like to edit?' *)
| MsgCancelled              (* 'Ticket creation cancelled. What would you like to do?' *)
| MsgEnterNewTitle | MsgEnterNewDescription | MsgSelectNewLabel | MsgSelectNewPriority.

Inductive BotCall :=
| SendMessage (chatId : Z) (m : BotMessage)
| SendMessageTo (chat : jstring) (m : BotMessage)
| EditMessageText (chatId messageId : Z) (m : BotMessage)
| AnswerCallbackQuery.

Inductive Exn :=
| SqliteConstraint (what : string)
| Error (message : string)
| TypeError (message : string).

Inductive outcome (A : Type) :=
| Returned (a : A)
| Thrown (e : Exn).
Arguments Returned {A} a.
Arguments Thrown {A} e.

(** The store and the calls made to the Telegram API so far (oldest
    first).  Telegram calls are taken to succeed; log lines are not kept. *)
Record World := {
  db : DB;
  sent : list BotCall
}.

Definition M (A : Type) : Type := World -> World * outcome A.

Definition ret {A} (a : A) : M A := fun w => (w, Returned a).

Definition bind {A B} (m : M A) (k : A -> M B) : M B :=
  fun w =>
    match m w with
    | (w', Returned a) => k a w'
    | (w', Thrown e) => (w', Thrown e)
    end.

Definition throw {A} (e : Exn) : M A := fun w => (w, Thrown e).

(** [try { m } catch (e) { h e }] *)
Definition try_catch {A} (m : M A) (h : Exn -> M A) : M A :=
  fun w =>
    match m w with
    | (w', Thrown e) => h e w'
    | r => r
    end.

Definition read_db : M DB := fun w => (w, Returned (db w)).

Definition write_db (d : DB) : M unit :=
  fun w => ({| db := d; sent := sent w |}, Returned tt).

Definition bot (c : BotCall) : M unit :=
  fun w => ({| db := db w; sent := sent w ++ [c] |}, Returned tt).

Definition when (b : bool) (m : M unit) : M unit := if b then m else ret tt.

End World.
Export World.

Notation "'let*' x ':=' m 'in' k" := (bind m (fun x => k))
  (at level 10, x name, m at level 100, k at level 200).
Notation "'exec' m 'in' k" := (bind m (fun _ => k))
  (at level 10, m at level 100, k at level 200).

(** ** db/database.ts *)

Module Database.

(** [x || null] on an optional string. *)
Definition or_null (x : option jstring) : option jstring :=
  match x with
  | Some s => if JS.truthy s then Some s else None
  | None => None
  end.

(** [CURRENT_TIMESTAMP], in seconds. *)
Definition current_timestamp (now : Z) : Z := now / 1000.

(** [date('now', '-D days')]: midnight (UTC) of the day [D] days before
    today, in seconds.  A [created_at] text 'YYYY-MM-DD HH:MM:SS' is [>=]
    the text 'YYYY-MM-DD' of a day exactly when its instant is not
    before that midnight. *)
Definition date_now_minus_days (now : Z) (days : Z) : Z :=
  (now / 86400000 - days) * 86400.

(** [datetime(x)] of an ISO text with milliseconds: whole seconds. *)
Definition datetime_of_ms (ms : Z) : Z := ms / 1000.

Definition user_exists (d : DB) (u : jstring) : bool :=
  existsb (fun r => JS.eqb (telegram_user_id r) u) (users d).

Definition set_users (d : DB) (us : list User) : DB :=
  {| users := us; ticket_requests := ticket_requests d;
     sessions := sessions d; audit_log := audit_log d |}.

Definition set_tickets (d : DB) (ts : list TicketRequest) : DB :=
  {| users := users d; ticket_requests := ts;
     sessions := sessions d; audit_log := audit_log d |}.

Definition set_sessions (d : DB) (ss : list Session) : DB :=
  {| users := users d; ticket_requests := ticket_requests d;
     sessions := ss; audit_log := audit_log d |}.

Definition set_audit (d : DB) (al : list AuditRow) : DB :=
  {| users := users d; ticket_requests := ticket_requests d;
     sessions := sessions d; audit_log := al |}.

(** *** User methods *)

Definition getUserById (telegramUserId : jstring) : M (option User) :=
  let* d := read_db in
  ret (List.find (fun r => JS.eqb (telegram_user_id r) telegramUserId) (users d)).

(** The [INSERT INTO users] of [createUser]; [id] is the primary key and
    [telegram_user_id] is [UNIQUE]. *)
Definition createUser (newId : jstring) (now : Z) (user : NewUser) : M User :=
  let* d := read_db in
  if existsb (fun r => JS.eqb (id r) newId) (users d)
  then throw (SqliteConstraint "UNIQUE constraint failed: users.id")
  else if user_exists d (u_telegram_user_id user)
  then throw (SqliteConstraint "UNIQUE constraint failed: users.telegram_user_id")
  else
    exec write_db (set_users d (users d ++
      [{| id := newId; telegram_user_id := u_telegram_user_id user;
          telegram_username := or_null (u_telegram_username user);
          full_name := u_full_name user; department := u_department user;
          email := or_null (u_email user);
          is_active := u_is_active user;
          is_authenticated := u_is_authenticated user;
          created_at := current_timestamp now;
          last_active := current_timestamp now;
          tickets_created_today := 0; total_tickets_created := 0 |}])) in
    let* newUser := getUserById (u_telegram_user_id user) in
    match newUser with
    | None => throw (Error "Failed to create user")
    | Some u => ret u
    end.

Definition touch (now : Z) (telegramUserId : jstring) (r : User) : User :=
  if JS.eqb (telegram_user_id r) telegramUserId then
    {| id := id r; telegram_user_id := telegram_user_id r;
       telegram_username := telegram_username r; full_name := full_name r;
       department := department r; email := email r;
       is_active := is_active r; is_authenticated := is_authenticated r;
       created_at := created_at r; last_active := current_timestamp now;
       tickets_created_today := tickets_created_today r;
       total_tickets_created := total_tickets_created r |}
  else r.

Definition updateUserLastActive (now : Z) (telegramUserId : jstring) : M unit :=
  let* d := read_db in
  write_db (set_users d (List.map (touch now telegramUserId) (users d))).

Definition authenticate (isAuthenticated : bool) (telegramUserId : jstring) (r : User) : User :=
  if JS.eqb (telegram_user_id r) telegramUserId then
    {| id := id r; telegram_user_id := telegram_user_id r;
       telegram_username := telegram_username r; full_name := full_name r;
       department := department r; email := email r;
       is_active := is_active r; is_authenticated := isAuthenticated;
       created_at := created_at r; last_active := last_active r;
       tickets_created_today := tickets_created_today r;
       total_tickets_created := total_tickets_created r |}
  else r.

Definition updateUserAuthentication (telegramUserId : jstring) (isAuthenticated : bool) : M unit :=
  let* d := read_db in
  write_db (set_users d (List.map (authenticate isAuthenticated telegramUserId) (users d))).

Definition bump (telegramUserId : jstring) (r : User) : User :=
  if JS.eqb (telegram_user_id r) telegramUserId then
    {| id := id r; telegram_user_id := telegram_user_id r;
       telegram_username := telegram_username r; full_name := full_name r;
       department := department r; email := email r;
       is_active := is_active r; is_authenticated := is_authenticated r;
       created_at := created_at r; last_active := last_active r;
       tickets_created_today := tickets_created_today r + 1;
       total_tickets_created := total_tickets_created r + 1 |}
  else r.

Definition incrementUserTicketCount (telegramUserId : jstring) : M unit :=
  let* d := read_db in
  write_db (set_users d (List.map (bump telegramUserId) (users d))).

Definition zero_today (r : User) : User :=
  {| id := id r; telegram_user_id := telegram_user_id r;
     telegram_username := telegram_username r; full_name := full_name r;
     department := department r; email := email r;
     is_active := is_active r; is_authenticated := is_authenticated r;
     created_at := created_at r; last_active := last_active r;
     tickets_created_today := 0;
     total_tickets_created := total_tickets_created r |}.

Definition resetDailyTicketCounts : M unit :=
  let* d := read_db in
  write_db (set_users d (List.map zero_today (users d))).

Definition getUserTicketsToday (telegramUserId : jstring) : M Z :=
  let* d := read_db in
  ret (match List.find (fun r => JS.eqb (telegram_user_id r) telegramUserId) (users d) with
       | Some row => tickets_created_today row
       | None => 0
       end).

(** *** Ticket methods *)

(** [CHECK (label IN ('Bug', 'Improvement', 'Design', 'Feature', 'Other'))] *)
Definition check_label (l : jstring) : bool :=
  existsb (JS.eqb l)
    [js "Bug"; js "Improvement"; js "Design"; js "Feature"; js "Other"].

(** [CHECK (priority IN ('Urgent', 'High', 'Medium', 'Low'))] *)
Definition check_priority (p : jstring) : bool :=
  existsb (JS.eqb p) [js "Urgent"; js "High"; js "Medium"; js "Low"].

Definition mapRowToTicket (row : TicketRequest) : TicketRequest :=
  let appLabel := if JS.eqb (t_label row) (js "Other") then js "Request" else t_label row in
  {| t_id := t_id row; t_telegram_user_id := t_telegram_user_id row;
     t_telegram_username := t_telegram_username row;
     t_department := t_department row; t_title := t_title row;
     t_description := t_description row; t_label := appLabel;
     t_priority := t_priority row; t_status := t_status row;
     t_linear_ticket_id := t_linear_ticket_id row;
     t_linear_ticket_url := t_linear_ticket_url row;
     t_created_at := t_created_at row; t_submitted_at := t_submitted_at row;
     t_session_data := t_session_data row |}.

Definition getTicketById (id : jstring) : M (option TicketRequest) :=
  let* d := read_db in
  ret (option_map mapRowToTicket
         (List.find (fun r => JS.eqb (t_id r) id) (ticket_requests d))).

(** The [INSERT INTO ticket_requests] of [createTicket]: the row it
    appends, or the constraint it violates.  [newId] is the value of
    [generateId()]. *)
Definition insert_ticket (d : DB) (newId : jstring) (now : Z)
    (ticket : NewTicket) (dbLabel : option jstring) : Exn + TicketRequest :=
  if existsb (fun r => JS.eqb (t_id r) newId) (ticket_requests d)
  then inl (SqliteConstraint "UNIQUE constraint failed: ticket_requests.id")
  else
    match n_title ticket, n_description ticket, dbLabel, n_priority ticket with
    | Some title, Some description, Some label, Some priority =>
      if negb (check_label label) then inl (SqliteConstraint "CHECK constraint failed: label")
      else if negb (check_priority priority) then inl (SqliteConstraint "CHECK constraint failed: priority")
      else if negb (user_exists d (n_telegram_user_id ticket))
      then inl (SqliteConstraint "FOREIGN KEY constraint failed")
      else inr
        {| t_id := newId;
           t_telegram_user_id := n_telegram_user_id ticket;
           t_telegram_username := or_null (n_telegram_username ticket);
           t_department := n_department ticket;
           t_title := title; t_description := description;
           t_label := label; t_priority := priority;
           t_status := n_status ticket;
           t_linear_ticket_id := or_null (n_linear_ticket_id ticket);
           t_linear_ticket_url := or_null (n_linear_ticket_url ticket);
           t_created_at := current_timestamp now;
           t_submitted_at := n_submitted_at ticket;
           t_session_data := option_map json_roundtrip (n_session_data ticket) |}
    | _, _, _, _ => inl (SqliteConstraint "NOT NULL constraint failed")
    end.

Definition createTicket (newId : jstring) (now : Z) (ticket : NewTicket) : M TicketRequest :=
  (* Map 'Request' to 'Other' for database compatibility *)
  let dbLabel :=
    match n_label ticket with
    | Some l => Some (if JS.eqb l (js "Request") then js "Other" else l)
    | None => None
    end in
  let* d := read_db in
  match insert_ticket d newId now ticket dbLabel with
  | inl e => throw e
  | inr row =>
    exec write_db (set_tickets d (ticket_requests d ++ [row])) in
    let* newTicket := getTicketById newId in
    match newTicket with
    | None => throw (Error "Failed to create ticket")
    | Some t => ret t
    end
  end.

Definition set_status (id : jstring) (status : TicketStatus)
    (linear : option (jstring * jstring * Z)) (r : TicketRequest) : TicketRequest :=
  if JS.eqb (t_id r) id then
    {| t_id := t_id r; t_telegram_user_id := t_telegram_user_id r;
       t_telegram_username := t_telegram_username r;
       t_department := t_department r; t_title := t_title r;
       t_description := t_description r; t_label := t_label r;
       t_priority := t_priority r; t_status := status;
       t_linear_ticket_id :=
         match linear with Some (i, _, _) => Some i | None => t_linear_ticket_id r end;
       t_linear_ticket_url :=
         match linear with Some (_, u, _) => Some u | None => t_linear_ticket_url r end;
       t_created_at := t_created_at r;
       t_submitted_at :=
         match linear with Some (_, _, ts) => Some ts | None => t_submitted_at r end;
       t_session_data := t_session_data r |}
  else r.

Definition updateTicketStatus (now : Z) (id : jstring) (status : TicketStatus)
    (linearTicketId linearTicketUrl : option jstring) : M unit :=
  let linear :=
    match or_null linearTicketId, or_null linearTicketUrl with
    | Some i, Some u => Some (i, u, current_timestamp now)
    | _, _ => None
    end in
  let* d := read_db in
  write_db (set_tickets d (List.map (set_status id status linear) (ticket_requests d))).

(** The rows selected by
    [WHERE title = ? AND created_at >= date('now', '-${dayLimit} days')]. *)
Definition duplicate_rows (d : DB) (now : Z) (title : jstring) (dayLimit : Z)
    : list TicketRequest :=
  List.filter
    (fun r => JS.eqb (t_title r) title
              && (date_now_minus_days now dayLimit <=? t_created_at r))
    (ticket_requests d).

Definition findDuplicateTicket (now : Z) (title : jstring) (dayLimit : Z) : M bool :=
  let* d := read_db in
  let count := Z.of_nat (length (duplicate_rows d now title dayLimit)) in
  ret (0 <? count).

(** *** Session methods *)

(** [INSERT OR REPLACE INTO sessions]: a row with the same primary key
    [user_id] is deleted before the new row is inserted; the foreign key
    to [users] is enforced ([PRAGMA foreign_keys = ON]). *)
Definition saveSession (session : Session) : M unit :=
  let* d := read_db in
  if negb (user_exists d (userId session))
  then throw (SqliteConstraint "FOREIGN KEY constraint failed")
  else
    let row :=
      {| userId := userId session; state := state session;
         ticketData := json_roundtrip (ticketData session);
         lastActivity := lastActivity session;
         createdAt := createdAt session |} in
    write_db (set_sessions d
      (List.filter (fun r => negb (JS.eqb (userId r) (userId session))) (sessions d)
       ++ [row])).

Definition getSession (userId' : jstring) : M (option Session) :=
  let* d := read_db in
  ret (List.find (fun r => JS.eqb (userId r) userId') (sessions d)).

Definition deleteSession (userId' : jstring) : M unit :=
  let* d := read_db in
  write_db (set_sessions d
    (List.filter (fun r => negb (JS.eqb (userId r) userId')) (sessions d))).

(** [DELETE FROM sessions WHERE datetime(last_activity) <
    datetime('now', '-${timeoutMinutes} minutes')].  The number is pasted
    after a minus sign: for a negative one the modifier reads
    ['--5 minutes'], which SQLite does not accept, so [datetime] is NULL,
    the comparison is NULL for every row and no row is deleted. *)
Definition cleanupExpiredSessions (now : Z) (timeoutMinutes : Z) : M unit :=
  let* d := read_db in
  if timeoutMinutes <? 0 then ret tt
  else
    write_db (set_sessions d
      (List.filter
         (fun r => negb (datetime_of_ms (lastActivity r)
                         <? current_timestamp now - timeoutMinutes * 60))
         (sessions d))).

(** *** Audit methods *)

Definition addAuditLog (now : Z) (userId' : jstring) (action : string)
    (details : option jstring) : M unit :=
  let* d := read_db in
  if negb (user_exists d userId')
  then throw (SqliteConstraint "FOREIGN KEY constraint failed")
  else
    write_db (set_audit d
      (audit_log d ++
       [{| a_user_id := userId'; a_action := action;
           a_details := or_null details;
           a_created_at := current_timestamp now |}])).

End Database.

(** ** bot/sessionManager.ts *)

Module SessionManager.

Section WithTimeout.

(** [this.timeoutMinutes], set from [config.session.timeoutMinutes]. *)
Variable timeoutMinutes : Z.

Definition deleteSession (now : Z) (userId' : jstring) : M unit :=
  exec Database.deleteSession userId' in
  Database.addAuditLog now userId' "SESSION_DELETED" None.

Definition createSession (now : Z) (userId' : jstring) : M Session :=
  let session :=
    {| userId := userId'; state := IDLE; ticketData := ∅;
       lastActivity := now; createdAt := now |} in
  exec Database.saveSession session in
  exec Database.addAuditLog now userId' "SESSION_CREATED" None in
  ret session.

(** [minutesSinceActivity > this.timeoutMinutes], where
    [minutesSinceActivity] is [(now - lastActivity) / (1000 * 60)]: the
    quotient is compared as a real number, so the test is on the
    milliseconds. *)
Definition expired (now : Z) (session : Session) : bool :=
  timeoutMinutes * (1000 * 60) <? now - lastActivity session.

Definition getSession (now : Z) (userId' : jstring) : M (option Session) :=
  let* session := Database.getSession userId' in
  match session with
  | Some s =>
    if expired now s then
      exec deleteSession now userId' in
      ret None
    else ret (Some s)
  | None => ret None
  end.

(** [{ ...session, ...updates, lastActivity: new Date() }] *)
Definition updateSession (now : Z) (userId' : jstring) (updates : SessionUpdates) : M unit :=
  let* session := getSession now userId' in
  match session with
  | None => throw (Error "Session not found")
  | Some s =>
    let updatedSession :=
      {| userId := userId s;
         state := default (state s) (upd_state updates);
         ticketData := default (ticketData s) (upd_ticketData updates);
         lastActivity := now;
         createdAt := createdAt s |} in
    Database.saveSession updatedSession
  end.

Definition updateSessionState (now : Z) (userId' : jstring) (st : SessionState) : M unit :=
  updateSession now userId'
    {| upd_state := Some st; upd_ticketData := None; upd_lastActivity := None |}.

Definition updateTicketData (now : Z) (userId' : jstring) (partial : TicketData) : M unit :=
  let* session := getSession now userId' in
  match session with
  | None => throw (Error "Session not found")
  | Some s =>
    updateSession now userId'
      {| upd_state := None;
         upd_ticketData := Some (spread (ticketData s) partial);
         upd_lastActivity := None |}
  end.

Definition isSessionActive (now : Z) (userId' : jstring) : M bool :=
  let* session := getSession now userId' in
  ret (match session with Some _ => true | None => false end).

(** The body run by [startCleanupInterval] every five minutes; an error
    is logged and swallowed. *)
Definition cleanupTick (now : Z) : M unit :=
  try_catch (Database.cleanupExpiredSessions now timeoutMinutes)
            (fun _ => ret tt).

End WithTimeout.

End SessionManager.

(** ** config/index.ts *)

Module Config.

Record RateLimit := {
  maxTicketsPerDay : Z;
  windowMs : Z
}.

(** The keys of [config] the workflow reads.  [rateLimit] is optional
    here because the handler reads it while the object literal of the
    source has it commented out. *)
Record Config := {
  session_timeoutMinutes : Z;
  rateLimit : option RateLimit;
  auth_reginaChatId : jstring
}.

(** The environment variables behind those keys, already parsed. *)
Record Env := {
  SESSION_TIMEOUT_MINUTES : option Z;
  REGINA_CHAT_ID : option jstring
}.

Definition config (env : Env) : Config :=
  {| session_timeoutMinutes := default 30 (SESSION_TIMEOUT_MINUTES env);
     (* Rate limiting removed
        rateLimit: { maxTicketsPerDay: ..., windowMs: ... }, *)
     rateLimit := None;
     auth_reginaChatId := default [] (REGINA_CHAT_ID env) |}.

End Config.
Export Config.

(** ** The Ticket Tracker Gateway as the handlers see it *)

Module Gateway.

Record LinearTicket := {
  lt_id : jstring;
  lt_identifier : jstring;
  lt_url : jstring
}.

(** What the tracker answers during one event: [LinearService.createTicket]
    resolves to a ticket or throws; [LinearService.addComment] resolves to
    a comment ([true]) or to [null] ([false]) and never throws. *)
Record Answers := {
  createTicket_answer : option LinearTicket;
  addComment_answer : bool
}.

Definition createTicket (g : Answers) : M LinearTicket :=
  match createTicket_answer g with
  | Some t => ret t
  | None => throw (Error "Failed to create ticket in Linear. Please try again later.")
  end.

Definition addComment (g : Answers) : M bool := ret (addComment_answer g).

End Gateway.
Export Gateway.

(** ** bot/handlers/messageHandler.ts *)

Module MessageHandler.

Record Message := {
  chat_id : Z;
  from_id : option jstring;
  text : option jstring
}.

Section Handler.

Variable cfg : Config.
Variable gw : Answers.
Variable now : Z.

Let timeout := session_timeoutMinutes cfg.

Definition handleTitleInput (chatId : Z) (userId' : jstring) (text' : jstring) : M unit :=
  let sanitizedTitle := sanitizeInput text' in
  let validation := validateTitle sanitizedTitle in
  if negb (isValid validation) then
    bot (SendMessage chatId (MsgTitleInvalid (default "undefined" (error validation))))
  else
    let* isDuplicate := Database.findDuplicateTicket now sanitizedTitle 30 in
    if isDuplicate : bool then
      bot (SendMessage chatId MsgTitleDuplicate)
    else
      exec SessionManager.updateTicketData timeout now userId'
             {[ "title" := JStr sanitizedTitle ]} in
      exec SessionManager.updateSessionState timeout now userId' AWAITING_DESCRIPTION in
      bot (SendMessage chatId MsgTitleSaved).

Definition handleDescriptionInput (chatId : Z) (userId' : jstring) (text' : jstring) : M unit :=
  let* session := SessionManager.getSession timeout now userId' in
  match session with
  | None => ret tt
  | Some session =>
    let* saved :=
      if field_truthy (ticketData session) "awaitingTemplate" then
        exec SessionManager.updateTicketData timeout now userId'
               (<[ "description" := JStr text' ]>
                  {[ "awaitingTemplate" := JBool false ]}) in
        ret true
      else
        let sanitizedDescription := sanitizeInput text' in
        let validation := validateDescription sanitizedDescription in
        if negb (isValid validation) then
          exec bot (SendMessage chatId
                 (MsgDescriptionInvalid (default "undefined" (error validation)))) in
          ret false
        else
          exec SessionManager.updateTicketData timeout now userId'
                 {[ "description" := JStr sanitizedDescription ]} in
          ret true in
    if negb saved then ret tt
    else if field_truthy (ticketData session) "label" then
      exec SessionManager.updateSessionState timeout now userId' AWAITING_CONFIRMATION in
      exec SessionManager.updateTicketData timeout now userId'
             {[ "priority" := JStr (TicketPriority_value MEDIUM) ]} in
      bot (SendMessage chatId (MsgDescriptionSavedSummary (ticketData session)))
    else
      exec SessionManager.updateSessionState timeout now userId' AWAITING_LABEL in
      bot (SendMessage chatId MsgDescriptionSavedLabel)
  end.

Definition handleCommentInput (chatId : Z) (userId' : jstring) (comment : jstring) : M unit :=
  try_catch
    (let* session := SessionManager.getSession timeout now userId' in
     match session with
     | Some s =>
       if field_truthy (ticketData s) "issueId" then
         let* result := Gateway.addComment gw in
         exec bot (SendMessage chatId
                (if result : bool then MsgCommentAdded else MsgCommentFailed)) in
         SessionManager.updateSession timeout now userId'
           {| upd_state := Some IDLE; upd_ticketData := Some ∅;
              upd_lastActivity := None |}
       else bot (SendMessage chatId MsgSessionExpired)
     | None => bot (SendMessage chatId MsgSessionExpired)
     end)
    (fun _ => bot (SendMessage chatId MsgErrorOccurred)).

(** The [switch (session.state)] of [handleMessage]. *)
Definition route (chatId : Z) (userId' : jstring) (text' : jstring)
    (st : SessionState) : M unit :=
  match st with
  | AWAITING_TITLE => handleTitleInput chatId userId' text'
  | AWAITING_DESCRIPTION => handleDescriptionInput chatId userId' text'
  | IDLE => bot (SendMessage chatId MsgUseMenuButtons)
  | ADDING_COMMENT => handleCommentInput chatId userId' text'
  | UPDATING_STATUS | ASSIGNING_ISSUE =>
    (* These are handled by callback buttons *)
    bot (SendMessage chatId MsgUseProvidedButtons)
  | _ => bot (SendMessage chatId MsgUseProvidedButtons)
  end.

Definition handleMessage (msg : Message) : M unit :=
  let chatId := chat_id msg in
  match from_id msg, option_map JS.trim (text msg) with
  | Some userId', Some text' =>
    if negb (JS.truthy userId') || negb (JS.truthy text') then ret tt
    else
      try_catch
        (let* session := SessionManager.getSession timeout now userId' in
         match session with
         | None => bot (SendMessage chatId MsgPleaseStart)
         | Some session =>
           (* Update last activity *)
           exec SessionManager.updateSession timeout now userId'
                  {| upd_state := None; upd_ticketData := None;
                     upd_lastActivity := Some now |} in
           (* Route based on session state *)
           route chatId userId' text' (state session)
         end)
        (fun _ => bot (SendMessage chatId MsgErrorOccurred))
  | _, _ => ret tt
  end.

End Handler.

End MessageHandler.

(** ** bot/handlers/commandHandler.ts: [CallbackHandler], creation flow *)

Module CallbackHandler.

(** The cases of the [switch (action)] of [handleCallback] that belong to
    ticket creation. *)
Inductive CallbackAction :=
| CbAction | CbCategory | CbLabel | CbPriority | CbConfirm | CbEdit.

(** A callback query whose chat, message and data are present, with its
    data already split at the first colon. *)
Record CallbackQuery := {
  q_chatId : Z;
  q_messageId : Z;
  q_from : jstring;
  q_action : CallbackAction;
  q_value : jstring
}.

(** The object [handleConfirmation] passes to [db.createTicket]. *)
Definition draft_ticket (userId' : jstring) (user : User) (session : Session) : NewTicket :=
  {| n_telegram_user_id := userId';
     n_telegram_username := telegram_username user;
     n_department := department user;
     n_title := field_str (ticketData session) "title";
     n_description := field_str (ticketData session) "description";
     n_label := field_str (ticketData session) "label";
     n_priority := field_str (ticketData session) "priority";
     n_status := SUBMITTED;
     n_linear_ticket_id := None;
     n_linear_ticket_url := None;
     n_submitted_at := None;
     n_session_data := None |}.

Section Handler.

Variable cfg : Config.
Variable gw : Answers.
Variable now : Z.
(** The value [generateId()] returns if it is called in this event. *)
Variable newId : jstring.

Let timeout := session_timeoutMinutes cfg.

Definition handleAction (chatId messageId : Z) (userId' : jstring) (action : jstring) : M unit :=
  if JS.eqb action (js "create_ticket") then
    (* Check rate limit *)
    let* ticketsToday := Database.getUserTicketsToday userId' in
    match rateLimit cfg with
    | None =>
      throw (TypeError "Cannot read properties of undefined (reading 'maxTicketsPerDay')")
    | Some rl =>
      if maxTicketsPerDay rl <=? ticketsToday then
        bot (EditMessageText chatId messageId (MsgDailyLimit (maxTicketsPerDay rl)))
      else
        (* Start ticket creation flow with category selection *)
        exec SessionManager.updateSessionState timeout now userId' AWAITING_CATEGORY in
        bot (EditMessageText chatId messageId MsgSelectCategory)
    end
  else if JS.eqb action (js "view_guidelines") then
    bot (EditMessageText chatId messageId MsgGuidelines)
  else if JS.eqb action (js "contact_support") then
    bot (EditMessageText chatId messageId MsgContactSupport)
  else ret tt.

Definition handleCategorySelection (chatId messageId : Z) (userId' : jstring)
    (category : jstring) : M unit :=
  exec SessionManager.updateTicketData timeout now userId'
         {[ "label" := JStr category ]} in
  exec SessionManager.updateSessionState timeout now userId' AWAITING_TITLE in
  bot (EditMessageText chatId messageId (MsgCategorySelected category)).

Definition handleLabelSelection (chatId messageId : Z) (userId' : jstring)
    (label : jstring) : M unit :=
  exec SessionManager.updateTicketData timeout now userId'
         {[ "label" := JStr label ]} in
  exec SessionManager.updateSessionState timeout now userId' AWAITING_PRIORITY in
  (* getTemplateKeyboard(label) is defined for the Bug label only *)
  if JS.eqb label (TicketLabel_value BUG) then
    bot (EditMessageText chatId messageId (MsgLabelOfferTemplate label))
  else
    bot (EditMessageText chatId messageId (MsgLabelSelectPriority label)).

Definition handlePrioritySelection (chatId messageId : Z) (userId' : jstring)
    (priority : jstring) : M unit :=
  exec SessionManager.updateTicketData timeout now userId'
         {[ "priority" := JStr priority ]} in
  exec SessionManager.updateSessionState timeout now userId' AWAITING_CONFIRMATION in
  let* session := SessionManager.getSession timeout now userId' in
  match session with
  | None => ret tt
  | Some session =>
    bot (EditMessageText chatId messageId (MsgReviewSummary (ticketData session)))
  end.

Definition handleConfirmation (chatId messageId : Z) (userId' : jstring)
    (action : jstring) (user : User) : M unit :=
  let* session := SessionManager.getSession timeout now userId' in
  match session with
  | None => ret tt
  | Some session =>
    if JS.eqb action (js "yes") then
      exec bot (EditMessageText chatId messageId MsgCreating) in
      try_catch
        ((* Save ticket to database first *)
         let* ticketRecord :=
           Database.createTicket newId now (draft_ticket userId' user session) in
         (* Create in Linear *)
         let* linearTicket := Gateway.createTicket gw in
         (* Update database with Linear info *)
         exec Database.updateTicketStatus now (t_id ticketRecord) CREATED
                (Some (lt_id linearTicket)) (Some (lt_url linearTicket)) in
         (* Update user counters *)
         exec Database.incrementUserTicketCount userId' in
         (* Clear session *)
         exec SessionManager.updateSession timeout now userId'
                {| upd_state := Some IDLE; upd_ticketData := Some ∅;
                   upd_lastActivity := None |} in
         exec bot (EditMessageText chatId messageId
                (MsgTicketCreated (lt_identifier linearTicket) (lt_url linearTicket))) in
         exec Database.addAuditLog now userId' "TICKET_CREATED"
                (Some (lt_identifier linearTicket)) in
         (* Notify Regina about the new ticket *)
         when (JS.truthy (auth_reginaChatId cfg))
           (bot (SendMessageTo (auth_reginaChatId cfg)
              (MsgNewTicketNotice (lt_identifier linearTicket) (lt_url linearTicket)
                 (ticketData session)))))
        (fun _ =>
           (* Update ticket status to failed *)
           exec
             match field_str (ticketData session) "id" with
             | Some i =>
               when (JS.truthy i)
                 (Database.updateTicketStatus now i FAILED None None)
             | None => ret tt
             end in
           bot (EditMessageText chatId messageId MsgCreateFailed))
    else if JS.eqb action (js "edit") then
      bot (EditMessageText chatId messageId MsgWhatToEdit)
    else if JS.eqb action (js "cancel") then
      exec SessionManager.updateSession timeout now userId'
             {| upd_state := Some IDLE; upd_ticketData := Some ∅;
                upd_lastActivity := None |} in
      bot (EditMessageText chatId messageId MsgCancelled)
    else ret tt
  end.

Definition handleEdit (chatId messageId : Z) (userId' : jstring) (field : jstring) : M unit :=
  let* session := SessionManager.getSession timeout now userId' in
  match session with
  | None => ret tt
  | Some session =>
    if JS.eqb field (js "title") then
      exec SessionManager.updateSessionState timeout now userId' AWAITING_TITLE in
      bot (EditMessageText chatId messageId MsgEnterNewTitle)
    else if JS.eqb field (js "description") then
      exec SessionManager.updateSessionState timeout now userId' AWAITING_DESCRIPTION in
      bot (EditMessageText chatId messageId MsgEnterNewDescription)
    else if JS.eqb field (js "label") then
      exec SessionManager.updateSessionState timeout now userId' AWAITING_LABEL in
      bot (EditMessageText chatId messageId MsgSelectNewLabel)
    else if JS.eqb field (js "priority") then
      exec SessionManager.updateSessionState timeout now userId' AWAITING_PRIORITY in
      bot (EditMessageText chatId messageId MsgSelectNewPriority)
    else if JS.eqb field (js "back") then
      exec SessionManager.updateSessionState timeout now userId' AWAITING_CONFIRMATION in
      bot (EditMessageText chatId messageId (MsgReviewSummary (ticketData session)))
    else ret tt
  end.

Definition handleCallback (query : CallbackQuery) : M unit :=
  let chatId := q_chatId query in
  let messageId := q_messageId query in
  let userId' := q_from query in
  let value := q_value query in
  try_catch
    ((* Answer callback to remove loading state *)
     exec bot AnswerCallbackQuery in
     (* Check if user is authenticated *)
     let* user := Database.getUserById userId' in
     match user with
     | Some u =>
       if is_authenticated u then
         match q_action query with
         | CbAction => handleAction chatId messageId userId' value
         | CbCategory => handleCategorySelection chatId messageId userId' value
         | CbLabel => handleLabelSelection chatId messageId userId' value
         | CbPriority => handlePrioritySelection chatId messageId userId' value
         | CbConfirm => handleConfirmation chatId messageId userId' value u
         | CbEdit => handleEdit chatId messageId userId' value
         end
       else bot (EditMessageText chatId messageId MsgNeedAuthentication)
     | None => bot (EditMessageText chatId messageId MsgNeedAuthentication)
     end)
    (fun _ => bot (EditMessageText chatId messageId MsgErrorOccurred)).

End Handler.

End CallbackHandler.

(** ** The store as a state machine *)

Module Reach.

(** One call of a writing method of [Database]; the handlers and the
    session manager change the store through these calls only. *)
Inductive DbCall :=
| CallCreateUser (newId : jstring) (now : Z) (user : NewUser)
| CallUpdateUserLastActive (now : Z) (u : jstring)
| CallUpdateUserAuthentication (u : jstring) (b : bool)
| CallIncrementUserTicketCount (u : jstring)
| CallResetDailyTicketCounts
| CallCreateTicket (newId : jstring) (now : Z) (ticket : NewTicket)
| CallUpdateTicketStatus (now : Z) (id : jstring) (status : TicketStatus)
    (linearTicketId linearTicketUrl : option jstring)
| CallSaveSession (session : Session)
| CallDeleteSession (u : jstring)
| CallCleanupExpiredSessions (now : Z) (timeoutMinutes : Z)
| CallAddAuditLog (now : Z) (u : jstring) (action : string) (details : option jstring).

Definition run_call (c : DbCall) : M unit :=
  match c with
  | CallCreateUser newId now user =>
    exec Database.createUser newId now user in ret tt
  | CallUpdateUserLastActive now u => Database.updateUserLastActive now u
  | CallUpdateUserAuthentication u b => Database.updateUserAuthentication u b
  | CallIncrementUserTicketCount u => Database.incrementUserTicketCount u
  | CallResetDailyTicketCounts => Database.resetDailyTicketCounts
  | CallCreateTicket newId now ticket =>
    exec Database.createTicket newId now ticket in ret tt
  | CallUpdateTicketStatus now id status i u =>
    Database.updateTicketStatus now id status i u
  | CallSaveSession session => Database.saveSession session
  | CallDeleteSession u => Database.deleteSession u
  | CallCleanupExpiredSessions now t => Database.cleanupExpiredSessions now t
  | CallAddAuditLog now u action details => Database.addAuditLog now u action details
  end.

(** The store a call leaves behind, whether it returned or threw. *)
Definition after (c : DbCall) (d : DB) : DB :=
  db (fst (run_call c {| db := d; sent := [] |})).

Inductive reachable : DB -> Prop :=
| reach_empty : reachable empty_db
| reach_call d c : reachable d -> reachable (after c d).

(** The row of [sessions] for a user, as [SELECT * ... WHERE user_id = ?]
    finds it. *)
Definition session_of (d : DB) (u : jstring) : option Session :=
  List.find (fun r => JS.eqb (userId r) u) (sessions d).

(** The rows of [sessions] for a user. *)
Definition sessions_for (d : DB) (u : jstring) : list Session :=
  List.filter (fun r => JS.eqb (userId r) u) (sessions d).

Definition user_of (d : DB) (u : jstring) : option User :=
  List.find (fun r => JS.eqb (telegram_user_id r) u) (users d).

Definition ticket_of (d : DB) (i : jstring) : option TicketRequest :=
  List.find (fun r => JS.eqb (t_id r) i) (ticket_requests d).

(** What the schema guarantees of the [sessions] table: [user_id] is a
    primary key, it references a row of [users], and [ticket_data] holds
    JSON. *)
Record sessions_ok (d : DB) : Prop := {
  ok_unique : NoDup (List.map userId (sessions d));
  ok_fk : Forall (fun r => Database.user_exists d (userId r) = true) (sessions d);
  ok_json : Forall (fun r => json_roundtrip (ticketData r) = ticketData r) (sessions d)
}.

(** The row [saveSession] writes for a session. *)
Definition stored (s : Session) : Session :=
  {| userId := userId s; state := state s;
     ticketData := json_roundtrip (ticketData s);
     lastActivity := lastActivity s; createdAt := createdAt s |}.

Definition put_session (d : DB) (s : Session) : DB :=
  Database.set_sessions d
    (List.filter (fun r => negb (JS.eqb (userId r) (userId s))) (sessions d)
     ++ [stored s]).

(** A store in which every ticket record has its status replaced. *)
Definition with_status (f : TicketRequest -> TicketStatus) (r : TicketRequest) : TicketRequest :=
  {| t_id := t_id r; t_telegram_user_id := t_telegram_user_id r;
     t_telegram_username := t_telegram_username r;
     t_department := t_department r; t_title := t_title r;
     t_description := t_description r; t_label := t_label r;
     t_priority := t_priority r; t_status := f r;
     t_linear_ticket_id := t_linear_ticket_id r;
     t_linear_ticket_url := t_linear_ticket_url r;
     t_created_at := t_created_at r; t_submitted_at := t_submitted_at r;
     t_session_data := t_session_data r |}.

Definition restatus (f : TicketRequest -> TicketStatus) (d : DB) : DB :=
  Database.set_tickets d (List.map (with_status f) (ticket_requests d)).

(** The store once the session row of [u] is deleted and the deletion is
    written to the audit log. *)
Definition drop_session (now : Z) (d : DB) (u : jstring) : DB :=
  Database.set_audit
    (Database.set_sessions d
       (List.filter (fun r => negb (JS.eqb (userId r) u)) (sessions d)))
    (audit_log d ++
     [{| a_user_id := u; a_action := "SESSION_DELETED"; a_details := None;
         a_created_at := Database.current_timestamp now |}]).

(** [{ ...session, ...updates, lastActivity: new Date() }] *)
Definition updated (now : Z) (s : Session) (updates : SessionUpdates) : Session :=
  {| userId := userId s;
     state := default (state s) (upd_state updates);
     ticketData := default (ticketData s) (upd_ticketData updates);
     lastActivity := now;
     createdAt := createdAt s |}.

(** A session whose [lastActivity] is set to [now]. *)
Definition touched (now : Z) (s : Session) : Session :=
  {| userId := userId s; state := state s; ticketData := ticketData s;
     lastActivity := now; createdAt := createdAt s |}.

(** The states in which [handleMessage] hands a text to an input handler;
    in every other state a text is not an input of the workflow. *)
Definition accepts_text (st : SessionState) : bool :=
  match st with
  | AWAITING_TITLE | AWAITING_DESCRIPTION | ADDING_COMMENT => true
  | _ => false
  end.

(** The reply to a text the state does not accept. *)
Definition use_buttons (st : SessionState) : BotMessage :=
  match st with
  | IDLE => MsgUseMenuButtons
  | _ => MsgUseProvidedButtons
  end.

Definition say (w : World) (c : BotCall) : World :=
  {| db := db w; sent := sent w ++ [c] |}.

(** The counter updates of [n] successful confirmations of one user
    ([handleConfirmation] calls [incrementUserTicketCount] once per success). *)
Fixpoint count_successes (n : nat) (u : jstring) : M unit :=
  match n with
  | O => ret tt
  | S k => exec Database.incrementUserTicketCount u in count_successes k u
  end.

(** Two worlds that differ at most in their ticket records. *)
Definition same_but_tickets (w w1 : World) : Prop :=
  sessions (db w1) = sessions (db w)
  /\ users (db w1) = users (db w)
  /\ audit_log (db w1) = audit_log (db w)
  /\ sent w1 = sent w.

(** A rewriting of ticket rows that keeps what the duplicate check reads. *)
Definition keeps_title_and_date (g : TicketRequest -> TicketRequest) : Prop :=
  forall r, t_id (g r) = t_id r /\ t_title (g r) = t_title r
            /\ t_created_at (g r) = t_created_at r.

End Reach.
Export Reach.

(** ** Sample data used to exercise the statements below *)

Module Samples.

Definition alice : User :=
  {| id := js "k1"; telegram_user_id := js "1001";
     telegram_username := Some (js "alice"); full_name := js "Alice A";
     department := js "Falcon"; email := None;
     is_active := true; is_authenticated := true;
     created_at := 0; last_active := 0;
     tickets_created_today := 0; total_tickets_created := 0 |}.

(** Alice after five tickets today. *)
Definition alice5 : User :=
  {| id := js "k1"; telegram_user_id := js "1001";
     telegram_username := Some (js "alice"); full_name := js "Alice A";
     department := js "Falcon"; email := None;
     is_active := true; is_authenticated := true;
     created_at := 0; last_active := 0;
     tickets_created_today := 5; total_tickets_created := 5 |}.

Definition title1 : jstring := js "Fix login crash on startup".

Definition draft : TicketData :=
  <[ "title" := JStr title1 ]>
    (<[ "description" := JStr (js "The app crashes on startup") ]>
       (<[ "label" := JStr (js "Bug") ]>
          {[ "priority" := JStr (js "High") ]})).

Definition session_in (st : SessionState) (d : TicketData) (last : Z) : Session :=
  {| userId := js "1001"; state := st; ticketData := d;
     lastActivity := last; createdAt := 900000 |}.

Definition store (u : User) (ts : list TicketRequest) (s : Session) : World :=
  {| db := {| users := [u]; ticket_requests := ts; sessions := [s]; audit_log := [] |};
     sent := [] |}.

Definition env0 : Env := {| SESSION_TIMEOUT_MINUTES := None; REGINA_CHAT_ID := None |}.

(** A configuration in which [rateLimit] is defined, as in the
    commented-out lines of the source. *)
Definition cfg_limited : Config :=
  {| session_timeoutMinutes := 30;
     rateLimit := Some {| maxTicketsPerDay := 5; windowMs := 86400000 |};
     auth_reginaChatId := [] |}.

Definition tracker_down : Answers :=
  {| createTicket_answer := None; addComment_answer := false |}.

Definition old_ticket (created : Z) (st : TicketStatus) : TicketRequest :=
  {| t_id := js "t0"; t_telegram_user_id := js "1001";
     t_telegram_username := Some (js "alice"); t_department := js "Falcon";
     t_title := title1; t_description := js "The app crashes on startup";
     t_label := js "Bug"; t_priority := js "High"; t_status := st;
     t_linear_ticket_id := None; t_linear_ticket_url := None;
     t_created_at := created; t_submitted_at := None;
     t_session_data := None |}.

Definition text_message (t : string) : MessageHandler.Message :=
  {| MessageHandler.chat_id := 7; MessageHandler.from_id := Some (js "1001");
     MessageHandler.text := Some (js t) |}.

Definition button (a : CallbackHandler.CallbackAction) (v : string) : CallbackHandler.CallbackQuery :=
  {| CallbackHandler.q_chatId := 7; CallbackHandler.q_messageId := 9;
     CallbackHandler.q_from := js "1001";
     CallbackHandler.q_action := a; CallbackHandler.q_value := js v |}.

(** 2026-01-31 00:00:10 UTC, in milliseconds. *)
Definition t_now : Z := 1769817610000.

End Samples.

(** ** src/utils/validation.ts: [parseNameDepartment] *)

Module NameDepartment.

(** [s.split(sep)] for a one-character separator: the pieces between the
    separators, in order; the empty string gives one empty piece. *)
Fixpoint split_on (sep : N) (s : jstring) : list jstring :=
  match s with
  | [] => [[]]
  | c :: s' =>
    if (c =? sep)%N then [] :: split_on sep s'
    else
      match split_on sep s' with
      | p :: ps => (c :: p) :: ps
      | [] => [[c]]
      end
  end.

Definition is_letter (c : N) : bool :=
  ((97 <=? c) && (c <=? 122) || (65 <=? c) && (c <=? 90))%N.

(** The class [[a-zA-Z\s\-']]. *)
Definition name_char (c : N) : bool :=
  (is_letter c || is_whitespace c || (c =? 45) || (c =? 39))%N.

(** The class [[a-zA-Z\s\-&]]. *)
Definition dept_char (c : N) : bool :=
  (is_letter c || is_whitespace c || (c =? 45) || (c =? 38))%N.

(** [/^[class]+$/.test(s)] *)
Definition all_of (class : N -> bool) (s : jstring) : bool :=
  match s with
  | [] => false
  | _ => forallb class s
  end.

Definition parseNameDepartment (input : jstring) : option (jstring * jstring) :=
  match split_on 95 input with
  | [a; b] =>
    let name := JS.trim a in
    let department := JS.trim b in
    if negb (JS.truthy name) || negb (JS.truthy department) then None
    else if negb (all_of name_char name) || negb (all_of dept_char department) then None
    else Some (name, department)
  | _ => None
  end.

End NameDepartment.
Export NameDepartment.

(** ** api/linearService.ts: priority numbers *)

Module LinearService.

(** [priorityMap[priority]]; a string that is no member of [TicketPriority]
    is not a key of the map. *)
Definition mapPriority (priority : jstring) : option Z :=
  if JS.eqb priority (TicketPriority_value URGENT) then Some 1
  else if JS.eqb priority (TicketPriority_value HIGH) then Some 2
  else if JS.eqb priority (TicketPriority_value MEDIUM) then Some 3
  else if JS.eqb priority (TicketPriority_value LOW) then Some 4
  else None.

Definition getPriorityName (priority : Z) : jstring :=
  match priority with
  | 0 => js "No priority"
  | 1 => js "Urgent"
  | 2 => js "High"
  | 3 => js "Medium"
  | 4 => js "Low"
  | _ => js "No priority"
  end.

End LinearService.

(** ** bot/handlers/commandHandler.ts: the pages of the issue list *)

Module Pagination.

(** [Array.prototype.slice(start, end)]: a negative index counts from the
    end, and both are clamped to the array. *)
Definition js_slice {A} (l : list A) (start stop : Z) : list A :=
  let len := Z.of_nat (length l) in
  let k := if start <? 0 then Z.max (len + start) 0 else Z.min start len in
  let final := if stop <? 0 then Z.max (len + stop) 0 else Z.min stop len in
  take (Z.to_nat (final - k)) (drop (Z.to_nat k) l).

(** [Math.ceil(n / d)] for integers [n] and [d > 0]. *)
Definition ceil_div (n d : Z) : Z := - ((- n) / d).

Definition pageSize : Z := 5.

(** What [handlePagination] computes for page [page] (zero-based) of
    [allIssues]: the issues of the page, the number of pages, the first and
    the last position it announces, and whether a Next button is shown. *)
Record Page (A : Type) := {
  pageIssues : list A;
  totalPages : Z;
  showing_from : Z;
  showing_to : Z;
  hasMore : bool
}.
Arguments pageIssues {A} _.
Arguments totalPages {A} _.
Arguments showing_from {A} _.
Arguments showing_to {A} _.
Arguments hasMore {A} _.

Definition issues_page {A} (allIssues : list A) (page : Z) : Page A :=
  let offset := page * pageSize in
  let totalCount := Z.of_nat (length allIssues) in
  {| pageIssues := js_slice allIssues offset (offset + pageSize);
     totalPages := ceil_div totalCount pageSize;
     showing_from := offset + 1;
     showing_to := Z.min (offset + pageSize) totalCount;
     hasMore := (page + 1) * pageSize <? totalCount |}.

(** The pages [0], ..., [n - 1] one after the other. *)
Fixpoint pages_upto {A} (allIssues : list A) (n : nat) : list A :=
  match n with
  | O => []
  | S k => pages_upto allIssues k ++ pageIssues (issues_page allIssues (Z.of_nat k))
  end.

End Pagination.

(** ** Commands and operation entry: [handleStart], [handleCancel],
       [handleAddComment], [handleTemplate] *)

Module Commands.

(** The texts these handlers send. *)
Inductive Notice :=
| NoticeNoUser              (* 'Error: Unable to identify user.' *)
| NoticeWelcome (back : bool) (fullName : jstring)
                            (* 'Welcome ${user ? 'back' : ''} ${fullName}! ...' *)
| NoticeErrorLater          (* 'Sorry, an error occurred. Please try again later.' *)
| NoticeNothingToCancel     (* 'No active operation to cancel.' *)
| NoticeOperationCancelled  (* 'Operation cancelled. ... What would you like to do?' *)
| NoticeError               (* 'Sorry, an error occurred. Please try again.' *)
| NoticeIssueNotFound       (* 'Issue not found.' *)
| NoticeTypeComment (identifier title : jstring)
                            (* 'Add Comment to ${identifier} ... Please type your comment:' *)
| NoticeAddCommentFailed    (* 'Failed to add comment.' *)
| NoticeSelectPriority      (* 'Now, please select the priority level:' *)
| NoticeTemplate (action : jstring)
                            (* 'Here's a template for your ${action} report. ...' *).

(** How a notice reaches the chat: [sendMessage] posts a new message,
    [editMessageText] replaces the text of an earlier one. *)
Inductive Delivery :=
| ByMessage (chatId : Z)
| ByEdit (chatId messageId : Z).

(** A world together with the notices sent so far. *)
Record World2 := {
  base : World;
  told : list (Delivery * Notice)
}.

Definition M2 (A : Type) : Type := World2 -> World2 * outcome A.

Definition ret2 {A} (a : A) : M2 A := fun w => (w, Returned a).

Definition bind2 {A B} (m : M2 A) (k : A -> M2 B) : M2 B :=
  fun w =>
    match m w with
    | (w', Returned a) => k a w'
    | (w', Thrown e) => (w', Thrown e)
    end.

Definition try_catch2 {A} (m : M2 A) (h : Exn -> M2 A) : M2 A :=
  fun w =>
    match m w with
    | (w', Thrown e) => h e w'
    | r => r
    end.

(** A computation of the store and the creation-flow outbox, run inside. *)
Definition lift {A} (m : M A) : M2 A :=
  fun w =>
    match m (base w) with
    | (b, o) => ({| base := b; told := told w |}, o)
    end.

Definition tell (to : Delivery) (n : Notice) : M2 unit :=
  fun w => ({| base := base w; told := told w ++ [(to, n)] |}, Returned tt).

End Commands.
Export Commands.

Notation "'let!' x ':=' m 'in' k" := (bind2 m (fun x => k))
  (at level 10, x name, m at level 100, k at level 200).
Notation "'exec!' m 'in' k" := (bind2 m (fun _ => k))
  (at level 10, m at level 100, k at level 200).

Module CommandHandler.

Record TelegramUser := {
  tg_id : jstring;
  tg_first_name : jstring;
  tg_last_name : option jstring;
  tg_username : option jstring
}.

(** A command message: its chat and, when present, its sender, whose
    numeric id is already printed with [toString()]. *)
Record CommandMessage := {
  c_chat : Z;
  c_from : option TelegramUser
}.

(** [first_name + (last_name ? ' ' + last_name : '')] *)
Definition fullName_of (from : TelegramUser) : jstring :=
  tg_first_name from ++
  match tg_last_name from with
  | Some l => if JS.truthy l then 32%N :: l else []
  | None => []
  end.

Section Handler.

Variable cfg : Config.
Variable now : Z.
(** The value [generateId()] returns if it is called in this event. *)
Variable newId : jstring.

Definition handleStart (msg : CommandMessage) : M2 unit :=
  let chatId := c_chat msg in
  match c_from msg with
  | None => tell (ByMessage chatId) NoticeNoUser
  | Some from =>
    let userId' := tg_id from in
    if negb (JS.truthy userId') then tell (ByMessage chatId) NoticeNoUser
    else
      try_catch2
        ((* Get user info from Telegram *)
         let fullName := fullName_of from in
         let department' := js "Falcon" in
         (* Check if user exists *)
         let! found := lift (Database.getUserById userId') in
         let! user :=
           match found with
           | None =>
             (* Create new user (automatically authenticated now) *)
             let! created :=
               lift (Database.createUser newId now
                       {| u_telegram_user_id := userId';
                          u_telegram_username := tg_username from;
                          u_full_name := fullName;
                          u_department := department';
                          u_email := None;
                          u_is_active := true;
                          u_is_authenticated := true |}) in
             exec! lift (Database.addAuditLog now userId' "USER_REGISTERED"
                           (Some (fullName ++ 95%N :: department'))) in
             ret2 created
           | Some u =>
             (* Update last active and ensure authenticated *)
             exec! lift (Database.updateUserLastActive now userId') in
             exec! (if negb (is_authenticated u)
                    then lift (Database.updateUserAuthentication userId' true)
                    else ret2 tt) in
             ret2 u
           end in
         (* Create or reset session *)
         exec! lift (SessionManager.deleteSession now userId') in
         exec! lift (SessionManager.createSession now userId') in
         (* [user] is set on both branches, so the greeting always says 'back' *)
         tell (ByMessage chatId)
           (NoticeWelcome (match Some user with Some _ => true | None => false end)
              fullName))
        (fun _ => tell (ByMessage chatId) NoticeErrorLater)
  end.

Definition handleCancel (msg : CommandMessage) : M2 unit :=
  let chatId := c_chat msg in
  match c_from msg with
  | None => tell (ByMessage chatId) NoticeNoUser
  | Some from =>
    let userId' := tg_id from in
    if negb (JS.truthy userId') then tell (ByMessage chatId) NoticeNoUser
    else
      try_catch2
        (let! session := lift (SessionManager.getSession (session_timeoutMinutes cfg) now userId') in
         match session with
         | None => tell (ByMessage chatId) NoticeNothingToCancel
         | Some s =>
           match state s with
           | IDLE => tell (ByMessage chatId) NoticeNothingToCancel
           | _ =>
             (* Reset session *)
             exec! lift (SessionManager.updateSession (session_timeoutMinutes cfg) now userId'
                           {| upd_state := Some IDLE; upd_ticketData := Some ∅;
                              upd_lastActivity := None |}) in
             exec! tell (ByMessage chatId) NoticeOperationCancelled in
             lift (Database.addAuditLog now userId' "TICKET_CANCELLED" None)
           end
         end)
        (fun _ => tell (ByMessage chatId) NoticeError)
  end.

End Handler.

End CommandHandler.

(** [CallbackHandler]: entering the comment operation and the template
    choice. *)
Module CallbackOps.

Section Handler.

Variable cfg : Config.
Variable now : Z.

(** [issue] is what [linearService.getIssue(issueId)] resolves to: the
    identifier and the title of the issue, or [null] (it never throws). *)
Definition handleAddComment (issue : option (jstring * jstring))
    (chatId messageId : Z) (userId' : jstring) (issueId : jstring) : M2 unit :=
  try_catch2
    (match issue with
     | None => tell (ByEdit chatId messageId) NoticeIssueNotFound
     | Some (identifier, title) =>
       exec! tell (ByEdit chatId messageId) (NoticeTypeComment identifier title) in
       (* Store issue ID in session *)
       lift (SessionManager.updateSession (session_timeoutMinutes cfg) now userId'
               {| upd_state := Some ADDING_COMMENT;
                  upd_ticketData := Some {[ "issueId" := JStr issueId ]};
                  upd_lastActivity := None |})
     end)
    (fun _ => tell (ByEdit chatId messageId) NoticeAddCommentFailed).

Definition handleTemplate (chatId messageId : Z) (userId' : jstring) (action : jstring)
    : M2 unit :=
  if JS.eqb action (js "skip") then
    (* Continue to priority selection *)
    tell (ByEdit chatId messageId) NoticeSelectPriority
  else
    (* Show template *)
    let! session := lift (SessionManager.getSession (session_timeoutMinutes cfg) now userId') in
    match session with
    | None => ret2 tt
    | Some _ =>
      exec! lift (SessionManager.updateTicketData (session_timeoutMinutes cfg) now userId'
                    {[ "awaitingTemplate" := JBool true ]}) in
      tell (ByEdit chatId messageId) (NoticeTemplate action)
    end.

End Handler.

End CallbackOps.

(** ** What the schema guarantees of [users] and [ticket_requests] *)

Module Schema.

(** [users]: [id] is the primary key and [telegram_user_id] is unique. *)
Record users_ok (d : DB) : Prop := {
  uok_id : NoDup (List.map id (users d));
  uok_telegram : NoDup (List.map telegram_user_id (users d))
}.

(** [ticket_requests]: [id] is the primary key, [label] and [priority]
    satisfy their CHECK constraints and the requester is a row of [users]. *)
Record tickets_ok (d : DB) : Prop := {
  tok_id : NoDup (List.map t_id (ticket_requests d));
  tok_label : Forall (fun r => Database.check_label (t_label r) = true) (ticket_requests d);
  tok_priority : Forall (fun r => Database.check_priority (t_priority r) = true)
                   (ticket_requests d);
  tok_fk : Forall (fun r => Database.user_exists d (t_telegram_user_id r) = true)
             (ticket_requests d)
}.


End Schema.
Export Schema.

(** ** One user's session across the steps of a handler *)

Module Flow.

(** The session row of [s]'s user with the given state and draft, last
    written at [now]. *)
Definition row (s : Session) (st : SessionState) (d : TicketData) (now : Z) : Session :=
  {| userId := userId s; state := st; ticketData := d;
     lastActivity := now; createdAt := createdAt s |}.

(** The store holds [s] as the session of [u], and a read at [now] finds
    it live. *)
Definition live (timeoutMinutes now : Z) (d : DB) (u : jstring) (s : Session) : Prop :=
  sessions_ok d /\ session_of d u = Some s
  /\ SessionManager.expired timeoutMinutes now s = false.

(** Two stores that differ at most in the session row of [u]. *)
Definition same_but_session_of (u : jstring) (d d1 : DB) : Prop :=
  (forall v, v <> u -> session_of d1 v = session_of d v)
  /\ users d1 = users d
  /\ ticket_requests d1 = ticket_requests d
  /\ audit_log d1 = audit_log d.

(** The record of a confirmed draft once the tracker has answered. *)
Definition created_ticket (newId u : jstring) (user : User)
    (title description label priority : jstring) (now : Z) (lt : LinearTicket)
    : TicketRequest :=
  {| t_id := newId; t_telegram_user_id := u;
     t_telegram_username := Database.or_null (telegram_username user);
     t_department := department user;
     t_title := title; t_description := description;
     t_label := if JS.eqb label (js "Request") then js "Other" else label;
     t_priority := priority; t_status := CREATED;
     t_linear_ticket_id := Some (lt_id lt);
     t_linear_ticket_url := Some (lt_url lt);
     t_created_at := Database.current_timestamp now;
     t_submitted_at := Some (Database.current_timestamp now);
     t_session_data := None |}.

(** The session [createSession] writes. *)
Definition fresh_session (u : jstring) (now : Z) : Session :=
  {| userId := u; state := IDLE; ticketData := ∅;
     lastActivity := now; createdAt := now |}.

(** A row of the audit log written at [now]. *)
Definition audit_row (now : Z) (u : jstring) (action : string) (details : option jstring)
    : AuditRow :=
  {| a_user_id := u; a_action := action; a_details := details;
     a_created_at := Database.current_timestamp now |}.

(** The row of [users] written for a sender seen for the first time. *)
Definition registered_user (newId : jstring) (now : Z) (from : CommandHandler.TelegramUser)
    : User :=
  {| id := newId; telegram_user_id := CommandHandler.tg_id from;
     telegram_username := Database.or_null (CommandHandler.tg_username from);
     full_name := CommandHandler.fullName_of from;
     department := js "Falcon"; email := None;
     is_active := true; is_authenticated := true;
     created_at := Database.current_timestamp now;
     last_active := Database.current_timestamp now;
     tickets_created_today := 0; total_tickets_created := 0 |}.

End Flow.
Export Flow.

(** ** A history of calls on the store *)

Module History.

Definition new_user (telegramId username name : string) : NewUser :=
  {| u_telegram_user_id := js telegramId; u_telegram_username := Some (js username);
     u_full_name := js name; u_department := js "Falcon"; u_email := None;
     u_is_active := true; u_is_authenticated := true |}.

Definition new_ticket (telegramId title label priority : string) : NewTicket :=
  {| n_telegram_user_id := js telegramId; n_telegram_username := None;
     n_department := js "Falcon";
     n_title := Some (js title);
     n_description := Some (js "The app crashes on startup");
     n_label := Some (js label); n_priority := Some (js priority);
     n_status := SUBMITTED;
     n_linear_ticket_id := None; n_linear_ticket_url := None;
     n_submitted_at := None; n_session_data := None |}.

(** The store after the calls of [cs], the first one first. *)
Definition replay (cs : list DbCall) (d : DB) : DB :=
  fold_left (fun d c => after c d) cs d.

(** Two registrations and one more that reuses a Telegram id; three
    tickets and three more that reuse an id, carry a label outside the
    CHECK list, or name an unknown requester; a status update and a
    counter update. *)
Definition calls : list DbCall :=
  [ CallCreateUser (js "k1") 1000 (new_user "1001" "alice" "Alice A");
    CallCreateUser (js "k2") 2000 (new_user "1002" "bob" "Bob B");
    CallCreateUser (js "k3") 3000 (new_user "1001" "alice2" "Alice Again");
    CallCreateTicket (js "t1") 4000
      (new_ticket "1001" "Fix login crash on startup" "Bug" "High");
    CallCreateTicket (js "t2") 5000
      (new_ticket "1002" "Add export to the report" "Request" "Low");
    CallCreateTicket (js "t2") 6000
      (new_ticket "1002" "Reuse of a record id" "Bug" "Low");
    CallCreateTicket (js "t3") 7000
      (new_ticket "1001" "A label of its own" "Urgent" "High");
    CallCreateTicket (js "t4") 8000
      (new_ticket "1003" "From nobody we know" "Bug" "High");
    CallCreateTicket (js "t5") 9000
      (new_ticket "1001" "Fix login crash on startup" "Feature" "Medium");
    CallUpdateTicketStatus 10000 (js "t1") CREATED (Some (js "lin-1"))
      (Some (js "https://linear.app/FAL-7"));
    CallIncrementUserTicketCount (js "1001") ].

End History.

(** * Properties *)

(** ** String equality and list facts *)

Lemma eqb_eq (a b : jstring) : JS.eqb a b = true <-> a = b.
Proof. unfold JS.eqb. apply bool_decide_eq_true. Qed.

Lemma eqb_refl (a : jstring) : JS.eqb a a = true.
Proof. by apply eqb_eq. Qed.

Lemma eqb_neq (a b : jstring) : JS.eqb a b = false <-> a <> b.
Proof. unfold JS.eqb. apply bool_decide_eq_false. Qed.

Lemma find_filter_app_last {A} (p q : A -> bool) (l : list A) (x : A) :
  p x = true ->
  (forall y, p y = true -> q y = false) ->
  List.find p (List.filter q l ++ [x]) = Some x.
Proof.
  intros Hx Hpq. induction l as [|y l IH]; simpl.
  - by rewrite Hx.
  - destruct (q y) eqn:Hq; [|done]. simpl.
    destruct (p y) eqn:Hp; [|done]. apply Hpq in Hp. congruence.
Qed.

Lemma find_filter_app_other {A} (p q : A -> bool) (l : list A) (x : A) :
  p x = false ->
  (forall y, p y = true -> q y = true) ->
  List.find p (List.filter q l ++ [x]) = List.find p l.
Proof.
  intros Hx Hpq. induction l as [|y l IH]; simpl.
  - by rewrite Hx.
  - destruct (p y) eqn:Hp.
    + rewrite (Hpq _ Hp). simpl. by rewrite Hp.
    + destruct (q y); simpl; [by rewrite Hp|done].
Qed.

Lemma filter_filter_app_last {A} (p q : A -> bool) (l : list A) (x : A) :
  p x = true ->
  (forall y, p y = true -> q y = false) ->
  List.filter p (List.filter q l ++ [x]) = [x].
Proof.
  intros Hx Hpq. induction l as [|y l IH]; simpl.
  - by rewrite Hx.
  - destruct (q y) eqn:Hq; [|done]. simpl.
    destruct (p y) eqn:Hp; [|done]. apply Hpq in Hp. congruence.
Qed.

Lemma filter_filter_app_other {A} (p q : A -> bool) (l : list A) (x : A) :
  p x = false ->
  (forall y, p y = true -> q y = true) ->
  List.filter p (List.filter q l ++ [x]) = List.filter p l.
Proof.
  intros Hx Hpq. induction l as [|y l IH]; simpl.
  - by rewrite Hx.
  - destruct (p y) eqn:Hp.
    + rewrite (Hpq _ Hp). simpl. rewrite Hp. by f_equal.
    + destruct (q y); simpl; [by rewrite Hp|done].
Qed.

Lemma find_filter_none {A} (p q : A -> bool) (l : list A) :
  (forall y, p y = true -> q y = false) ->
  List.find p (List.filter q l) = None.
Proof.
  intros Hpq. induction l as [|y l IH]; simpl; [done|].
  destruct (q y) eqn:Hq; [|done]. simpl.
  destruct (p y) eqn:Hp; [|done]. apply Hpq in Hp. congruence.
Qed.

Lemma NoDup_map_filter {A B} (f : A -> B) (q : A -> bool) (l : list A) :
  NoDup (List.map f l) -> NoDup (List.map f (List.filter q l)).
Proof.
  induction l as [|y l IH]; simpl; [done|].
  intros Hnd. apply NoDup_cons in Hnd as [Hy Hnd].
  destruct (q y); simpl; [|by apply IH].
  apply NoDup_cons. split; [|by apply IH].
  intros Hin. apply Hy.
  apply list_elem_of_In in Hin. apply list_elem_of_In.
  apply in_map_iff in Hin as (z & Hz & Hin). apply in_map_iff.
  exists z. split; [done|]. apply filter_In in Hin. tauto.
Qed.

Lemma existsb_map_same {A} (p : A -> bool) (f : A -> A) (l : list A) :
  (forall r, p (f r) = p r) -> existsb p (List.map f l) = existsb p l.
Proof.
  intros Hf. induction l as [|y l IH]; simpl; [done|]. by rewrite Hf, IH.
Qed.

(** ** JSON round trip and spread *)

Lemma json_roundtrip_lookup (d : TicketData) (k : string) (v : jsval) :
  json_roundtrip d !! k = Some v <-> d !! k = Some v /\ v <> JUndefined.
Proof. unfold json_roundtrip. by rewrite map_lookup_filter_Some. Qed.

Lemma json_roundtrip_idem (d : TicketData) :
  json_roundtrip (json_roundtrip d) = json_roundtrip d.
Proof.
  unfold json_roundtrip at 1. apply map_filter_id.
  intros k v Hk. apply json_roundtrip_lookup in Hk. simpl. tauto.
Qed.

Lemma json_roundtrip_empty : json_roundtrip ∅ = ∅.
Proof. unfold json_roundtrip. apply map_filter_empty. Qed.

Lemma spread_lookup_new (a b : TicketData) (k : string) (v : jsval) :
  b !! k = Some v -> spread a b !! k = Some v.
Proof. intros H. unfold spread. by apply lookup_union_Some_l. Qed.

Lemma spread_lookup_old (a b : TicketData) (k : string) :
  b !! k = None -> spread a b !! k = a !! k.
Proof. intros H. unfold spread. by apply lookup_union_r. Qed.

(** ** The schema invariant of [sessions] *)

Section Invariant.

Local Ltac run :=
  unfold after, run_call, Database.createUser, Database.updateUserLastActive,
    Database.updateUserAuthentication, Database.incrementUserTicketCount,
    Database.resetDailyTicketCounts, Database.createTicket,
    Database.updateTicketStatus, Database.saveSession, Database.deleteSession,
    Database.cleanupExpiredSessions, Database.addAuditLog,
    Database.getUserById, Database.getTicketById,
    bind, ret, throw, read_db, write_db; simpl.

Lemma sessions_ok_same (d d' : DB) :
  sessions d' = sessions d ->
  (forall u, Database.user_exists d u = true -> Database.user_exists d' u = true) ->
  sessions_ok d -> sessions_ok d'.
Proof.
  intros Hs Hu [H1 H2 H3]. split; rewrite Hs; [done| |done].
  eapply Forall_impl; [exact H2|]. intros r Hr. by apply Hu.
Qed.

Lemma sessions_ok_filter (d : DB) (q : Session -> bool) :
  sessions_ok d ->
  sessions_ok (Database.set_sessions d (List.filter q (sessions d))).
Proof.
  intros [H1 H2 H3]. split; simpl.
  - by apply NoDup_map_filter.
  - apply Forall_forall. intros r Hr. apply list_elem_of_In, filter_In in Hr as [Hr _].
    rewrite Forall_forall in H2. apply (H2 r). by apply list_elem_of_In.
  - apply Forall_forall. intros r Hr. apply list_elem_of_In, filter_In in Hr as [Hr _].
    rewrite Forall_forall in H3. apply (H3 r). by apply list_elem_of_In.
Qed.

Lemma sessions_ok_put (d : DB) (s : Session) :
  Database.user_exists d (userId s) = true ->
  sessions_ok d -> sessions_ok (put_session d s).
Proof.
  intros Hu Hok. pose proof (sessions_ok_filter d
    (fun r => negb (JS.eqb (userId r) (userId s))) Hok) as [H1 H2 H3].
  simpl in *. split; simpl.
  - rewrite map_app. simpl. apply NoDup_app. split; [done|]. split.
    + intros x Hx Hx'. apply list_elem_of_In in Hx, Hx'.
      destruct Hx' as [<-|[]].
      apply in_map_iff in Hx as (r & Hr & Hin). apply filter_In in Hin as [_ Hin].
      apply negb_true_iff, eqb_neq in Hin. congruence.
    + apply NoDup_singleton.
  - apply Forall_app. split; [done|]. by apply Forall_singleton.
  - apply Forall_app. split; [done|]. apply Forall_singleton. simpl.
    apply json_roundtrip_idem.
Qed.

Lemma sessions_ok_after (c : DbCall) (d : DB) :
  sessions_ok d -> sessions_ok (after c d).
Proof.
  intros Hok. destruct c; run.
  - destruct (existsb _ (users d)); [done|].
    destruct (Database.user_exists d _); simpl; [done|].
    destruct (List.find _ _); simpl;
    (eapply sessions_ok_same; [| |exact Hok]; [done|]);
    intros v Hv; unfold Database.user_exists in *; simpl;
    rewrite existsb_app, Hv; done.
  - eapply sessions_ok_same; [| |exact Hok]; [done|].
    intros v Hv. unfold Database.user_exists in *. simpl.
    rewrite existsb_map_same; [done|]. intros r. unfold Database.touch.
    by destruct (JS.eqb (telegram_user_id r) u).
  - eapply sessions_ok_same; [| |exact Hok]; [done|].
    intros v Hv. unfold Database.user_exists in *. simpl.
    rewrite existsb_map_same; [done|]. intros r. unfold Database.authenticate.
    by destruct (JS.eqb (telegram_user_id r) u).
  - eapply sessions_ok_same; [| |exact Hok]; [done|].
    intros v Hv. unfold Database.user_exists in *. simpl.
    rewrite existsb_map_same; [done|]. intros r. unfold Database.bump.
    by destruct (JS.eqb (telegram_user_id r) u).
  - eapply sessions_ok_same; [| |exact Hok]; [done|].
    intros v Hv. unfold Database.user_exists in *. simpl.
    rewrite existsb_map_same; done.
  - destruct (Database.insert_ticket d newId now ticket _); simpl; [done|].
    destruct (option_map _ _); simpl;
    (eapply sessions_ok_same; [| |exact Hok]; done).
  - eapply sessions_ok_same; [| |exact Hok]; done.
  - destruct (Database.user_exists d (userId session)) eqn:Hu; simpl; [|done].
    by apply (sessions_ok_put d session).
  - by apply sessions_ok_filter.
  - destruct (timeoutMinutes <? 0); simpl; [done|]. by apply sessions_ok_filter.
  - destruct (Database.user_exists d u); simpl; [|done].
    eapply sessions_ok_same; [| |exact Hok]; done.
Qed.

Lemma sessions_ok_empty : sessions_ok empty_db.
Proof. split; simpl; [apply NoDup_nil_2|done|done]. Qed.

Lemma reachable_sessions_ok (d : DB) : reachable d -> sessions_ok d.
Proof.
  induction 1 as [|d c _ IH]; [apply sessions_ok_empty|by apply sessions_ok_after].
Qed.

End Invariant.

(** ** Running the session manager *)

Section Runs.

Variable timeoutMinutes : Z.
Variable now : Z.

Lemma session_of_inv (d : DB) (u : jstring) (s : Session) :
  session_of d u = Some s -> userId s = u /\ In s (sessions d).
Proof.
  unfold session_of. intros H. apply find_some in H as [Hin Heq].
  by apply eqb_eq in Heq.
Qed.

Lemma session_of_ok (d : DB) (u : jstring) (s : Session) :
  sessions_ok d -> session_of d u = Some s ->
  userId s = u /\ Database.user_exists d u = true
  /\ json_roundtrip (ticketData s) = ticketData s.
Proof.
  intros [_ Hfk Hjson] Hs. apply session_of_inv in Hs as [<- Hin].
  rewrite Forall_forall in Hfk, Hjson. apply list_elem_of_In in Hin.
  split; [done|]. split; [by apply Hfk|by apply Hjson].
Qed.

Lemma session_of_put_same (d : DB) (s : Session) :
  session_of (put_session d s) (userId s) = Some (stored s).
Proof.
  unfold session_of, put_session. simpl. apply find_filter_app_last.
  - simpl. apply eqb_refl.
  - intros y Hy. by rewrite Hy.
Qed.

Lemma session_of_put_other (d : DB) (s : Session) (v : jstring) :
  v <> userId s -> session_of (put_session d s) v = session_of d v.
Proof.
  intros Hv. unfold session_of, put_session. simpl. apply find_filter_app_other.
  - simpl. apply eqb_neq. congruence.
  - intros y Hy. apply eqb_eq in Hy. apply negb_true_iff, eqb_neq. congruence.
Qed.

Lemma saveSession_run (w : World) (s : Session) :
  Database.user_exists (db w) (userId s) = true ->
  Database.saveSession s w
  = ({| db := put_session (db w) s; sent := sent w |}, Returned tt).
Proof.
  intros Hu. unfold Database.saveSession, bind, read_db. simpl.
  rewrite Hu. reflexivity.
Qed.

Lemma getSession_live (w : World) (u : jstring) (s : Session) :
  session_of (db w) u = Some s ->
  SessionManager.expired timeoutMinutes now s = false ->
  SessionManager.getSession timeoutMinutes now u w = (w, Returned (Some s)).
Proof.
  intros Hs He. unfold SessionManager.getSession, Database.getSession, bind, read_db, ret.
  simpl. unfold session_of in Hs. rewrite Hs, He. reflexivity.
Qed.

Lemma getSession_absent (w : World) (u : jstring) :
  session_of (db w) u = None ->
  SessionManager.getSession timeoutMinutes now u w = (w, Returned None).
Proof.
  intros Hs. unfold SessionManager.getSession, Database.getSession, bind, read_db, ret.
  simpl. unfold session_of in Hs. rewrite Hs. reflexivity.
Qed.

Lemma getSession_expired (w : World) (u : jstring) (s : Session) :
  session_of (db w) u = Some s ->
  SessionManager.expired timeoutMinutes now s = true ->
  Database.user_exists (db w) u = true ->
  SessionManager.getSession timeoutMinutes now u w
  = ({| db := drop_session now (db w) u; sent := sent w |}, Returned None).
Proof.
  intros Hs He Hu.
  unfold SessionManager.getSession, SessionManager.deleteSession,
    Database.getSession, Database.deleteSession, Database.addAuditLog,
    bind, read_db, write_db, ret.
  simpl. unfold session_of in Hs. rewrite Hs, He. simpl.
  unfold Database.user_exists in *. simpl. rewrite Hu. reflexivity.
Qed.

Lemma session_of_drop (d : DB) (u : jstring) :
  session_of (drop_session now d u) u = None.
Proof.
  unfold session_of, drop_session. simpl. apply find_filter_none.
  intros y Hy. by rewrite Hy.
Qed.

Lemma updateSession_live (w : World) (u : jstring) (s : Session) (updates : SessionUpdates) :
  session_of (db w) u = Some s ->
  SessionManager.expired timeoutMinutes now s = false ->
  Database.user_exists (db w) u = true ->
  SessionManager.updateSession timeoutMinutes now u updates w
  = ({| db := put_session (db w) (updated now s updates); sent := sent w |}, Returned tt).
Proof.
  intros Hs He Hu. unfold SessionManager.updateSession, bind.
  rewrite (getSession_live w u s Hs He).
  pose proof (session_of_inv _ _ _ Hs) as [Hid _].
  apply (saveSession_run w (updated now s updates)). simpl. by rewrite Hid.
Qed.

Lemma updateTicketData_live (w : World) (u : jstring) (s : Session) (partial : TicketData) :
  session_of (db w) u = Some s ->
  SessionManager.expired timeoutMinutes now s = false ->
  Database.user_exists (db w) u = true ->
  SessionManager.updateTicketData timeoutMinutes now u partial w
  = ({| db := put_session (db w)
                (updated now s {| upd_state := None;
                              upd_ticketData := Some (spread (ticketData s) partial);
                              upd_lastActivity := None |});
        sent := sent w |}, Returned tt).
Proof.
  intros Hs He Hu. unfold SessionManager.updateTicketData, bind.
  rewrite (getSession_live w u s Hs He).
  by apply updateSession_live.
Qed.

Lemma expired_fresh (s : Session) :
  0 <= timeoutMinutes -> lastActivity s = now ->
  SessionManager.expired timeoutMinutes now s = false.
Proof.
  intros Ht Hl. unfold SessionManager.expired. rewrite Hl. apply Z.ltb_ge. lia.
Qed.

End Runs.

(** ** Session manager: expiry, shallow merge, one session per user *)

Local Ltac concrete_ok :=
  split; simpl;
  [ apply NoDup_singleton
  | apply Forall_singleton; vm_compute; reflexivity
  | apply Forall_singleton; vm_compute; reflexivity ].

(** C5. A session whose last activity is more than [timeoutMinutes] minutes
    before [now] is not returned by [getSession]: the read answers [null],
    the session row is gone from the store afterwards, and any later read,
    at whatever time, answers [null] again and leaves the store as it is. *)
Theorem expired_session_deleted_on_read
    (timeoutMinutes now : Z) (w : World) (u : jstring) (s : Session) :
  sessions_ok (db w) ->
  session_of (db w) u = Some s ->
  timeoutMinutes * 60000 < now - lastActivity s ->
  exists w1,
    SessionManager.getSession timeoutMinutes now u w = (w1, Returned None)
    /\ session_of (db w1) u = None
    /\ sessions_for (db w1) u = []
    /\ forall now',
         SessionManager.getSession timeoutMinutes now' u w1 = (w1, Returned None).
Proof.
  intros Hok Hs Hlate.
  destruct (session_of_ok _ _ _ Hok Hs) as (Hid & Hu & _).
  assert (He : SessionManager.expired timeoutMinutes now s = true).
  { unfold SessionManager.expired. apply Z.ltb_lt. lia. }
  eexists. split; [by apply getSession_expired with (s := s)|].
  assert (Hgone : session_of (drop_session now (db w) u) u = None)
    by apply session_of_drop.
  split; [exact Hgone|]. split.
  - unfold sessions_for, drop_session. simpl. clear.
    induction (sessions (db w)) as [|r l IH]; simpl; [done|].
    destruct (JS.eqb (userId r) u) eqn:E; simpl; [done|]. by rewrite E.
  - intros now'. by apply getSession_absent.
Qed.

Lemma expired_session_deleted_on_read_witness :
  let w := Samples.store Samples.alice [] (Samples.session_in AWAITING_TITLE ∅ 0) in
  exists w1,
    SessionManager.getSession 30 1800001 (js "1001") w = (w1, Returned None)
    /\ session_of (db w1) (js "1001") = None
    /\ sessions_for (db w1) (js "1001") = []
    /\ forall now', SessionManager.getSession 30 now' (js "1001") w1 = (w1, Returned None).
Proof.
  apply (expired_session_deleted_on_read 30 1800001 _ (js "1001")
           (Samples.session_in AWAITING_TITLE ∅ 0)).
  - concrete_ok.
  - reflexivity.
  - simpl. lia.
Defined.

(** C6. [updateTicketData] merges shallowly: on a live session, a draft
    field that was set and is not a key of the partial keeps its value, and
    every key of the partial (with a defined value) takes the new value. *)
Theorem updateTicketData_shallow_merge
    (timeoutMinutes now : Z) (w : World) (u : jstring) (s : Session)
    (partial : TicketData) :
  sessions_ok (db w) ->
  session_of (db w) u = Some s ->
  SessionManager.expired timeoutMinutes now s = false ->
  exists w1 s1,
    SessionManager.updateTicketData timeoutMinutes now u partial w = (w1, Returned tt)
    /\ session_of (db w1) u = Some s1
    /\ state s1 = state s
    /\ (forall k v, partial !! k = None -> ticketData s !! k = Some v ->
                    ticketData s1 !! k = Some v)
    /\ (forall k v, partial !! k = Some v -> v <> JUndefined ->
                    ticketData s1 !! k = Some v).
Proof.
  intros Hok Hs He.
  destruct (session_of_ok _ _ _ Hok Hs) as (Hid & Hu & Hjson).
  subst u.
  eexists. eexists. split; [by apply updateTicketData_live|]. simpl.
  split.
  { apply (session_of_put_same (db w)
      (updated now s {| upd_state := None;
                        upd_ticketData := Some (spread (ticketData s) partial);
                        upd_lastActivity := None |})). }
  split; [reflexivity|]. simpl. split.
  - intros k v Hp Hv. apply json_roundtrip_lookup. split.
    + by rewrite spread_lookup_old.
    + rewrite <- Hjson in Hv. apply json_roundtrip_lookup in Hv. tauto.
  - intros k v Hp Hv. apply json_roundtrip_lookup. split; [|done].
    by apply spread_lookup_new.
Qed.

Lemma updateTicketData_shallow_merge_witness :
  exists w1 s1,
    SessionManager.updateTicketData 30 2000 (js "1001")
      {[ "title" := JStr Samples.title1 ]}
      (Samples.store Samples.alice []
         (Samples.session_in AWAITING_TITLE {[ "label" := JStr (js "Bug") ]} 1000))
    = (w1, Returned tt)
    /\ session_of (db w1) (js "1001") = Some s1
    /\ ticketData s1 !! "label" = Some (JStr (js "Bug"))
    /\ ticketData s1 !! "title" = Some (JStr Samples.title1).
Proof.
  destruct (updateTicketData_shallow_merge 30 2000
              (Samples.store Samples.alice []
                 (Samples.session_in AWAITING_TITLE {[ "label" := JStr (js "Bug") ]} 1000))
              (js "1001")
              (Samples.session_in AWAITING_TITLE {[ "label" := JStr (js "Bug") ]} 1000)
              {[ "title" := JStr Samples.title1 ]})
    as (w1 & s1 & Hrun & Hs1 & _ & Hold & Hnew).
  - concrete_ok.
  - reflexivity.
  - reflexivity.
  - exists w1, s1. split; [exact Hrun|]. split; [exact Hs1|]. split.
    + apply Hold; reflexivity.
    + apply Hnew; [reflexivity|discriminate].
Defined.

Lemma NoDup_key_filter_length {A} (f : A -> jstring) (u : jstring) (l : list A) :
  NoDup (List.map f l) ->
  (length (List.filter (fun r => JS.eqb (f r) u) l) <= 1)%nat.
Proof.
  induction l as [|a l IH]; simpl; [lia|].
  intros Hnd. apply NoDup_cons in Hnd as [Ha Hnd].
  destruct (JS.eqb (f a) u) eqn:E; [|by apply IH].
  apply eqb_eq in E. simpl.
  assert (Hnone : List.filter (fun r => JS.eqb (f r) u) l = []).
  { clear IH Hnd. induction l as [|b l IH]; simpl; [done|].
    destruct (JS.eqb (f b) u) eqn:E'.
    - apply eqb_eq in E'. exfalso. apply Ha. simpl. rewrite E, E'. left.
    - apply IH. intros Hin. apply Ha. simpl. by right. }
  rewrite Hnone. simpl. lia.
Qed.

(** C8. In every store reachable through the methods of [Database], a user
    has at most one row in [sessions]; and [createSession], for a registered
    user, leaves exactly one row for that user, the fresh one (state [IDLE],
    empty draft, both timestamps [now]), whatever the user's row was before,
    without touching the rows of other users. *)
Theorem one_session_per_user :
  (forall d u, reachable d -> (length (sessions_for d u) <= 1)%nat)
  /\ (forall now w u,
        Database.user_exists (db w) u = true ->
        let fresh := {| userId := u; state := IDLE; ticketData := ∅;
                        lastActivity := now; createdAt := now |} in
        exists w1,
          SessionManager.createSession now u w = (w1, Returned fresh)
          /\ sessions_for (db w1) u = [fresh]
          /\ session_of (db w1) u = Some fresh
          /\ forall v, v <> u -> sessions_for (db w1) v = sessions_for (db w) v).
Proof.
  split.
  - intros d u Hr. apply reachable_sessions_ok in Hr as [Hnd _ _].
    by apply NoDup_key_filter_length.
  - intros now w u Hu fresh.
    assert (Hst : stored fresh = fresh).
    { unfold stored, fresh. simpl. by rewrite json_roundtrip_empty. }
    exists {| db := Database.set_audit (put_session (db w) fresh)
                      (audit_log (db w) ++
                       [{| a_user_id := u; a_action := "SESSION_CREATED";
                           a_details := None;
                           a_created_at := Database.current_timestamp now |}]);
              sent := sent w |}.
    split.
    { unfold SessionManager.createSession, bind. fold fresh.
      rewrite (saveSession_run w); [|exact Hu].
      unfold Database.addAuditLog, bind, read_db, write_db, ret.
      cbn [db sent fst snd].
      change (Database.user_exists (put_session (db w) fresh) u)
        with (Database.user_exists (db w) u).
      rewrite Hu. reflexivity. }
    change (sessions_for (put_session (db w) fresh) u = [fresh]
            /\ session_of (put_session (db w) fresh) u = Some fresh
            /\ forall v, v <> u ->
                 sessions_for (put_session (db w) fresh) v = sessions_for (db w) v).
    split; [|split].
    + unfold sessions_for, put_session. cbn [sessions Database.set_sessions].
      rewrite Hst. apply filter_filter_app_last.
      * apply eqb_refl.
      * intros y Hy. cbn [userId fresh]. by rewrite Hy.
    + pose proof (session_of_put_same (db w) fresh) as H.
      rewrite Hst in H. exact H.
    + intros v Hv. unfold sessions_for, put_session. cbn [sessions Database.set_sessions].
      rewrite Hst. apply filter_filter_app_other.
      * apply eqb_neq. cbn [userId fresh]. congruence.
      * intros y Hy. apply eqb_eq in Hy. cbn [userId fresh].
        apply negb_true_iff, eqb_neq. congruence.
Qed.

Lemma one_session_per_user_witness :
  (length (sessions_for empty_db (js "1001")) <= 1)%nat
  /\ exists w1,
       SessionManager.createSession 5000 (js "1001")
         (Samples.store Samples.alice [] (Samples.session_in AWAITING_TITLE Samples.draft 1000))
       = (w1, Returned {| userId := js "1001"; state := IDLE; ticketData := ∅;
                          lastActivity := 5000; createdAt := 5000 |})
       /\ session_of (db w1) (js "1001")
          = Some {| userId := js "1001"; state := IDLE; ticketData := ∅;
                    lastActivity := 5000; createdAt := 5000 |}.
Proof.
  split.
  - apply (proj1 one_session_per_user empty_db (js "1001")). apply reach_empty.
  - destruct (proj2 one_session_per_user 5000
                (Samples.store Samples.alice []
                   (Samples.session_in AWAITING_TITLE Samples.draft 1000))
                (js "1001")) as (w1 & Hrun & _ & Hs & _).
    + reflexivity.
    + exists w1. split; [exact Hrun|exact Hs].
Defined.

(** ** Running the message handler *)

Section MessageRuns.

Variable cfg : Config.
Variable gw : Answers.
Variable now : Z.

Lemma try_catch_returned {A} (m : M A) (h : Exn -> M A) (w w1 : World) (a : A) :
  m w = (w1, Returned a) -> try_catch m h w = (w1, Returned a).
Proof. intros H. unfold try_catch. by rewrite H. Qed.

Lemma truthy_nonempty (s : jstring) : s <> [] -> JS.truthy s = true.
Proof. by destruct s. Qed.

(** A text from a user with a live session: the session's [lastActivity]
    is refreshed, then the text is routed on the state the session had. *)
Lemma handleMessage_live (msg : MessageHandler.Message) (w : World)
    (u t : jstring) (s : Session) :
  MessageHandler.from_id msg = Some u -> u <> [] ->
  MessageHandler.text msg = Some t -> JS.trim t <> [] ->
  sessions_ok (db w) ->
  session_of (db w) u = Some s ->
  SessionManager.expired (session_timeoutMinutes cfg) now s = false ->
  MessageHandler.handleMessage cfg gw now msg w
  = try_catch
      (MessageHandler.route cfg gw now (MessageHandler.chat_id msg) u (JS.trim t) (state s))
      (fun _ => bot (SendMessage (MessageHandler.chat_id msg) MsgErrorOccurred))
      {| db := put_session (db w) (touched now s); sent := sent w |}.
Proof.
  intros Hfrom Hu Htext Ht Hok Hs He.
  destruct (session_of_ok _ _ _ Hok Hs) as (Hid & Hex & Hjson).
  unfold MessageHandler.handleMessage. rewrite Hfrom, Htext. simpl.
  rewrite (truthy_nonempty u Hu), (truthy_nonempty _ Ht). simpl.
  unfold try_catch, bind.
  rewrite (getSession_live _ _ w u s Hs He).
  rewrite (updateSession_live _ _ w u s _ Hs He Hex).
  reflexivity.
Qed.

Lemma session_of_touched (d : DB) (u : jstring) (s : Session) :
  sessions_ok d -> session_of d u = Some s ->
  session_of (put_session d (touched now s)) u = Some (touched now s).
Proof.
  intros Hok Hs. destruct (session_of_ok _ _ _ Hok Hs) as (Hid & Hex & Hjson).
  subst u. pose proof (session_of_put_same d (touched now s)) as H.
  unfold stored in H. simpl in H. rewrite Hjson in H. exact H.
Qed.

Lemma handleTitleInput_invalid (chatId : Z) (u t : jstring) (w : World) (reason : string) :
  error (validateTitle (sanitizeInput t)) = Some reason ->
  MessageHandler.handleTitleInput cfg now chatId u t w
  = (say w (SendMessage chatId (MsgTitleInvalid reason)), Returned tt).
Proof.
  intros He. unfold MessageHandler.handleTitleInput. simpl.
  unfold validateTitle in *. destruct (titleSchema_validate (sanitizeInput t)); simpl in *.
  - by inversion He.
  - discriminate.
Qed.

Lemma handleTitleInput_duplicate (chatId : Z) (u t : jstring) (w : World) :
  isValid (validateTitle (sanitizeInput t)) = true ->
  Database.duplicate_rows (db w) now (sanitizeInput t) 30 <> [] ->
  MessageHandler.handleTitleInput cfg now chatId u t w
  = (say w (SendMessage chatId MsgTitleDuplicate), Returned tt).
Proof.
  intros Hv Hd. unfold MessageHandler.handleTitleInput. simpl. rewrite Hv. simpl.
  unfold Database.findDuplicateTicket, bind, read_db, ret. simpl.
  destruct (Database.duplicate_rows (db w) now (sanitizeInput t) 30); [done|].
  reflexivity.
Qed.

Lemma handleTitleInput_accepted (chatId : Z) (u t : jstring) (w : World) (s : Session) :
  isValid (validateTitle (sanitizeInput t)) = true ->
  Database.duplicate_rows (db w) now (sanitizeInput t) 30 = [] ->
  0 <= session_timeoutMinutes cfg ->
  sessions_ok (db w) ->
  session_of (db w) u = Some s ->
  lastActivity s = now ->
  exists w1,
    MessageHandler.handleTitleInput cfg now chatId u t w = (w1, Returned tt)
    /\ sent w1 = sent w ++ [SendMessage chatId MsgTitleSaved]
    /\ session_of (db w1) u
       = Some {| userId := u; state := AWAITING_DESCRIPTION;
                 ticketData := <[ "title" := JStr (sanitizeInput t) ]> (ticketData s);
                 lastActivity := now; createdAt := createdAt s |}
    /\ users (db w1) = users (db w)
    /\ ticket_requests (db w1) = ticket_requests (db w).
Proof.
  intros Hv Hd Ht Hok Hs Hl.
  destruct (session_of_ok _ _ _ Hok Hs) as (Hid & Hex & Hjson).
  pose proof (expired_fresh _ now s Ht Hl) as He.
  unfold MessageHandler.handleTitleInput. simpl. rewrite Hv. simpl.
  unfold Database.findDuplicateTicket, bind at 1, read_db, ret. simpl.
  rewrite Hd. simpl. unfold bind at 1.
  rewrite (updateTicketData_live _ _ w u s _ Hs He Hex).
  set (s1 := updated now s _).
  set (w1 := {| db := put_session (db w) s1; sent := sent w |}).
  assert (Hs1 : session_of (db w1) u = Some (stored s1)).
  { subst u. apply (session_of_put_same (db w) s1). }
  assert (He1 : SessionManager.expired (session_timeoutMinutes cfg) now (stored s1) = false).
  { by apply expired_fresh. }
  unfold SessionManager.updateSessionState, bind.
  rewrite (updateSession_live _ _ w1 u (stored s1) _ Hs1 He1 Hex).
  eexists. split; [reflexivity|]. simpl. split; [reflexivity|].
  split; [|split; reflexivity].
  set (s2 := updated now (stored s1) _).
  assert (Hu2 : userId s2 = u) by (subst u; reflexivity).
  rewrite <- Hu2 at 1.
  rewrite (session_of_put_same (put_session (db w) s1) s2).
  f_equal. unfold stored, s2, s1, updated. simpl. rewrite Hid.
  f_equal. rewrite json_roundtrip_idem.
  apply map_eq. intros k. apply option_eq. intros v.
  rewrite json_roundtrip_lookup. unfold spread.
  destruct (decide (k = "title")) as [->|Hk].
  - rewrite lookup_insert_eq.
    rewrite (lookup_union_Some_l _ _ _ (JStr (sanitizeInput t))); [|apply lookup_singleton_eq].
    split; [intros [H _]; exact H|]. intros H. split; [exact H|]. by inversion H.
  - rewrite lookup_insert_ne by done.
    rewrite lookup_union_r by (by apply lookup_singleton_ne).
    split; [tauto|]. intros H. split; [exact H|].
    rewrite <- Hjson in H. apply json_roundtrip_lookup in H. tauto.
Qed.

End MessageRuns.

(** ** The duplicate window *)

Lemma sql_day_of_seconds (now : Z) : now / 86400000 = now / 1000 / 86400.
Proof. rewrite Z.div_div by lia. reflexivity. Qed.

(** A record created at most thirty days (of milliseconds) before [now] is
    inside the window of [date('now', '-30 days')]. *)
Lemma window_in (now ago : Z) :
  0 <= ago <= 30 * 86400000 ->
  Database.date_now_minus_days now 30 <= Database.current_timestamp (now - ago).
Proof.
  intros Hago. unfold Database.date_now_minus_days, Database.current_timestamp.
  rewrite sql_day_of_seconds.
  assert (H1 : (now - 30 * 86400000) / 1000 <= (now - ago) / 1000)
    by (apply Z.div_le_mono; lia).
  replace (now - 30 * 86400000) with (now + (- (30 * 86400)) * 1000) in H1 by lia.
  rewrite Z.div_add in H1 by lia.
  pose proof (Z.mul_div_le (now / 1000) 86400). lia.
Qed.

(** A record created thirty-one days or more before [now] is outside it. *)
Lemma window_out (now created : Z) :
  created <= Database.current_timestamp (now - 31 * 86400000) ->
  created < Database.date_now_minus_days now 30.
Proof.
  unfold Database.date_now_minus_days, Database.current_timestamp.
  rewrite sql_day_of_seconds.
  replace (now - 31 * 86400000) with (now + (- (31 * 86400)) * 1000) by lia.
  rewrite Z.div_add by lia. intros Hc.
  pose proof (Z.mod_pos_bound (now / 1000) 86400).
  pose proof (Z.div_mod (now / 1000) 86400). lia.
Qed.

Lemma filter_nil_iff {A} (f : A -> bool) (l : list A) :
  List.filter f l = [] <-> forall x, In x l -> f x = false.
Proof.
  induction l as [|a l IH]; simpl; [tauto|].
  destruct (f a) eqn:E.
  - split; [discriminate|]. intros H. specialize (H a (or_introl eq_refl)). congruence.
  - rewrite IH. split.
    + intros H x [<-|Hx]; [done|by apply H].
    + intros H x Hx. apply H. by right.
Qed.

Lemma duplicate_rows_hit (d : DB) (now : Z) (title : jstring) (r : TicketRequest) :
  In r (ticket_requests d) -> t_title r = title ->
  Database.date_now_minus_days now 30 <= t_created_at r ->
  Database.duplicate_rows d now title 30 <> [].
Proof.
  intros Hin Ht Hc Hnil. unfold Database.duplicate_rows in Hnil.
  rewrite filter_nil_iff in Hnil. specialize (Hnil r Hin).
  apply andb_false_iff in Hnil as [H|H].
  - apply eqb_neq in H. congruence.
  - apply Z.leb_gt in H. lia.
Qed.

Lemma duplicate_rows_miss (d : DB) (now : Z) (title : jstring) :
  (forall r, In r (ticket_requests d) -> t_title r = title ->
             t_created_at r < Database.date_now_minus_days now 30) ->
  Database.duplicate_rows d now title 30 = [].
Proof.
  intros H. unfold Database.duplicate_rows. apply filter_nil_iff.
  intros r Hin. destruct (JS.eqb (t_title r) title) eqn:E; [|done].
  apply eqb_eq in E. simpl. apply Z.leb_gt. by apply H.
Qed.

(** ** Text messages *)

Lemma sanitize_valid_nonempty (t : jstring) :
  isValid (validateTitle (sanitizeInput (JS.trim t))) = true -> JS.trim t <> [].
Proof. intros H E. rewrite E in H. vm_compute in H. discriminate. Qed.

(** C4. At the title step, a title that passes validation and equals the
    title of a ticket record created [days] days ago, for any [days] from 0
    to 30 (10 among them), is rejected as a duplicate: the reply is the
    duplicate notice and the session stays in [AWAITING_TITLE] with its
    draft; when every record with that title is 31 days old or older, the
    title is accepted: it is stored in the draft and the session moves to
    [AWAITING_DESCRIPTION]. *)
Theorem duplicate_title_thirty_days
    (cfg : Config) (gw : Answers) (now : Z) (msg : MessageHandler.Message)
    (w : World) (u t : jstring) (s : Session) :
  MessageHandler.from_id msg = Some u -> u <> [] ->
  MessageHandler.text msg = Some t ->
  isValid (validateTitle (sanitizeInput (JS.trim t))) = true ->
  sessions_ok (db w) ->
  session_of (db w) u = Some s ->
  state s = AWAITING_TITLE ->
  SessionManager.expired (session_timeoutMinutes cfg) now s = false ->
  0 <= session_timeoutMinutes cfg ->
  (forall r days,
      In r (ticket_requests (db w)) ->
      t_title r = sanitizeInput (JS.trim t) ->
      0 <= days <= 30 ->
      t_created_at r = Database.current_timestamp (now - days * 86400000) ->
      exists w1,
        MessageHandler.handleMessage cfg gw now msg w = (w1, Returned tt)
        /\ sent w1 = sent w ++ [SendMessage (MessageHandler.chat_id msg) MsgTitleDuplicate]
        /\ session_of (db w1) u = Some (touched now s))
  /\ ((forall r,
         In r (ticket_requests (db w)) ->
         t_title r = sanitizeInput (JS.trim t) ->
         t_created_at r <= Database.current_timestamp (now - 31 * 86400000)) ->
      exists w1,
        MessageHandler.handleMessage cfg gw now msg w = (w1, Returned tt)
        /\ sent w1 = sent w ++ [SendMessage (MessageHandler.chat_id msg) MsgTitleSaved]
        /\ session_of (db w1) u
           = Some {| userId := u; state := AWAITING_DESCRIPTION;
                     ticketData :=
                       <[ "title" := JStr (sanitizeInput (JS.trim t)) ]> (ticketData s);
                     lastActivity := now; createdAt := createdAt s |}).
Proof.
  intros Hfrom Hu Htext Hv Hok Hs Hst He Ht.
  pose proof (sanitize_valid_nonempty t Hv) as Hne.
  pose proof (handleMessage_live cfg gw now msg w u t s Hfrom Hu Htext Hne Hok Hs He) as Hrun.
  rewrite Hst in Hrun. simpl in Hrun.
  set (w0 := {| db := put_session (db w) (touched now s); sent := sent w |}) in *.
  split.
  - intros r days Hin Htitle Hdays Hcreated.
    eexists. split.
    + rewrite Hrun. apply try_catch_returned. apply handleTitleInput_duplicate; [done|].
      apply (duplicate_rows_hit _ _ _ r); [exact Hin|exact Htitle|].
      rewrite Hcreated. apply window_in. lia.
    + split; [reflexivity|]. by apply session_of_touched.
  - intros Hold.
    destruct (handleTitleInput_accepted cfg now (MessageHandler.chat_id msg) u (JS.trim t)
                w0 (touched now s)) as (w1 & Hacc & Hsent & Hsess & _); try done.
    + apply duplicate_rows_miss. intros r Hin Htitle. apply window_out. by apply Hold.
    + by apply sessions_ok_put; [destruct (session_of_ok _ _ _ Hok Hs) as (<- & ? & _)|].
    + by apply session_of_touched.
    + exists w1. split; [|split; [exact Hsent|exact Hsess]].
      rewrite Hrun. by apply try_catch_returned.
Qed.

Lemma duplicate_title_thirty_days_witness :
  let ten := Samples.old_ticket
               (Database.current_timestamp (Samples.t_now - 10 * 86400000)) CREATED in
  let old := Samples.old_ticket
               (Database.current_timestamp (Samples.t_now - 31 * 86400000)) CREATED in
  let s := Samples.session_in AWAITING_TITLE {[ "label" := JStr (js "Bug") ]}
             (Samples.t_now - 1000) in
  let msg := Samples.text_message "Fix login crash on startup" in
  (exists w1,
      MessageHandler.handleMessage (config Samples.env0) Samples.tracker_down
        Samples.t_now msg (Samples.store Samples.alice [ten] s) = (w1, Returned tt)
      /\ sent w1 = [SendMessage 7 MsgTitleDuplicate]
      /\ session_of (db w1) (js "1001") = Some (touched Samples.t_now s))
  /\ (exists w1,
        MessageHandler.handleMessage (config Samples.env0) Samples.tracker_down
          Samples.t_now msg (Samples.store Samples.alice [old] s) = (w1, Returned tt)
        /\ sent w1 = [SendMessage 7 MsgTitleSaved]
        /\ (state <$> session_of (db w1) (js "1001")) = Some AWAITING_DESCRIPTION).
Proof.
  intros ten old s msg. split.
  - destruct (duplicate_title_thirty_days (config Samples.env0) Samples.tracker_down
                Samples.t_now msg (Samples.store Samples.alice [ten] s)
                (js "1001") (js "Fix login crash on startup") s) as [Hdup _].
    + reflexivity.
    + discriminate.
    + reflexivity.
    + vm_compute. reflexivity.
    + concrete_ok.
    + reflexivity.
    + reflexivity.
    + vm_compute. reflexivity.
    + vm_compute. discriminate.
    + destruct (Hdup ten 10) as (w1 & H1 & H2 & H3).
      * left. reflexivity.
      * vm_compute. reflexivity.
      * lia.
      * reflexivity.
      * exists w1. split; [exact H1|]. split; [exact H2|exact H3].
  - destruct (duplicate_title_thirty_days (config Samples.env0) Samples.tracker_down
                Samples.t_now msg (Samples.store Samples.alice [old] s)
                (js "1001") (js "Fix login crash on startup") s) as [_ Hacc].
    + reflexivity.
    + discriminate.
    + reflexivity.
    + vm_compute. reflexivity.
    + concrete_ok.
    + reflexivity.
    + reflexivity.
    + vm_compute. reflexivity.
    + vm_compute. discriminate.
    + destruct Hacc as (w1 & H1 & H2 & H3).
      * intros r [<-|[]] _. vm_compute. discriminate.
      * exists w1. split; [exact H1|]. split; [exact H2|]. rewrite H3. reflexivity.
Defined.

Lemma titleSchema_validate_nonempty (t : jstring) :
  t <> [] ->
  titleSchema_validate t
  = if strlen t <? 10 then Some msg_string_min
    else if 100 <? strlen t then Some msg_string_max
    else if negb (forallb title_char t) then Some msg_string_pattern
    else None.
Proof. destruct t; [done|reflexivity]. Qed.

Lemma forallb_title_char (t : jstring) :
  forallb title_char t = true <-> Forall (fun c => title_char c = true) t.
Proof.
  rewrite forallb_forall, Forall_forall. split; intros H x Hx; apply H.
  - by apply list_elem_of_In.
  - by apply list_elem_of_In.
Qed.

Lemma validateTitle_valid_iff (t : jstring) :
  isValid (validateTitle t) = true
  <-> 10 <= strlen t <= 100 /\ Forall (fun c => title_char c = true) t.
Proof.
  rewrite <- forallb_title_char. unfold validateTitle.
  destruct (decide (t = [])) as [->|Hne].
  { simpl. split; [discriminate|]. unfold strlen. simpl. lia. }
  rewrite (titleSchema_validate_nonempty t Hne).
  destruct (strlen t <? 10) eqn:E1; cbn [isValid].
  { apply Z.ltb_lt in E1. split; [discriminate|]. lia. }
  apply Z.ltb_ge in E1.
  destruct (100 <? strlen t) eqn:E2; cbn [isValid].
  { apply Z.ltb_lt in E2. split; [discriminate|]. lia. }
  apply Z.ltb_ge in E2.
  destruct (forallb title_char t) eqn:E3; cbn [isValid negb].
  - split; [|done]. intros _. split; [lia|done].
  - split; [discriminate|]. intros [_ H]. discriminate.
Qed.

Lemma validateTitle_reasons (t : jstring) :
  (t <> [] -> strlen t < 10 -> error (validateTitle t) = Some msg_string_min)
  /\ (100 < strlen t -> error (validateTitle t) = Some msg_string_max)
  /\ (10 <= strlen t <= 100 -> ~ Forall (fun c => title_char c = true) t ->
      error (validateTitle t) = Some msg_string_pattern).
Proof.
  rewrite <- forallb_title_char. unfold validateTitle.
  destruct (decide (t = [])) as [->|Hne].
  { split; [done|]. unfold strlen. simpl. split; lia. }
  rewrite (titleSchema_validate_nonempty t Hne).
  split; [|split].
  - intros _ H. apply Z.ltb_lt in H. by rewrite H.
  - intros H. assert ((strlen t <? 10) = false) as -> by (apply Z.ltb_ge; lia).
    apply Z.ltb_lt in H. by rewrite H.
  - intros [H1 H2] Hbad.
    assert ((strlen t <? 10) = false) as -> by (apply Z.ltb_ge; lia).
    assert ((100 <? strlen t) = false) as -> by (apply Z.ltb_ge; lia).
    destruct (forallb title_char t) eqn:E; [done|reflexivity].
Qed.

(** Title validation away from the empty title.  [validateTitle] accepts
    a title exactly when its length is between 10 and 100 and all of its
    characters are in the class [[a-zA-Z0-9\s\-_.,!]]; a title that is
    not empty and too short, or too long, or has a character outside the
    class is refused with the message of that rule, and the three
    messages differ.  At the title step a text whose sanitized form is
    refused is answered with the reason [validateTitle] gives while the
    session keeps its state [AWAITING_TITLE] and its draft; the text
    [short] is refused as too short. *)
Theorem title_validation_rules :
  (forall t,
      isValid (validateTitle t) = true
      <-> 10 <= strlen t <= 100 /\ Forall (fun c => title_char c = true) t)
  /\ (forall t,
        (t <> [] -> strlen t < 10 -> error (validateTitle t) = Some msg_string_min)
        /\ (100 < strlen t -> error (validateTitle t) = Some msg_string_max)
        /\ (10 <= strlen t <= 100 -> ~ Forall (fun c => title_char c = true) t ->
            error (validateTitle t) = Some msg_string_pattern))
  /\ (msg_string_min <> msg_string_max /\ msg_string_min <> msg_string_pattern
      /\ msg_string_max <> msg_string_pattern)
  /\ (forall cfg gw now msg w u t s reason,
        MessageHandler.from_id msg = Some u -> u <> [] ->
        MessageHandler.text msg = Some t -> JS.trim t <> [] ->
        sessions_ok (db w) ->
        session_of (db w) u = Some s ->
        state s = AWAITING_TITLE ->
        SessionManager.expired (session_timeoutMinutes cfg) now s = false ->
        error (validateTitle (sanitizeInput (JS.trim t))) = Some reason ->
        exists w1 s1,
          MessageHandler.handleMessage cfg gw now msg w = (w1, Returned tt)
          /\ sent w1 = sent w ++ [SendMessage (MessageHandler.chat_id msg)
                                    (MsgTitleInvalid reason)]
          /\ session_of (db w1) u = Some s1
          /\ state s1 = AWAITING_TITLE
          /\ ticketData s1 = ticketData s)
  /\ (strlen (js "short") = 5
      /\ validateTitle (sanitizeInput (JS.trim (js "short")))
         = {| isValid := false; error := Some msg_string_min |}).
Proof.
  split; [exact validateTitle_valid_iff|].
  split; [exact validateTitle_reasons|].
  split; [by repeat split|].
  split; [|by vm_compute].
  intros cfg gw now msg w u t s reason Hfrom Hu Htext Hne Hok Hs Hst He Herr.
  pose proof (handleMessage_live cfg gw now msg w u t s Hfrom Hu Htext Hne Hok Hs He) as Hrun.
  rewrite Hst in Hrun. simpl in Hrun.
  eexists. exists (touched now s). split.
  - rewrite Hrun. apply try_catch_returned. by apply handleTitleInput_invalid.
  - split; [reflexivity|]. split; [by apply session_of_touched|]. by split.
Qed.

Lemma title_validation_rules_witness :
  let s := Samples.session_in AWAITING_TITLE {[ "label" := JStr (js "Bug") ]} 1000 in
  (isValid (validateTitle Samples.title1) = true)
  /\ error (validateTitle (js "a,b")) = Some msg_string_min
  /\ error (validateTitle (js "Fix login (crash)")) = Some msg_string_pattern
  /\ exists w1 s1,
       MessageHandler.handleMessage (config Samples.env0) Samples.tracker_down 2000
         (Samples.text_message "short") (Samples.store Samples.alice [] s)
       = (w1, Returned tt)
       /\ sent w1 = [SendMessage 7 (MsgTitleInvalid msg_string_min)]
       /\ session_of (db w1) (js "1001") = Some s1
       /\ state s1 = AWAITING_TITLE
       /\ ticketData s1 = ticketData s.
Proof.
  intros s.
  destruct title_validation_rules as (Hiff & Hreason & _ & Hstep & _).
  split; [|split; [|split]].
  - apply Hiff. split; [vm_compute; split; discriminate|].
    apply Forall_forall. intros c Hc. apply list_elem_of_In in Hc.
    vm_compute in Hc. repeat (destruct Hc as [<-|Hc]; [reflexivity|]). destruct Hc.
  - apply (Hreason (js "a,b")); [discriminate|reflexivity].
  - apply (Hreason (js "Fix login (crash)")).
    + vm_compute. split; discriminate.
    + intros H. rewrite Forall_forall in H.
      specialize (H 40%N). simpl in H.
      assert (40%N ∈ js "Fix login (crash)") as Hin.
      { apply list_elem_of_In. vm_compute. tauto. }
      specialize (H Hin). vm_compute in H. discriminate.
  - apply (Hstep (config Samples.env0) Samples.tracker_down 2000
             (Samples.text_message "short") (Samples.store Samples.alice [] s)
             (js "1001") (js "short") s msg_string_min).
    + reflexivity.
    + discriminate.
    + reflexivity.
    + discriminate.
    + concrete_ok.
    + reflexivity.
    + reflexivity.
    + reflexivity.
    + reflexivity.
Defined.

(** C7.  The empty title is not refused as too short.  At the title step
    Alice sends a text that is one control character (U+0001): trimming
    leaves it, sanitizing removes it, and the title to validate is empty.
    Its length, 0, is below 10, yet the reason [validateTitle] gives and
    the handler sends is the validator's stock
    [value is not allowed to be empty] text, which is neither the
    too-short message of the schema nor its [Title is required]; state
    and draft stay as they were. *)
Theorem empty_title_gets_stock_reason :
  let s := Samples.session_in AWAITING_TITLE {[ "label" := JStr (js "Bug") ]} 1000 in
  let msg := {| MessageHandler.chat_id := 7; MessageHandler.from_id := Some (js "1001");
                MessageHandler.text := Some [1%N] |} in
  let w1 := fst (MessageHandler.handleMessage (config Samples.env0) Samples.tracker_down
                   2000 msg (Samples.store Samples.alice [] s)) in
  JS.trim [1%N] = [1%N]
  /\ sanitizeInput (JS.trim [1%N]) = []
  /\ strlen (sanitizeInput (JS.trim [1%N])) < 10
  /\ validateTitle (sanitizeInput (JS.trim [1%N]))
     = {| isValid := false; error := Some msg_string_empty |}
  /\ msg_string_empty <> msg_string_min
  /\ msg_string_empty <> "Title is required"%string
  /\ sent w1 = [SendMessage 7 (MsgTitleInvalid msg_string_empty)]
  /\ option_map state (session_of (db w1) (js "1001")) = Some AWAITING_TITLE
  /\ option_map ticketData (session_of (db w1) (js "1001"))
     = Some {[ "label" := JStr (js "Bug") ]}.
Proof.
  intros s msg w1.
  split; [reflexivity|]. split; [reflexivity|]. split; [reflexivity|].
  split; [reflexivity|]. split; [discriminate|]. split; [discriminate|].
  split; [vm_compute; reflexivity|]. split; vm_compute; reflexivity.
Qed.

(** C3, as the code has it.  A text sent in a state that takes no text is
    answered with the generic instruction to use the buttons; the session
    keeps its state, its draft and [createdAt], and its [lastActivity] is
    set to the time of the message; users, ticket records and the audit log
    are not written. *)
Theorem unexpected_text_refreshes_activity_only
    (cfg : Config) (gw : Answers) (now : Z) (msg : MessageHandler.Message)
    (w : World) (u t : jstring) (s : Session) :
  MessageHandler.from_id msg = Some u -> u <> [] ->
  MessageHandler.text msg = Some t -> JS.trim t <> [] ->
  sessions_ok (db w) ->
  session_of (db w) u = Some s ->
  SessionManager.expired (session_timeoutMinutes cfg) now s = false ->
  accepts_text (state s) = false ->
  exists w1,
    MessageHandler.handleMessage cfg gw now msg w = (w1, Returned tt)
    /\ sent w1 = sent w ++ [SendMessage (MessageHandler.chat_id msg) (use_buttons (state s))]
    /\ session_of (db w1) u
       = Some {| userId := userId s; state := state s; ticketData := ticketData s;
                 lastActivity := now; createdAt := createdAt s |}
    /\ users (db w1) = users (db w)
    /\ ticket_requests (db w1) = ticket_requests (db w)
    /\ audit_log (db w1) = audit_log (db w).
Proof.
  intros Hfrom Hu Htext Hne Hok Hs He Hacc.
  pose proof (handleMessage_live cfg gw now msg w u t s Hfrom Hu Htext Hne Hok Hs He) as Hrun.
  exists (say {| db := put_session (db w) (touched now s); sent := sent w |}
              (SendMessage (MessageHandler.chat_id msg) (use_buttons (state s)))).
  split.
  - rewrite Hrun. apply try_catch_returned.
    destruct (state s); try discriminate Hacc; reflexivity.
  - split; [reflexivity|]. split; [|by repeat split].
    by apply (session_of_touched now (db w) u s).
Qed.

Lemma unexpected_text_refreshes_activity_only_witness :
  let s := Samples.session_in AWAITING_PRIORITY Samples.draft 1000 in
  exists w1,
    MessageHandler.handleMessage (config Samples.env0) Samples.tracker_down 2000
      (Samples.text_message "hello there") (Samples.store Samples.alice [] s)
    = (w1, Returned tt)
    /\ sent w1 = [SendMessage 7 MsgUseProvidedButtons]
    /\ session_of (db w1) (js "1001")
       = Some {| userId := js "1001"; state := AWAITING_PRIORITY;
                 ticketData := Samples.draft; lastActivity := 2000;
                 createdAt := 900000 |}.
Proof.
  intros s.
  destruct (unexpected_text_refreshes_activity_only (config Samples.env0)
              Samples.tracker_down 2000 (Samples.text_message "hello there")
              (Samples.store Samples.alice [] s) (js "1001") (js "hello there") s)
    as (w1 & H1 & H2 & H3 & _).
  - reflexivity.
  - discriminate.
  - reflexivity.
  - discriminate.
  - concrete_ok.
  - reflexivity.
  - reflexivity.
  - reflexivity.
  - exists w1. split; [exact H1|]. split; [exact H2|exact H3].
Defined.

(** C3 as stated fails.  A text in [AWAITING_PRIORITY], a state that takes
    no text, leaves a session record that differs from the one before: its
    [lastActivity] is now the time of the message.  And a button that is
    not offered in the current state is not rejected at all: pressing a
    category button while [IDLE] stores the label and moves the session
    to [AWAITING_TITLE]. *)
Lemma invalid_event_changes_session :
  let s := Samples.session_in AWAITING_PRIORITY Samples.draft 1000 in
  let w := Samples.store Samples.alice [] s in
  let w1 := fst (MessageHandler.handleMessage (config Samples.env0) Samples.tracker_down
                   2000 (Samples.text_message "hello there") w) in
  let s' := Samples.session_in IDLE ∅ 1000 in
  let w' := Samples.store Samples.alice [] s' in
  let w1' := fst (CallbackHandler.handleCallback (config Samples.env0) Samples.tracker_down
                    2000 (js "t1") (Samples.button CallbackHandler.CbCategory "Bug") w') in
  (accepts_text (state s) = false
   /\ session_of (db w) (js "1001") = Some s
   /\ session_of (db w1) (js "1001") <> Some s
   /\ (lastActivity <$> session_of (db w1) (js "1001")) = Some 2000)
  /\ (session_of (db w') (js "1001") = Some s'
      /\ (state <$> session_of (db w1') (js "1001")) = Some AWAITING_TITLE
      /\ ((fun x => ticketData x !! "label") <$> session_of (db w1') (js "1001"))
         = Some (Some (JStr (js "Bug")))).
Proof.
  repeat split.
  - intros H. vm_compute in H. discriminate H.
Qed.

(** ** Confirmation *)

Lemma bind_returned {A B} (m : M A) (k : A -> M B) (w w1 : World) (a : A) :
  m w = (w1, Returned a) -> bind m k w = k a w1.
Proof. intros H. unfold bind. by rewrite H. Qed.

Lemma bind_thrown {A B} (m : M A) (k : A -> M B) (w w1 : World) (e : Exn) :
  m w = (w1, Thrown e) -> bind m k w = (w1, Thrown e).
Proof. intros H. unfold bind. by rewrite H. Qed.

Lemma try_catch_thrown {A} (m : M A) (h : Exn -> M A) (w w1 : World) (e : Exn) :
  m w = (w1, Thrown e) -> try_catch m h w = h e w1.
Proof. intros H. unfold try_catch. by rewrite H. Qed.

Lemma createTicket_frame (newId : jstring) (now : Z) (ticket : NewTicket) (w : World) :
  same_but_tickets w (fst (Database.createTicket newId now ticket w)).
Proof.
  unfold Database.createTicket, Database.getTicketById, bind, read_db, write_db, ret, throw.
  simpl. destruct (Database.insert_ticket _ _ _ _ _); simpl; [done|].
  destruct (option_map _ _); simpl; done.
Qed.

Lemma createTicket_tickets_indep (newId : jstring) (now : Z) (ticket : NewTicket)
    (w w' : World) :
  db w = db w' ->
  ticket_requests (db (fst (Database.createTicket newId now ticket w)))
  = ticket_requests (db (fst (Database.createTicket newId now ticket w'))).
Proof.
  intros H.
  unfold Database.createTicket, Database.getTicketById, bind, read_db, write_db, ret, throw.
  simpl. rewrite H. destruct (Database.insert_ticket _ _ _ _ _); simpl; [by rewrite H|].
  destruct (option_map _ _); simpl; done.
Qed.

Lemma updateTicketStatus_frame (now : Z) (i : jstring) (st : TicketStatus)
    (a b : option jstring) (w : World) :
  Database.updateTicketStatus now i st a b w
  = ({| db := Database.set_tickets (db w)
                (List.map (Database.set_status i st
                   match Database.or_null a, Database.or_null b with
                   | Some x, Some y => Some (x, y, Database.current_timestamp now)
                   | _, _ => None
                   end) (ticket_requests (db w)));
        sent := sent w |}, Returned tt).
Proof. reflexivity. Qed.

Section ConfirmRuns.

Variable cfg : Config.
Variable gw : Answers.
Variable now : Z.
Variable newId : jstring.

Lemma catch_block_run (chatId messageId : Z) (s : Session) (w' : World) :
  exists w2 g,
    (exec match field_str (ticketData s) "id" with
          | Some i => when (JS.truthy i) (Database.updateTicketStatus now i FAILED None None)
          | None => ret tt
          end in
     bot (EditMessageText chatId messageId MsgCreateFailed)) w'
    = (say w2 (EditMessageText chatId messageId MsgCreateFailed), Returned tt)
    /\ same_but_tickets w' w2
    /\ keeps_title_and_date g
    /\ (ticketData s !! "id" = None -> forall r, g r = r)
    /\ ticket_requests (db w2) = List.map g (ticket_requests (db w')).
Proof.
  unfold field_str.
  destruct (ticketData s !! "id") as [[i| | |]|] eqn:Hid;
    [destruct (JS.truthy i)| | | |].
  1:{ exists {| db := Database.set_tickets (db w')
                 (List.map (Database.set_status i FAILED None) (ticket_requests (db w')));
                 sent := sent w' |}, (Database.set_status i FAILED None).
      split; [reflexivity|]. split; [by repeat split|]. split; [|split; [done|reflexivity]].
      intros r. unfold Database.set_status. by destruct (JS.eqb (t_id r) i). }
  all: exists w', (fun r => r); split; [by destruct w'|];
    split; [by repeat split|]; split; [done|]; split; [done|];
    by rewrite map_id.
Qed.

Local Ltac finish_catch chatId messageId s w0 w' Hf Htk :=
  destruct Hf as (Hf1 & Hf2 & Hf3 & Hf4);
  match goal with |- context [try_catch ?b ?h w0] =>
    let Hbody := fresh "Hbody" in
    assert (Hbody : exists e, b w0 = (w', Thrown e));
    [eexists|
     destruct Hbody as (e & Hbody);
     rewrite (try_catch_thrown b h w0 w' e Hbody);
     destruct (catch_block_run chatId messageId s w')
       as (w2 & g & Hrun & (Hg1 & Hg2 & Hg3 & Hg4) & Hk & Hid & Hg);
     rewrite Hrun; eexists; split; [reflexivity|];
     unfold say; cbn [db sent];
     rewrite Hg1, Hg2, Hg3, Hg4, Hf1, Hf2, Hf3, Hf4; unfold w0, say; cbn [db sent];
     rewrite <- app_assoc;
     repeat (split; [reflexivity|]);
     exists g; split; [exact Hk|]; split; [exact Hid|];
     rewrite Hg, Htk; reflexivity]
  end.

(** With the tracker down, [handleConfirmation] ends in its [catch]
    block, which writes at most the status of ticket records. *)
Lemma handleConfirmation_gateway_down (chatId messageId : Z) (u : jstring)
    (user : User) (w : World) (s : Session) :
  createTicket_answer gw = None ->
  session_of (db w) u = Some s ->
  SessionManager.expired (session_timeoutMinutes cfg) now s = false ->
  exists w1,
    CallbackHandler.handleConfirmation cfg gw now newId chatId messageId u (js "yes") user w
    = (w1, Returned tt)
    /\ sessions (db w1) = sessions (db w)
    /\ users (db w1) = users (db w)
    /\ audit_log (db w1) = audit_log (db w)
    /\ sent w1 = sent w ++ [EditMessageText chatId messageId MsgCreating;
                            EditMessageText chatId messageId MsgCreateFailed]
    /\ exists g,
         keeps_title_and_date g
         /\ (ticketData s !! "id" = None -> forall r, g r = r)
         /\ ticket_requests (db w1)
            = List.map g (ticket_requests (db (fst
                (Database.createTicket newId now
                   (CallbackHandler.draft_ticket u user s) w)))).
Proof.
  intros Hgw Hs He.
  unfold CallbackHandler.handleConfirmation. cbv zeta.
  rewrite (bind_returned _ _ w w (Some s)) by (by apply getSession_live).
  rewrite eqb_refl.
  rewrite (bind_returned _ _ w (say w (EditMessageText chatId messageId MsgCreating)) tt)
    by reflexivity.
  set (w0 := say w (EditMessageText chatId messageId MsgCreating)).
  pose proof (createTicket_frame newId now (CallbackHandler.draft_ticket u user s) w0) as Hf.
  assert (Htk : ticket_requests (db (fst (Database.createTicket newId now
                    (CallbackHandler.draft_ticket u user s) w0)))
                = ticket_requests (db (fst (Database.createTicket newId now
                    (CallbackHandler.draft_ticket u user s) w))))
    by (by apply createTicket_tickets_indep).
  destruct (Database.createTicket newId now (CallbackHandler.draft_ticket u user s) w0)
    as [w' [t0|e0]] eqn:Hc; cbn [fst] in Hf, Htk.
  - finish_catch chatId messageId s w0 w' Hf Htk.
    rewrite (bind_returned _ _ w0 w' t0 Hc).
    apply bind_thrown. unfold Gateway.createTicket. rewrite Hgw. reflexivity.
  - finish_catch chatId messageId s w0 w' Hf Htk. by apply bind_thrown.
Qed.

End ConfirmRuns.

Section CallbackRuns.

Variable cfg : Config.
Variable gw : Answers.
Variable now : Z.
Variable newId : jstring.

(** The prologue of [handleCallback] for an authenticated user: the
    query is answered and the action is dispatched; a [Returned] outcome
    of the action is the outcome of the handler. *)
Lemma handleCallback_returned (q : CallbackHandler.CallbackQuery) (w w1 : World)
    (user : User) (action : M unit) :
  user_of (db w) (CallbackHandler.q_from q) = Some user ->
  is_authenticated user = true ->
  (match CallbackHandler.q_action q with
   | CallbackHandler.CbAction =>
       CallbackHandler.handleAction cfg now (CallbackHandler.q_chatId q)
         (CallbackHandler.q_messageId q) (CallbackHandler.q_from q) (CallbackHandler.q_value q)
   | CallbackHandler.CbCategory =>
       CallbackHandler.handleCategorySelection cfg now (CallbackHandler.q_chatId q)
         (CallbackHandler.q_messageId q) (CallbackHandler.q_from q) (CallbackHandler.q_value q)
   | CallbackHandler.CbLabel =>
       CallbackHandler.handleLabelSelection cfg now (CallbackHandler.q_chatId q)
         (CallbackHandler.q_messageId q) (CallbackHandler.q_from q) (CallbackHandler.q_value q)
   | CallbackHandler.CbPriority =>
       CallbackHandler.handlePrioritySelection cfg now (CallbackHandler.q_chatId q)
         (CallbackHandler.q_messageId q) (CallbackHandler.q_from q) (CallbackHandler.q_value q)
   | CallbackHandler.CbConfirm =>
       CallbackHandler.handleConfirmation cfg gw now newId (CallbackHandler.q_chatId q)
         (CallbackHandler.q_messageId q) (CallbackHandler.q_from q) (CallbackHandler.q_value q)
         user
   | CallbackHandler.CbEdit =>
       CallbackHandler.handleEdit cfg now (CallbackHandler.q_chatId q)
         (CallbackHandler.q_messageId q) (CallbackHandler.q_from q) (CallbackHandler.q_value q)
   end) = action ->
  action (say w AnswerCallbackQuery) = (w1, Returned tt) ->
  CallbackHandler.handleCallback cfg gw now newId q w = (w1, Returned tt).
Proof.
  intros Hu Hauth Hact Hrun. unfold CallbackHandler.handleCallback. cbv zeta.
  apply try_catch_returned.
  rewrite (bind_returned _ _ w (say w AnswerCallbackQuery) tt) by reflexivity.
  rewrite (bind_returned _ _ _ (say w AnswerCallbackQuery) (Some user)).
  - rewrite Hauth, Hact. exact Hrun.
  - unfold Database.getUserById, bind, read_db, ret. simpl.
    unfold user_of in Hu. by rewrite Hu.
Qed.

End CallbackRuns.

(** The failure path of the confirmation, for every input.  When an
    authenticated user with a live session confirms and the tracker call
    fails, the handler answers with the failure notice, the [sessions]
    table is left exactly as it was (state, draft and timestamps stay)
    and the [users] table, with the user's daily counter, is not
    written. *)
Theorem gateway_failure_keeps_session_and_counter
    (cfg : Config) (gw : Answers) (now : Z) (newId : jstring)
    (q : CallbackHandler.CallbackQuery) (w : World) (user : User) (s : Session) :
  CallbackHandler.q_action q = CallbackHandler.CbConfirm ->
  CallbackHandler.q_value q = js "yes" ->
  createTicket_answer gw = None ->
  user_of (db w) (CallbackHandler.q_from q) = Some user ->
  is_authenticated user = true ->
  session_of (db w) (CallbackHandler.q_from q) = Some s ->
  SessionManager.expired (session_timeoutMinutes cfg) now s = false ->
  exists w1,
    CallbackHandler.handleCallback cfg gw now newId q w = (w1, Returned tt)
    /\ sessions (db w1) = sessions (db w)
    /\ session_of (db w1) (CallbackHandler.q_from q) = Some s
    /\ users (db w1) = users (db w)
    /\ Database.getUserTicketsToday (CallbackHandler.q_from q) w1
       = (w1, Returned (tickets_created_today user))
    /\ sent w1 = sent w ++ [AnswerCallbackQuery;
                            EditMessageText (CallbackHandler.q_chatId q)
                              (CallbackHandler.q_messageId q) MsgCreating;
                            EditMessageText (CallbackHandler.q_chatId q)
                              (CallbackHandler.q_messageId q) MsgCreateFailed].
Proof.
  intros Hact Hval Hgw Hu Hauth Hs He.
  destruct (handleConfirmation_gateway_down cfg gw now newId
              (CallbackHandler.q_chatId q) (CallbackHandler.q_messageId q)
              (CallbackHandler.q_from q) user (say w AnswerCallbackQuery) s Hgw Hs He)
    as (w1 & Hrun & Hsess & Husers & _ & Hsent & _).
  exists w1. split.
  - eapply handleCallback_returned; [exact Hu|exact Hauth| |exact Hrun].
    rewrite Hact, Hval. reflexivity.
  - simpl in *. split; [exact Hsess|]. split.
    + unfold session_of in *. by rewrite Hsess.
    + split; [exact Husers|]. split.
      * unfold Database.getUserTicketsToday, bind, read_db, ret. simpl.
        unfold user_of in Hu. by rewrite Husers, Hu.
      * rewrite Hsent, <- app_assoc. reflexivity.
Qed.

Lemma gateway_failure_keeps_session_and_counter_witness :
  let s := Samples.session_in AWAITING_CONFIRMATION Samples.draft 1000 in
  let w := Samples.store Samples.alice [] s in
  exists w1,
    CallbackHandler.handleCallback (config Samples.env0) Samples.tracker_down 2000 (js "t1")
      (Samples.button CallbackHandler.CbConfirm "yes") w = (w1, Returned tt)
    /\ session_of (db w1) (js "1001") = Some s
    /\ Database.getUserTicketsToday (js "1001") w1 = (w1, Returned 0).
Proof.
  intros s w.
  destruct (gateway_failure_keeps_session_and_counter (config Samples.env0)
              Samples.tracker_down 2000 (js "t1")
              (Samples.button CallbackHandler.CbConfirm "yes") w Samples.alice s)
    as (w1 & H1 & _ & H2 & _ & H3 & _).
  - reflexivity.
  - reflexivity.
  - reflexivity.
  - reflexivity.
  - reflexivity.
  - reflexivity.
  - reflexivity.
  - exists w1. split; [exact H1|]. split; [exact H2|exact H3].
Defined.

(** C1.  The code at the failing input.  Alice confirms a complete draft
    while the tracker is down: the one ticket record written by the
    confirmation is left with status [SUBMITTED], not [FAILED] (the catch
    block looks the record up through the draft's [id], which no handler
    sets), and her session is still in [AWAITING_CONFIRMATION] with its
    draft, not cleared to [IDLE]. *)
Lemma gateway_failure_not_failed_not_cleared :
  let s := Samples.session_in AWAITING_CONFIRMATION Samples.draft 1000 in
  let w := Samples.store Samples.alice [] s in
  let w1 := fst (CallbackHandler.handleCallback (config Samples.env0) Samples.tracker_down
                   2000 (js "t1") (Samples.button CallbackHandler.CbConfirm "yes") w) in
  List.map (fun r => (t_id r, t_title r, t_status r)) (ticket_requests (db w1))
    = [(js "t1", Samples.title1, SUBMITTED)]
  /\ (state <$> session_of (db w1) (js "1001")) = Some AWAITING_CONFIRMATION
  /\ (ticketData <$> session_of (db w1) (js "1001")) = Some Samples.draft
  /\ ~ ((forall r, In r (ticket_requests (db w1)) -> t_status r = FAILED)
        /\ (state <$> session_of (db w1) (js "1001")) = Some IDLE).
Proof.
  intros s w w1.
  assert (H1 : List.map (fun r => (t_id r, t_title r, t_status r)) (ticket_requests (db w1))
               = [(js "t1", Samples.title1, SUBMITTED)]) by (vm_compute; reflexivity).
  assert (H2 : (state <$> session_of (db w1) (js "1001")) = Some AWAITING_CONFIRMATION)
    by (vm_compute; reflexivity).
  split; [exact H1|]. split; [exact H2|]. split; [vm_compute; reflexivity|].
  intros [_ H]. rewrite H2 in H. discriminate H.
Qed.

(** ** Starting a ticket: the daily limit *)

(** With the configuration of the source, in which [rateLimit] is commented
    out, pressing [create_ticket] throws while the limit is read, whatever
    the user's counter is: the user gets the generic error text and the
    store is not written. *)
Lemma create_ticket_throws (env : Env) (gw : Answers) (now : Z) (newId : jstring)
    (q : CallbackHandler.CallbackQuery) (w : World) (user : User) :
  CallbackHandler.q_action q = CallbackHandler.CbAction ->
  CallbackHandler.q_value q = js "create_ticket" ->
  user_of (db w) (CallbackHandler.q_from q) = Some user ->
  is_authenticated user = true ->
  CallbackHandler.handleCallback (config env) gw now newId q w
  = ({| db := db w;
        sent := sent w ++ [AnswerCallbackQuery;
                           EditMessageText (CallbackHandler.q_chatId q)
                             (CallbackHandler.q_messageId q) MsgErrorOccurred] |},
     Returned tt).
Proof.
  intros Hact Hval Hu Hauth. unfold CallbackHandler.handleCallback. cbv zeta.
  match goal with |- try_catch ?b ?h w = _ =>
    rewrite (try_catch_thrown b h w (say w AnswerCallbackQuery)
               (TypeError "Cannot read properties of undefined (reading 'maxTicketsPerDay')"))
  end.
  - unfold bot, say. cbn [db sent]. rewrite <- app_assoc. reflexivity.
  - rewrite (bind_returned _ _ w (say w AnswerCallbackQuery) tt) by reflexivity.
    rewrite (bind_returned _ _ _ (say w AnswerCallbackQuery) (Some user)).
    + rewrite Hauth, Hact, Hval. unfold CallbackHandler.handleAction. cbv zeta.
      rewrite eqb_refl.
      erewrite bind_returned;
        [|unfold Database.getUserTicketsToday, bind, read_db, ret; simpl; reflexivity].
      reflexivity.
    + unfold Database.getUserById, bind, read_db, ret. simpl.
      unfold user_of in Hu. by rewrite Hu.
Qed.

(** With a configuration that defines [rateLimit], a user whose counter
    has reached the maximum is refused with the daily-limit text and the
    store is not written. *)
Lemma rate_limit_rejects_when_configured (cfg : Config) (rl : RateLimit) (gw : Answers)
    (now : Z) (newId : jstring) (q : CallbackHandler.CallbackQuery) (w : World) (user : User) :
  rateLimit cfg = Some rl ->
  CallbackHandler.q_action q = CallbackHandler.CbAction ->
  CallbackHandler.q_value q = js "create_ticket" ->
  user_of (db w) (CallbackHandler.q_from q) = Some user ->
  is_authenticated user = true ->
  maxTicketsPerDay rl <= tickets_created_today user ->
  CallbackHandler.handleCallback cfg gw now newId q w
  = ({| db := db w;
        sent := sent w ++ [AnswerCallbackQuery;
                           EditMessageText (CallbackHandler.q_chatId q)
                             (CallbackHandler.q_messageId q)
                             (MsgDailyLimit (maxTicketsPerDay rl))] |},
     Returned tt).
Proof.
  intros Hrl Hact Hval Hu Hauth Hmax.
  eapply handleCallback_returned; [exact Hu|exact Hauth|reflexivity|].
  rewrite Hact, Hval. unfold CallbackHandler.handleAction. cbv zeta.
  rewrite eqb_refl.
  erewrite bind_returned.
  2:{ unfold Database.getUserTicketsToday, bind, read_db, ret. simpl.
      unfold user_of in Hu. rewrite Hu. reflexivity. }
  rewrite Hrl. apply Z.leb_le in Hmax. rewrite Hmax.
  unfold bot, say. cbn [db sent]. rewrite <- app_assoc. reflexivity.
Qed.

Lemma find_map_bump (u : jstring) (l : list User) :
  List.find (fun r => JS.eqb (telegram_user_id r) u) (List.map (Database.bump u) l)
  = option_map (Database.bump u) (List.find (fun r => JS.eqb (telegram_user_id r) u) l).
Proof.
  induction l as [|a l IH]; simpl; [done|].
  unfold Database.bump at 1. destruct (JS.eqb (telegram_user_id a) u) eqn:E; simpl.
  - rewrite E. unfold Database.bump. by rewrite E.
  - by rewrite E.
Qed.

(** After the daily reset and [n] successful confirmations the counter of a
    registered user is [n]. *)
Lemma counter_after_successes (n : nat) (u : jstring) (w : World) (user : User) :
  user_of (db w) u = Some user ->
  exists w1 user1,
    (exec Database.resetDailyTicketCounts in count_successes n u) w = (w1, Returned tt)
    /\ user_of (db w1) u = Some user1
    /\ tickets_created_today user1 = Z.of_nat n
    /\ is_authenticated user1 = is_authenticated user
    /\ sessions (db w1) = sessions (db w).
Proof.
  intros Hu.
  assert (Hgen : forall k w0 user0,
    user_of (db w0) u = Some user0 ->
    exists w1 user1,
      count_successes k u w0 = (w1, Returned tt)
      /\ user_of (db w1) u = Some user1
      /\ tickets_created_today user1 = tickets_created_today user0 + Z.of_nat k
      /\ is_authenticated user1 = is_authenticated user0
      /\ sessions (db w1) = sessions (db w0)).
  { induction k as [|k IH]; intros w0 user0 H0.
    - exists w0, user0. simpl. repeat split; try done. lia.
    - set (w' := {| db := Database.set_users (db w0)
                            (List.map (Database.bump u) (users (db w0)));
                    sent := sent w0 |}).
      assert (H' : user_of (db w') u = Some (Database.bump u user0)).
      { unfold user_of in *. cbn [w' db users Database.set_users].
        by rewrite find_map_bump, H0. }
      destruct (IH w' _ H') as (w1 & user1 & Hrun & Hu1 & Hc & Ha & Hs).
      exists w1, user1. split; [|split; [exact Hu1|]].
      + cbn [count_successes]. erewrite bind_returned; [exact Hrun|reflexivity].
      + assert (E : JS.eqb (telegram_user_id user0) u = true).
        { unfold user_of in H0. by apply find_some in H0 as [_ H0]. }
        unfold Database.bump in Hc, Ha. rewrite E in Hc, Ha. simpl in *.
        split; [lia|]. by split. }
  set (w' := {| db := Database.set_users (db w)
                        (List.map Database.zero_today (users (db w)));
                sent := sent w |}).
  assert (H' : user_of (db w') u = Some (Database.zero_today user)).
  { unfold user_of in *. cbn [w' db users Database.set_users].
    clear -Hu. induction (users (db w)) as [|a l IH]; simpl in *; [done|].
    destruct (JS.eqb (telegram_user_id a) u); [by inversion Hu|by apply IH]. }
  destruct (Hgen n w' _ H') as (w1 & user1 & Hrun & Hu1 & Hc & Ha & Hs).
  exists w1, user1. split; [|by repeat split].
  erewrite bind_returned; [exact Hrun|reflexivity].
Qed.

(** C2 on the code.  Alice has created five tickets today, the maximum the
    commented-out configuration names.  She presses [create_ticket]: the
    answer is the generic error text, not the daily-limit text; her session
    and her counter are as before.  Under a configuration that defines the
    limit as five the same press is answered with the daily-limit text. *)
Theorem daily_limit_reached_generic_error :
  let s := Samples.session_in IDLE ∅ 1000 in
  let w := Samples.store Samples.alice5 [] s in
  let press := Samples.button CallbackHandler.CbAction "create_ticket" in
  CallbackHandler.handleCallback (config Samples.env0) Samples.tracker_down 2000 (js "t1") press w
  = ({| db := db w;
        sent := [AnswerCallbackQuery; EditMessageText 7 9 MsgErrorOccurred] |},
     Returned tt)
  /\ CallbackHandler.handleCallback Samples.cfg_limited Samples.tracker_down 2000 (js "t1") press w
     = ({| db := db w;
           sent := [AnswerCallbackQuery; EditMessageText 7 9 (MsgDailyLimit 5)] |},
        Returned tt).
Proof.
  intros s w press. split.
  - apply (create_ticket_throws Samples.env0 Samples.tracker_down 2000 (js "t1") press w
             Samples.alice5); reflexivity.
  - apply (rate_limit_rejects_when_configured Samples.cfg_limited
             {| maxTicketsPerDay := 5; windowMs := 86400000 |}
             Samples.tracker_down 2000 (js "t1") press w Samples.alice5);
      reflexivity.
Qed.

(** ** Ticket records: insertion and the label mapping *)

Lemma find_none_existsb {A} (p : A -> bool) (l : list A) :
  List.find p l = None -> existsb p l = false.
Proof.
  induction l as [|a l IH]; simpl; [done|]. destruct (p a); [discriminate|]. exact IH.
Qed.

Lemma find_app_fresh {A} (p : A -> bool) (l : list A) (x : A) :
  List.find p l = None -> p x = true -> List.find p (l ++ [x]) = Some x.
Proof.
  induction l as [|a l IH]; simpl; intros Hn Hx.
  - by rewrite Hx.
  - destruct (p a); [discriminate|]. by apply IH.
Qed.

(** [createTicket] on a complete ticket whose label and priority satisfy
    the CHECK constraints, with an unused id, for a registered user. *)
Lemma createTicket_run (newId : jstring) (now : Z) (ticket : NewTicket) (w : World)
    (title description label priority : jstring) :
  n_title ticket = Some title ->
  n_description ticket = Some description ->
  n_label ticket = Some label ->
  n_priority ticket = Some priority ->
  Database.check_label (if JS.eqb label (js "Request") then js "Other" else label) = true ->
  Database.check_priority priority = true ->
  ticket_of (db w) newId = None ->
  Database.user_exists (db w) (n_telegram_user_id ticket) = true ->
  exists row,
    Database.createTicket newId now ticket w
    = ({| db := Database.set_tickets (db w) (ticket_requests (db w) ++ [row]);
          sent := sent w |},
       Returned (Database.mapRowToTicket row))
    /\ t_id row = newId
    /\ t_title row = title
    /\ t_label row = (if JS.eqb label (js "Request") then js "Other" else label)
    /\ t_status row = n_status ticket
    /\ t_created_at row = Database.current_timestamp now.
Proof.
  intros Ht Hd Hl Hp Hcl Hcp Hfresh Hu.
  unfold Database.createTicket, Database.insert_ticket. rewrite Ht, Hd, Hl, Hp.
  unfold bind at 1, read_db at 1.
  unfold ticket_of in Hfresh. rewrite (find_none_existsb _ _ Hfresh).
  rewrite Hcl, Hcp, Hu. cbn [negb].
  eexists. split.
  { unfold bind at 1, write_db. unfold bind, Database.getTicketById, bind, read_db, ret.
    cbn [db sent Database.set_tickets ticket_requests].
    rewrite (find_app_fresh _ _ _ Hfresh) by (cbn [t_id]; apply eqb_refl).
    reflexivity. }
  repeat split; reflexivity.
Qed.

(** C10. For each of the three application labels, [createTicket] stores a
    label that the CHECK constraint of [ticket_requests] accepts ([Request]
    itself is not in the constraint's list and is stored as [Other]), and
    the ticket read back through [mapRowToTicket], both the one
    [createTicket] returns and the one [getTicketById] finds afterwards,
    carries the original label. *)
Theorem label_round_trip
    (l : TicketLabel) (newId : jstring) (now : Z) (ticket : NewTicket) (w : World)
    (title description priority : jstring) :
  n_label ticket = Some (TicketLabel_value l) ->
  n_title ticket = Some title ->
  n_description ticket = Some description ->
  n_priority ticket = Some priority ->
  Database.check_priority priority = true ->
  ticket_of (db w) newId = None ->
  Database.user_exists (db w) (n_telegram_user_id ticket) = true ->
  exists w1 row t,
    Database.createTicket newId now ticket w = (w1, Returned t)
    /\ ticket_of (db w1) newId = Some row
    /\ t_label row = match l with REQUEST => js "Other" | _ => TicketLabel_value l end
    /\ Database.check_label (t_label row) = true
    /\ Database.check_label (TicketLabel_value REQUEST) = false
    /\ t_label t = TicketLabel_value l
    /\ Database.getTicketById newId w1 = (w1, Returned (Some t)).
Proof.
  intros Hl Ht Hd Hp Hcp Hfresh Hu.
  destruct (createTicket_run newId now ticket w title description (TicketLabel_value l)
              priority Ht Hd Hl Hp) as (row & Hrun & Hid & _ & Hlabel & _); try done.
  { by destruct l. }
  assert (Hfind : ticket_of {| users := users (db w);
                               ticket_requests := ticket_requests (db w) ++ [row];
                               sessions := sessions (db w);
                               audit_log := audit_log (db w) |} newId = Some row).
  { unfold ticket_of. cbn [ticket_requests]. apply find_app_fresh; [exact Hfresh|].
    rewrite Hid. apply eqb_refl. }
  eexists. exists row, (Database.mapRowToTicket row).
  split; [exact Hrun|]. cbn [db]. split; [exact Hfind|].
  split; [rewrite Hlabel; by destruct l|].
  split; [rewrite Hlabel; by destruct l|].
  split; [reflexivity|].
  split.
  - unfold Database.mapRowToTicket. cbn [t_label]. rewrite Hlabel. by destruct l.
  - unfold Database.getTicketById, bind, read_db, ret. cbn [db].
    unfold ticket_of in Hfind. unfold Database.set_tickets. by rewrite Hfind.
Qed.

(** The mapping is one-to-one on the three application labels only: a row
    stored with the label [Other] is read back as [Request]. *)
Lemma other_reads_back_as_request :
  t_label (Database.mapRowToTicket
             (with_status (fun _ => CREATED)
                {| t_id := js "t9"; t_telegram_user_id := js "1001";
                   t_telegram_username := None; t_department := js "Falcon";
                   t_title := Samples.title1; t_description := js "The app crashes";
                   t_label := js "Other"; t_priority := js "Low"; t_status := DRAFT;
                   t_linear_ticket_id := None; t_linear_ticket_url := None;
                   t_created_at := 0; t_submitted_at := None;
                   t_session_data := None |}))
  = js "Request".
Proof. reflexivity. Qed.

Lemma label_round_trip_witness :
  let ticket := CallbackHandler.draft_ticket (js "1001") Samples.alice
                  (Samples.session_in AWAITING_CONFIRMATION
                     (<[ "label" := JStr (js "Request") ]> Samples.draft) 1000) in
  let w := Samples.store Samples.alice [] (Samples.session_in IDLE ∅ 1000) in
  exists w1 row t,
    Database.createTicket (js "t1") 2000 ticket w = (w1, Returned t)
    /\ ticket_of (db w1) (js "t1") = Some row
    /\ t_label row = js "Other"
    /\ t_label t = js "Request".
Proof.
  intros ticket w.
  destruct (label_round_trip REQUEST (js "t1") 2000 ticket w Samples.title1
              (js "The app crashes on startup") (js "High"))
    as (w1 & row & t & H1 & H2 & H3 & _ & _ & H4 & _); try reflexivity.
  exists w1, row, t. split; [exact H1|]. split; [exact H2|]. split; [exact H3|exact H4].
Defined.

(** ** The duplicate check and the status of a record *)

Lemma filter_map_length {A} (p : A -> bool) (g : A -> A) (l : list A) :
  (forall r, p (g r) = p r) ->
  length (List.filter p (List.map g l)) = length (List.filter p l).
Proof.
  intros H. induction l as [|a l IH]; simpl; [done|].
  rewrite H. destruct (p a); simpl; by rewrite IH.
Qed.

Lemma find_some_existsb {A} (p : A -> bool) (l : list A) (x : A) :
  List.find p l = Some x -> existsb p l = true.
Proof.
  induction l as [|a l IH]; simpl; [discriminate|]. destruct (p a); [done|]. exact IH.
Qed.

(** C9. [findDuplicateTicket] does not read the status of a record: it
    answers the same whatever statuses the records have.  So when a user
    confirms a complete draft and the tracker call fails, the record written
    by that confirmation (left [SUBMITTED] when the draft has no [id] key,
    as is the case for every draft the handlers build) makes the title a
    duplicate: for thirty days, typing the same title at the title step is
    answered with the duplicate notice. *)
Theorem duplicate_check_ignores_status :
  (forall (f : TicketRequest -> TicketStatus) (w : World) (now : Z)
          (title : jstring) (dayLimit : Z),
      snd (Database.findDuplicateTicket now title dayLimit
             {| db := restatus f (db w); sent := sent w |})
      = snd (Database.findDuplicateTicket now title dayLimit w))
  /\ (forall (cfg : Config) (gw : Answers) (now : Z) (newId : jstring)
             (q : CallbackHandler.CallbackQuery) (w : World) (user : User) (s : Session)
             (title description : jstring) (l : TicketLabel) (p : TicketPriority),
        CallbackHandler.q_action q = CallbackHandler.CbConfirm ->
        CallbackHandler.q_value q = js "yes" ->
        createTicket_answer gw = None ->
        user_of (db w) (CallbackHandler.q_from q) = Some user ->
        is_authenticated user = true ->
        session_of (db w) (CallbackHandler.q_from q) = Some s ->
        SessionManager.expired (session_timeoutMinutes cfg) now s = false ->
        field_str (ticketData s) "title" = Some title ->
        field_str (ticketData s) "description" = Some description ->
        field_str (ticketData s) "label" = Some (TicketLabel_value l) ->
        field_str (ticketData s) "priority" = Some (TicketPriority_value p) ->
        ticket_of (db w) newId = None ->
        isValid (validateTitle title) = true ->
        exists w1,
          CallbackHandler.handleCallback cfg gw now newId q w = (w1, Returned tt)
          /\ (exists r,
                In r (ticket_requests (db w1)) /\ t_id r = newId /\ t_title r = title
                /\ (ticketData s !! "id" = None -> t_status r = SUBMITTED))
          /\ forall (now' : Z) (w2 : World) (chatId : Z) (text' : jstring),
               now <= now' <= now + 30 * 86400000 ->
               ticket_requests (db w2) = ticket_requests (db w1) ->
               sanitizeInput text' = title ->
               MessageHandler.handleTitleInput cfg now' chatId (CallbackHandler.q_from q) text' w2
               = (say w2 (SendMessage chatId MsgTitleDuplicate), Returned tt)).
Proof.
  split.
  - intros f w now title dayLimit.
    unfold Database.findDuplicateTicket, bind, read_db, ret. cbn [snd db].
    unfold Database.duplicate_rows, restatus. cbn [ticket_requests Database.set_tickets].
    by rewrite filter_map_length.
  - intros cfg gw now newId q w user s title description l p
      Hact Hval Hgw Hu Hauth Hs He Htitle Hdesc Hlabel Hprio Hfresh Hvalid.
    set (u := CallbackHandler.q_from q) in *.
    set (w0 := say w AnswerCallbackQuery).
    destruct (handleConfirmation_gateway_down cfg gw now newId
                (CallbackHandler.q_chatId q) (CallbackHandler.q_messageId q)
                u user w0 s Hgw Hs He)
      as (w1 & Hrun & _ & _ & _ & _ & g & Hk & Hid & Htk).
    destruct (createTicket_run newId now (CallbackHandler.draft_ticket u user s) w0
                title description (TicketLabel_value l) (TicketPriority_value p))
      as (row & Hcreate & Hrid & Hrtitle & _ & Hrstatus & Hrdate); try done.
    { by destruct l. }
    { by destruct p. }
    { unfold Database.user_exists. cbn [db w0 say CallbackHandler.draft_ticket n_telegram_user_id].
      by apply (find_some_existsb _ _ user). }
    rewrite Hcreate in Htk. cbn [fst db Database.set_tickets ticket_requests] in Htk.
    rewrite map_app in Htk. cbn [List.map] in Htk.
    destruct (Hk row) as (Hgid & Hgtitle & Hgdate).
    assert (Hin : In (g row) (ticket_requests (db w1))).
    { rewrite Htk. apply in_or_app. right. by left. }
    exists w1. split.
    { eapply handleCallback_returned; [exact Hu|exact Hauth| |exact Hrun].
      rewrite Hact, Hval. reflexivity. }
    split.
    { exists (g row). split; [exact Hin|]. split; [congruence|]. split; [congruence|].
      intros Hnoid. rewrite (Hid Hnoid). exact Hrstatus. }
    intros now' w2 chatId text' Hlater Hsame Htext.
    apply handleTitleInput_duplicate; [by rewrite Htext|].
    apply (duplicate_rows_hit _ _ _ (g row)).
    + by rewrite Hsame.
    + rewrite Htext. congruence.
    + rewrite Hgdate, Hrdate.
      replace now with (now' - (now' - now)) by lia. apply window_in. lia.
Qed.

Lemma duplicate_check_ignores_status_witness :
  let s := Samples.session_in AWAITING_CONFIRMATION Samples.draft 1000 in
  let w := Samples.store Samples.alice [] s in
  let cfg := config Samples.env0 in
  exists w1,
    CallbackHandler.handleCallback cfg Samples.tracker_down 2000 (js "t1")
      (Samples.button CallbackHandler.CbConfirm "yes") w = (w1, Returned tt)
    /\ (exists r, In r (ticket_requests (db w1)) /\ t_id r = js "t1"
                  /\ t_title r = Samples.title1
                  /\ (Samples.draft !! "id" = None -> t_status r = SUBMITTED))
    /\ MessageHandler.handleTitleInput cfg (2000 + 86400000) 7 (js "1001")
         (js " Fix login crash on startup ") w1
       = (say w1 (SendMessage 7 MsgTitleDuplicate), Returned tt).
Proof.
  intros s w cfg.
  destruct (proj2 duplicate_check_ignores_status cfg Samples.tracker_down 2000 (js "t1")
              (Samples.button CallbackHandler.CbConfirm "yes") w Samples.alice s
              Samples.title1 (js "The app crashes on startup") BUG HIGH)
    as (w1 & H1 & H2 & H3); try reflexivity.
  exists w1. split; [exact H1|]. split; [exact H2|].
  apply H3; [lia|reflexivity|reflexivity].
Defined.

(** * Further properties of the code *)

(** ** Sanitizing and validating input *)

Lemma trimStart_head (s : jstring) (c : N) (r : jstring) :
  JS.trimStart s = c :: r -> is_whitespace c = false.
Proof.
  induction s as [|a s IH]; simpl; [discriminate|].
  destruct (is_whitespace a) eqn:E; [exact IH|]. intros H. by inversion H; subst.
Qed.

Lemma trimStart_fixed (s : jstring) :
  match s with [] => True | c :: _ => is_whitespace c = false end ->
  JS.trimStart s = s.
Proof. destruct s as [|c s]; simpl; [done|]. by intros ->. Qed.

Lemma trimStart_suffix (s : jstring) : exists p, s = p ++ JS.trimStart s.
Proof.
  induction s as [|a s [p IH]]; simpl; [by exists []|].
  destruct (is_whitespace a).
  - exists (a :: p). simpl. by f_equal.
  - by exists [].
Qed.

(** The result of [trim] neither starts nor ends with white space, and it
    is a contiguous piece of the input. *)
Lemma trim_shape (s : jstring) :
  exists p q, s = p ++ JS.trim s ++ q
  /\ JS.trimStart (JS.trim s) = JS.trim s
  /\ JS.trimStart (rev (JS.trim s)) = rev (JS.trim s).
Proof.
  unfold JS.trim, JS.trimEnd.
  destruct (trimStart_suffix s) as [p Hp].
  set (t := JS.trimStart s) in *.
  destruct (trimStart_suffix (rev t)) as [q Hq].
  set (u := JS.trimStart (rev t)) in *.
  assert (Ht : t = rev u ++ rev q).
  { rewrite <- (rev_involutive t), Hq, rev_app_distr. reflexivity. }
  exists p, (rev q). split; [by rewrite <- Ht|]. split.
  - apply trimStart_fixed. destruct (rev u) as [|c r] eqn:E; [done|].
    by apply (trimStart_head s c (r ++ rev q)).
  - rewrite rev_involutive. apply trimStart_fixed.
    destruct u as [|c r] eqn:E; [done|]. by apply (trimStart_head (rev t) c r).
Qed.

Lemma trim_idempotent (s : jstring) : JS.trim (JS.trim s) = JS.trim s.
Proof.
  destruct (trim_shape s) as (_ & _ & _ & H1 & H2).
  unfold JS.trim at 1, JS.trimEnd. rewrite H1, H2. apply rev_involutive.
Qed.

Lemma filter_keeps_all {A} (f : A -> bool) (l : list A) :
  Forall (fun x => f x = true) l -> List.filter f l = l.
Proof.
  induction 1 as [|x l Hx _ IH]; simpl; [done|]. by rewrite Hx, IH.
Qed.

(** [sanitizeInput] leaves no control character, no white space at either
    end, and sanitizing twice is sanitizing once. *)
Theorem sanitizeInput_clean (input : jstring) :
  Forall (fun c => is_control c = false) (sanitizeInput input)
  /\ JS.trimStart (sanitizeInput input) = sanitizeInput input
  /\ JS.trimEnd (sanitizeInput input) = sanitizeInput input
  /\ sanitizeInput (sanitizeInput input) = sanitizeInput input.
Proof.
  unfold sanitizeInput.
  set (f := List.filter (fun c => negb (is_control c)) input).
  destruct (trim_shape f) as (p & q & Hf & H1 & H2).
  assert (Hclean : Forall (fun c => is_control c = false) (JS.trim f)).
  { apply Forall_forall. intros c Hc.
    assert (Hin : In c f).
    { rewrite Hf. apply in_or_app. right. apply in_or_app. left.
      by apply list_elem_of_In. }
    apply filter_In in Hin as [_ Hin]. by apply negb_true_iff in Hin. }
  split; [exact Hclean|]. split; [exact H1|]. split.
  - unfold JS.trimEnd. rewrite H2. apply rev_involutive.
  - rewrite filter_keeps_all; [apply trim_idempotent|].
    eapply Forall_impl; [exact Hclean|]. intros c Hc. simpl in Hc. by rewrite Hc.
Qed.

(** [validateDescription] accepts a description exactly when it has ten
    code units or more: there is no upper bound and no restriction on the
    characters; the empty description and a shorter one are refused, each
    with its own reason. *)
Theorem validateDescription_rule (d : jstring) :
  (isValid (validateDescription d) = true <-> 10 <= strlen d)
  /\ (d = [] -> error (validateDescription d) = Some msg_string_empty)
  /\ (d <> [] -> strlen d < 10 -> error (validateDescription d) = Some msg_desc_min)
  /\ (isValid (validateDescription d) = true -> error (validateDescription d) = None).
Proof.
  unfold validateDescription, descriptionSchema_validate.
  destruct d as [|c d'].
  - unfold strlen. simpl. repeat split; try done; try lia.
  - destruct (strlen (c :: d') <? 10) eqn:E; simpl.
    + apply Z.ltb_lt in E. repeat split; try done; try lia.
    + apply Z.ltb_ge in E. repeat split; try done; try lia.
Qed.

Lemma validateDescription_rule_witness :
  isValid (validateDescription (js "0123456789")) = true
  /\ error (validateDescription []) = Some msg_string_empty
  /\ error (validateDescription (js "too short")) = Some msg_desc_min.
Proof.
  split; [|split].
  - apply (proj1 (validateDescription_rule (js "0123456789"))). vm_compute. discriminate.
  - apply (proj1 (proj2 (validateDescription_rule []))). reflexivity.
  - apply (proj1 (proj2 (proj2 (validateDescription_rule (js "too short"))))).
    + discriminate.
    + vm_compute. reflexivity.
Defined.

(** ** [parseNameDepartment] *)

Lemma split_on_nonempty (sep : N) (s : jstring) : split_on sep s <> [].
Proof.
  induction s as [|c s IH]; simpl; [done|].
  destruct (c =? sep)%N; [done|]. by destruct (split_on sep s).
Qed.

Lemma split_on_one (sep : N) (s a : jstring) :
  split_on sep s = [a] <-> s = a /\ ~ In sep a.
Proof.
  revert a. induction s as [|c s IH]; intros a; simpl.
  - split.
    + intros H. inversion H. split; [done|]. by intros [].
    + intros [<- _]. done.
  - destruct (c =? sep)%N eqn:E.
    + apply N.eqb_eq in E. subst c. split.
      * intros H. inversion H. exfalso. by apply (split_on_nonempty sep s).
      * intros [<- H]. exfalso. apply H. by left.
    + apply N.eqb_neq in E.
      destruct (split_on sep s) as [|p ps] eqn:Hs; [by apply split_on_nonempty in Hs|].
      split.
      * intros H. inversion H; subst. destruct (proj1 (IH p) eq_refl) as [-> Hn].
        split; [done|]. intros [Hc|Hin]; [congruence|by apply Hn].
      * intros [<- Hn].
        assert (H : p :: ps = [s]).
        { apply IH. split; [done|]. intros Hin. apply Hn. by right. }
        by inversion H.
Qed.

Lemma split_on_two (sep : N) (s a b : jstring) :
  split_on sep s = [a; b] <-> s = a ++ sep :: b /\ ~ In sep a /\ ~ In sep b.
Proof.
  revert a. induction s as [|c s IH]; intros a; simpl.
  - split; [discriminate|]. intros [H _]. by destruct a.
  - destruct (c =? sep)%N eqn:E.
    + apply N.eqb_eq in E. subst c. split.
      * intros H. inversion H as [[Ha Hb]]. apply split_on_one in Hb as [-> Hn].
        split; [done|]. split; [by intros []|done].
      * intros (H & Ha & Hb). destruct a as [|x a].
        -- simpl in H. inversion H; subst. f_equal. by apply split_on_one.
        -- simpl in H. inversion H; subst. exfalso. apply Ha. by left.
    + apply N.eqb_neq in E.
      destruct (split_on sep s) as [|p ps] eqn:Hs; [by apply split_on_nonempty in Hs|].
      split.
      * intros H. inversion H; subst.
        destruct (proj1 (IH p) eq_refl) as (-> & Hn & Hb).
        split; [done|]. split; [|done]. intros [Hc|Hin]; [congruence|by apply Hn].
      * intros (H & Ha & Hb). destruct a as [|x a].
        -- simpl in H. inversion H; subst. done.
        -- simpl in H. inversion H; subst.
           assert (H' : p :: ps = [a; b]).
           { apply IH. split; [done|]. split; [|done]. intros Hin. apply Ha. by right. }
           by inversion H'.
Qed.

Lemma forallb_Forall_true {A} (f : A -> bool) (l : list A) :
  forallb f l = true <-> Forall (fun c => f c = true) l.
Proof.
  rewrite forallb_forall, Forall_forall. split; intros H x Hx; apply H.
  - by apply list_elem_of_In.
  - by apply list_elem_of_In.
Qed.

Lemma all_of_iff (class : N -> bool) (s : jstring) :
  all_of class s = true <-> s <> [] /\ Forall (fun c => class c = true) s.
Proof.
  destruct s as [|c s].
  - simpl. split; [discriminate|]. by intros [H _].
  - unfold all_of. rewrite forallb_Forall_true. split; [by intros H; split|by intros [_ H]].
Qed.

(** [parseNameDepartment] answers a pair exactly for an input with one
    underscore whose two sides, once trimmed, are non-empty and made of
    letters, white space, hyphens and, for the name, apostrophes, for the
    department, ampersands; the pair holds the two trimmed sides. *)
Theorem parseNameDepartment_spec (input name department : jstring) :
  parseNameDepartment input = Some (name, department)
  <-> exists a b,
        input = a ++ 95%N :: b /\ ~ In 95%N a /\ ~ In 95%N b
        /\ name = JS.trim a /\ department = JS.trim b
        /\ name <> [] /\ department <> []
        /\ Forall (fun c => name_char c = true) name
        /\ Forall (fun c => dept_char c = true) department.
Proof.
  unfold parseNameDepartment. split.
  - destruct (split_on 95 input) as [|a [|b [|x l]]] eqn:Hs; try discriminate.
    apply split_on_two in Hs as (Hin & Ha & Hb).
    destruct (JS.truthy (JS.trim a)) eqn:Ta; [|discriminate].
    destruct (JS.truthy (JS.trim b)) eqn:Tb; [|discriminate]. simpl.
    destruct (all_of name_char (JS.trim a)) eqn:Na; [|discriminate].
    destruct (all_of dept_char (JS.trim b)) eqn:Nb; [|discriminate]. simpl.
    intros H. inversion H; subst name department.
    apply all_of_iff in Na as [Na1 Na2]. apply all_of_iff in Nb as [Nb1 Nb2].
    exists a, b. by repeat split.
  - intros (a & b & Hin & Ha & Hb & -> & -> & Hn & Hd & Hnc & Hdc).
    rewrite (proj2 (split_on_two 95 input a b)) by done.
    assert (Ta : JS.truthy (JS.trim a) = true) by (by destruct (JS.trim a)).
    assert (Tb : JS.truthy (JS.trim b) = true) by (by destruct (JS.trim b)).
    rewrite Ta, Tb. simpl.
    rewrite (proj2 (all_of_iff name_char (JS.trim a))) by done.
    rewrite (proj2 (all_of_iff dept_char (JS.trim b))) by done.
    reflexivity.
Qed.

Lemma parseNameDepartment_spec_witness :
  parseNameDepartment (js " Mary-Ann O'Neil _ R&D ") = Some (js "Mary-Ann O'Neil", js "R&D")
  /\ parseNameDepartment (js "Alice") = None
  /\ parseNameDepartment (js "Alice_Falcon_Ops") = None
  /\ parseNameDepartment (js "Alice_Team 7") = None.
Proof.
  split.
  - apply (proj2 (parseNameDepartment_spec (js " Mary-Ann O'Neil _ R&D ")
                    (js "Mary-Ann O'Neil") (js "R&D"))).
    exists (js " Mary-Ann O'Neil "), (js " R&D ").
    split; [reflexivity|].
    split; [intros H; vm_compute in H;
            repeat (destruct H as [H|H]; [discriminate H|]); destruct H|].
    split; [intros H; vm_compute in H;
            repeat (destruct H as [H|H]; [discriminate H|]); destruct H|].
    split; [reflexivity|]. split; [reflexivity|].
    split; [discriminate|]. split; [discriminate|].
    split; apply forallb_Forall_true; reflexivity.
  - repeat split.
Defined.

(** ** Priority numbers of the tracker *)

(** [mapPriority] and [getPriorityName] are inverse on the four priorities:
    each priority has a number from 1 to 4 whose name is the priority
    again, different priorities have different numbers, whatever string
    [mapPriority] accepts is the name of its number, and every number
    outside 1..4 is named [No priority]. *)
Theorem priority_number_round_trip :
  (forall p : TicketPriority,
      exists n, LinearService.mapPriority (TicketPriority_value p) = Some n
                /\ 1 <= n <= 4
                /\ LinearService.getPriorityName n = TicketPriority_value p)
  /\ (forall p q : TicketPriority,
        LinearService.mapPriority (TicketPriority_value p)
        = LinearService.mapPriority (TicketPriority_value q) -> p = q)
  /\ (forall s n, LinearService.mapPriority s = Some n ->
                  LinearService.getPriorityName n = s)
  /\ (forall n, ~ 1 <= n <= 4 -> LinearService.getPriorityName n = js "No priority").
Proof.
  split; [|split; [|split]].
  - intros []; eexists; (split; [reflexivity|]); split; (lia || reflexivity).
  - intros [] []; vm_compute; congruence.
  - intros s n. unfold LinearService.mapPriority.
    repeat match goal with
           | |- context [JS.eqb s ?v] =>
             let E := fresh "E" in
             destruct (JS.eqb s v) eqn:E;
             [apply eqb_eq in E; subst s; intros H; inversion H; reflexivity|]
           end.
    discriminate.
  - intros n Hn. unfold LinearService.getPriorityName.
    destruct n as [|p|p]; try reflexivity.
    destruct p as [[[|[]|]|[[]|[]|]|]|[[|[]|]|[]|]|]; try reflexivity; lia.
Qed.

Lemma priority_number_round_trip_witness :
  LinearService.getPriorityName 3 = js "Medium"
  /\ LinearService.getPriorityName 7 = js "No priority"
  /\ HIGH = HIGH.
Proof.
  destruct priority_number_round_trip as (_ & Hinj & Hname & Hout).
  split; [|split].
  - apply (Hname (js "Medium") 3). reflexivity.
  - apply (Hout 7). lia.
  - apply (Hinj HIGH HIGH). reflexivity.
Defined.

(** ** Pages of the issue list *)

Lemma js_slice_nonneg {A} (l : list A) (a b : Z) :
  0 <= a <= b ->
  Pagination.js_slice l a b = take (Z.to_nat (b - a)) (drop (Z.to_nat a) l).
Proof.
  intros Hab. unfold Pagination.js_slice.
  assert ((a <? 0) = false) as -> by (apply Z.ltb_ge; lia).
  assert ((b <? 0) = false) as -> by (apply Z.ltb_ge; lia).
  set (len := Z.of_nat (length l)).
  destruct (Z_le_gt_dec len a) as [Hla|Hla].
  - rewrite Z.min_r by lia.
    rewrite !drop_ge by (unfold len in *; lia). by rewrite !take_nil.
  - rewrite (Z.min_l a len) by lia.
    destruct (Z_le_gt_dec b len) as [Hlb|Hlb].
    + by rewrite Z.min_l by lia.
    + rewrite Z.min_r by lia.
      rewrite !take_ge; [done| |]; rewrite length_drop; unfold len in *; lia.
Qed.

Lemma page_is_take_drop {A} (l : list A) (page : Z) :
  0 <= page ->
  Pagination.pageIssues (Pagination.issues_page l page)
  = take 5 (drop (5 * Z.to_nat page) l).
Proof.
  intros Hp. unfold Pagination.issues_page, Pagination.pageSize. simpl.
  rewrite js_slice_nonneg by lia.
  replace (Z.to_nat (page * 5 + 5 - page * 5)) with 5%nat by lia.
  replace (Z.to_nat (page * 5)) with (5 * Z.to_nat page)%nat by lia.
  reflexivity.
Qed.

Lemma pages_upto_take {A} (l : list A) (n : nat) :
  Pagination.pages_upto l n = take (5 * n) l.
Proof.
  induction n as [|n IH]; [by rewrite take_0|].
  cbn [Pagination.pages_upto].
  rewrite IH, page_is_take_drop by lia. rewrite Nat2Z.id.
  replace (5 * S n)%nat with (5 * n + 5)%nat by lia.
  by rewrite take_take_drop.
Qed.

Lemma ceil_div_5_bounds (n : Z) :
  0 <= n ->
  0 <= Pagination.ceil_div n 5
  /\ n <= 5 * Pagination.ceil_div n 5 < n + 5.
Proof.
  intros Hn. unfold Pagination.ceil_div.
  pose proof (Z.div_mod (- n) 5 ltac:(lia)).
  pose proof (Z.mod_pos_bound (- n) 5 ltac:(lia)). lia.
Qed.

(** The pages cut the issue list into consecutive pieces of at most five:
    every page from 0 on holds at most five issues, and the pages 0 up to
    the announced number of pages, put one after the other, are the whole
    list: no issue is shown twice and none is left out. *)
Theorem pages_partition_issues {A} (allIssues : list A) :
  (forall page, 0 <= page ->
     (length (Pagination.pageIssues (Pagination.issues_page allIssues page)) <= 5)%nat)
  /\ Pagination.pages_upto allIssues
       (Z.to_nat (Pagination.totalPages (Pagination.issues_page allIssues 0)))
     = allIssues.
Proof.
  split.
  - intros page Hp. rewrite page_is_take_drop by done. rewrite length_take. lia.
  - rewrite pages_upto_take. apply take_ge.
    unfold Pagination.issues_page, Pagination.pageSize. simpl.
    pose proof (ceil_div_5_bounds (Z.of_nat (length allIssues)) ltac:(lia)). lia.
Qed.

Lemma pages_partition_issues_witness :
  (length (Pagination.pageIssues (Pagination.issues_page [1;2;3;4;5;6;7] 1)) <= 5)%nat
  /\ Pagination.pageIssues (Pagination.issues_page [1;2;3;4;5;6;7] 1) = [6;7].
Proof.
  split; [|reflexivity].
  apply (proj1 (pages_partition_issues [1;2;3;4;5;6;7]) 1). lia.
Defined.

(** What a page announces is what it shows.  For a page number from 0 on:
    a Next button is offered exactly when the following page has an issue;
    a page that shows issues shows as many as its announced range
    [showing_from]..[showing_to] counts and lies within the announced
    number of pages; and a page at or beyond that number shows nothing. *)
Theorem page_info_matches_page {A} (allIssues : list A) (page : Z) :
  0 <= page ->
  let p := Pagination.issues_page allIssues page in
  (Pagination.hasMore p = true
   <-> Pagination.pageIssues (Pagination.issues_page allIssues (page + 1)) <> [])
  /\ (Pagination.pageIssues p <> [] ->
      Z.of_nat (length (Pagination.pageIssues p))
      = Pagination.showing_to p - Pagination.showing_from p + 1
      /\ page + 1 <= Pagination.totalPages p)
  /\ (Pagination.totalPages p <= page -> Pagination.pageIssues p = []).
Proof.
  intros Hp p.
  assert (Hlen : forall q, 0 <= q ->
            length (Pagination.pageIssues (Pagination.issues_page allIssues q))
            = Nat.min 5 (length allIssues - 5 * Z.to_nat q)).
  { intros q Hq. by rewrite page_is_take_drop, length_take, length_drop. }
  assert (Hne : forall l : list A, l <> [] <-> (0 < length l)%nat).
  { intros [|x l]; simpl; split; (done || lia). }
  pose proof (ceil_div_5_bounds (Z.of_nat (length allIssues)) ltac:(lia)) as Hc.
  assert (Hmore : Pagination.hasMore (Pagination.issues_page allIssues page)
                  = ((page + 1) * 5 <? Z.of_nat (length allIssues))) by reflexivity.
  assert (Hto : Pagination.showing_to (Pagination.issues_page allIssues page)
                = Z.min (page * 5 + 5) (Z.of_nat (length allIssues))) by reflexivity.
  assert (Hfrom : Pagination.showing_from (Pagination.issues_page allIssues page)
                  = page * 5 + 1) by reflexivity.
  assert (Htot : Pagination.totalPages (Pagination.issues_page allIssues page)
                 = Pagination.ceil_div (Z.of_nat (length allIssues)) 5) by reflexivity.
  unfold p. rewrite Hmore, Hto, Hfrom, Htot. split; [|split].
  - rewrite Hne, Hlen by lia. rewrite Z.ltb_lt. lia.
  - rewrite Hne, Hlen by lia. lia.
  - intros Ht. apply length_zero_iff_nil. rewrite Hlen by lia. lia.
Qed.

Lemma page_info_matches_page_witness :
  let p := Pagination.issues_page [1;2;3;4;5;6;7] 1 in
  (Pagination.hasMore p = true
   <-> Pagination.pageIssues (Pagination.issues_page [1;2;3;4;5;6;7] (1 + 1)) <> [])
  /\ (Pagination.pageIssues p <> [] ->
      Z.of_nat (length (Pagination.pageIssues p))
      = Pagination.showing_to p - Pagination.showing_from p + 1
      /\ 1 + 1 <= Pagination.totalPages p)
  /\ (Pagination.totalPages p <= 1 -> Pagination.pageIssues p = []).
Proof. apply (page_info_matches_page [1;2;3;4;5;6;7] 1). lia. Defined.

(** ** The tables [users] and [ticket_requests] *)

Lemma map_map_same {A B} (f : A -> B) (g : A -> A) (l : list A) :
  (forall r, f (g r) = f r) -> List.map f (List.map g l) = List.map f l.
Proof. intros H. rewrite List.map_map. apply List.map_ext. exact H. Qed.

Lemma existsb_false_not_in (key : jstring) {A} (f : A -> jstring) (l : list A) :
  existsb (fun r => JS.eqb (f r) key) l = false -> key ∉ List.map f l.
Proof.
  intros H Hin. apply list_elem_of_In, in_map_iff in Hin as (r & <- & Hr).
  assert (existsb (fun r0 => JS.eqb (f r0) (f r)) l = true); [|congruence].
  apply existsb_exists. exists r. split; [done|apply eqb_refl].
Qed.

Lemma NoDup_map_snoc {A} (f : A -> jstring) (l : list A) (x : A) :
  NoDup (List.map f l) -> f x ∉ List.map f l -> NoDup (List.map f (l ++ [x])).
Proof.
  intros Hnd Hx. rewrite map_app. simpl. apply NoDup_app. split; [done|]. split.
  - intros y Hy Hy'. apply list_elem_of_In in Hy'. destruct Hy' as [<-|[]]. done.
  - apply NoDup_singleton.
Qed.

Lemma users_ok_after (c : DbCall) (d : DB) : users_ok d -> users_ok (after c d).
Proof.
  intros Hok. pose proof Hok as [H1 H2].
  assert (Hmap : forall g : User -> User,
            (forall r, id (g r) = id r /\ telegram_user_id (g r) = telegram_user_id r) ->
            users_ok (Database.set_users d (List.map g (users d)))).
  { intros g Hg. split; simpl.
    - rewrite map_map_same; [done|]. intros r. apply Hg.
    - rewrite map_map_same; [done|]. intros r. apply Hg. }
  destruct c;
    unfold after, run_call, Database.createUser, Database.updateUserLastActive,
      Database.updateUserAuthentication, Database.incrementUserTicketCount,
      Database.resetDailyTicketCounts, Database.createTicket,
      Database.updateTicketStatus, Database.saveSession, Database.deleteSession,
      Database.cleanupExpiredSessions, Database.addAuditLog,
      Database.getUserById, Database.getTicketById,
      bind, ret, throw, read_db, write_db; simpl.
  - destruct (existsb (fun r => JS.eqb (id r) newId) (users d)) eqn:E1; [done|].
    unfold Database.user_exists.
    destruct (existsb (fun r => JS.eqb (telegram_user_id r) (u_telegram_user_id user))
                (users d)) eqn:E2; simpl; [done|].
    assert (users_ok (Database.set_users d (users d ++
              [{| id := newId; telegram_user_id := u_telegram_user_id user;
                  telegram_username := Database.or_null (u_telegram_username user);
                  full_name := u_full_name user; department := u_department user;
                  email := Database.or_null (u_email user);
                  is_active := u_is_active user;
                  is_authenticated := u_is_authenticated user;
                  created_at := Database.current_timestamp now;
                  last_active := Database.current_timestamp now;
                  tickets_created_today := 0; total_tickets_created := 0 |}]))).
    { split; simpl.
      - apply NoDup_map_snoc; [done|]. exact (existsb_false_not_in _ _ _ E1).
      - apply NoDup_map_snoc; [done|]. exact (existsb_false_not_in _ _ _ E2). }
    destruct (List.find _ _); simpl; done.
  - apply Hmap. intros r. unfold Database.touch. by destruct (JS.eqb _ _).
  - apply Hmap. intros r. unfold Database.authenticate. by destruct (JS.eqb _ _).
  - apply Hmap. intros r. unfold Database.bump. by destruct (JS.eqb _ _).
  - apply Hmap. by intros r.
  - destruct (Database.insert_ticket d newId now ticket _); simpl; [done|].
    destruct (option_map _ _); simpl; done.
  - done.
  - destruct (Database.user_exists d (userId session)); simpl; done.
  - done.
  - destruct (_ <? 0); simpl; done.
  - destruct (Database.user_exists d u); simpl; done.
Qed.

Lemma tickets_ok_same (d d' : DB) :
  ticket_requests d' = ticket_requests d ->
  (forall u, Database.user_exists d u = true -> Database.user_exists d' u = true) ->
  tickets_ok d -> tickets_ok d'.
Proof.
  intros Ht Hu [H1 H2 H3 H4]. split; rewrite Ht; try done.
  eapply Forall_impl; [exact H4|]. intros r Hr. by apply Hu.
Qed.

Lemma insert_ticket_inr (d : DB) (newId : jstring) (now : Z) (ticket : NewTicket)
    (dbLabel : option jstring) (row : TicketRequest) :
  Database.insert_ticket d newId now ticket dbLabel = inr row ->
  existsb (fun r => JS.eqb (t_id r) newId) (ticket_requests d) = false
  /\ t_id row = newId
  /\ n_title ticket = Some (t_title row)
  /\ n_description ticket = Some (t_description row)
  /\ dbLabel = Some (t_label row)
  /\ n_priority ticket = Some (t_priority row)
  /\ Database.check_label (t_label row) = true
  /\ Database.check_priority (t_priority row) = true
  /\ Database.user_exists d (n_telegram_user_id ticket) = true
  /\ t_telegram_user_id row = n_telegram_user_id ticket
  /\ t_status row = n_status ticket
  /\ t_created_at row = Database.current_timestamp now.
Proof.
  unfold Database.insert_ticket.
  destruct (existsb _ _); [discriminate|].
  destruct (n_title ticket), (n_description ticket), dbLabel, (n_priority ticket);
    try discriminate.
  destruct (Database.check_label _) eqn:E1; [|discriminate].
  destruct (Database.check_priority _) eqn:E2; [|discriminate].
  destruct (Database.user_exists _ _) eqn:E3; [|discriminate].
  simpl. intros H. inversion H; subst; simpl. by repeat split.
Qed.

Lemma tickets_ok_after (c : DbCall) (d : DB) : tickets_ok d -> tickets_ok (after c d).
Proof.
  intros Hok.
  assert (Hmap : forall g : User -> User,
            (forall r, telegram_user_id (g r) = telegram_user_id r) ->
            tickets_ok (Database.set_users d (List.map g (users d)))).
  { intros g Hg. eapply tickets_ok_same; [| |exact Hok]; [done|].
    intros v Hv. unfold Database.user_exists in *. simpl.
    rewrite existsb_map_same; [done|]. intros r. by rewrite Hg. }
  destruct c as [newId now user|now u|u b|u| |newId now ticket
                |now tid status linearTicketId linearTicketUrl|session|u|now tmo
                |now u action details];
    unfold after, run_call, Database.createUser, Database.updateUserLastActive,
      Database.updateUserAuthentication, Database.incrementUserTicketCount,
      Database.resetDailyTicketCounts, Database.createTicket,
      Database.updateTicketStatus, Database.saveSession, Database.deleteSession,
      Database.cleanupExpiredSessions, Database.addAuditLog,
      Database.getUserById, Database.getTicketById,
      bind, ret, throw, read_db, write_db; simpl.
  - destruct (existsb _ (users d)); [done|].
    destruct (Database.user_exists d _); simpl; [done|].
    destruct (List.find _ _); simpl;
      (eapply tickets_ok_same; [| |exact Hok]; [done|]);
      intros v Hv; unfold Database.user_exists in *; simpl;
      rewrite existsb_app, Hv; done.
  - apply Hmap. intros r. unfold Database.touch. by destruct (JS.eqb _ _).
  - apply Hmap. intros r. unfold Database.authenticate. by destruct (JS.eqb _ _).
  - apply Hmap. intros r. unfold Database.bump. by destruct (JS.eqb _ _).
  - apply Hmap. by intros r.
  - destruct (Database.insert_ticket d newId now ticket _) as [e|row] eqn:Hins;
      simpl; [done|].
    apply insert_ticket_inr in Hins
      as (Hfresh & Hid & _ & _ & _ & _ & Hl & Hp & Hu & Hrow & _).
    pose proof Hok as [H1 H2 H3 H4].
    assert (tickets_ok (Database.set_tickets d (ticket_requests d ++ [row]))).
    { split; simpl.
      - apply NoDup_map_snoc; [done|]. rewrite Hid.
        exact (existsb_false_not_in _ _ _ Hfresh).
      - apply Forall_app. split; [done|]. by apply Forall_singleton.
      - apply Forall_app. split; [done|]. by apply Forall_singleton.
      - apply Forall_app. split; [done|]. apply Forall_singleton. by rewrite Hrow. }
    destruct (option_map _ _); simpl; done.
  - pose proof Hok as [H1 H2 H3 H4].
    assert (Hkeep : forall r,
      let r' := Database.set_status tid status
                  match Database.or_null linearTicketId, Database.or_null linearTicketUrl with
                  | Some i, Some u => Some (i, u, Database.current_timestamp now)
                  | _, _ => None
                  end r in
      t_id r' = t_id r /\ t_label r' = t_label r /\ t_priority r' = t_priority r
      /\ t_telegram_user_id r' = t_telegram_user_id r).
    { intros r. unfold Database.set_status. by destruct (JS.eqb (t_id r) tid). }
    split; simpl.
    + rewrite map_map_same; [done|]. intros r. apply Hkeep.
    + apply Forall_map. eapply Forall_impl; [exact H2|]. intros r Hr. simpl.
      by rewrite (proj1 (proj2 (Hkeep r))).
    + apply Forall_map. eapply Forall_impl; [exact H3|]. intros r Hr. simpl.
      by rewrite (proj1 (proj2 (proj2 (Hkeep r)))).
    + apply Forall_map. eapply Forall_impl; [exact H4|]. intros r Hr. simpl.
      rewrite (proj2 (proj2 (proj2 (Hkeep r)))). exact Hr.
  - destruct (Database.user_exists d (userId session)); simpl; [|done].
    eapply tickets_ok_same; [| |exact Hok]; done.
  - eapply tickets_ok_same; [| |exact Hok]; done.
  - destruct (_ <? 0); simpl; [done|].
    eapply tickets_ok_same; [| |exact Hok]; done.
  - destruct (Database.user_exists d u); simpl; [|done].
    eapply tickets_ok_same; [| |exact Hok]; done.
Qed.

Lemma reachable_replay (cs : list DbCall) (d : DB) :
  reachable d -> reachable (History.replay cs d).
Proof.
  revert d. induction cs as [|c cs IH]; intros d Hd; [exact Hd|].
  apply (IH (after c d)). by apply reach_call.
Qed.

(** In every store reachable through the methods of [Database], user rows
    have distinct ids and distinct Telegram ids, and ticket records have
    distinct ids, a label and a priority from the lists of the CHECK
    constraints, and a requester who is a registered user. *)
Theorem reachable_schema_ok (d : DB) :
  reachable d -> users_ok d /\ tickets_ok d.
Proof.
  induction 1 as [|d c _ [IHu IHt]].
  - split; split; simpl; (apply NoDup_nil_2 || done).
  - split; [by apply users_ok_after|by apply tickets_ok_after].
Qed.

(** After the calls of [History.calls] the store holds two users and
    three ticket records: the refused calls left no row. *)
Lemma reachable_schema_ok_witness :
  List.map (fun r => (id r, telegram_user_id r))
    (users (History.replay History.calls empty_db))
  = [(js "k1", js "1001"); (js "k2", js "1002")]
  /\ List.map (fun r => (t_id r, t_telegram_user_id r, t_label r, t_priority r, t_status r))
       (ticket_requests (History.replay History.calls empty_db))
     = [(js "t1", js "1001", js "Bug", js "High", CREATED);
        (js "t2", js "1002", js "Other", js "Low", SUBMITTED);
        (js "t5", js "1001", js "Feature", js "Medium", SUBMITTED)]
  /\ users_ok (History.replay History.calls empty_db)
  /\ tickets_ok (History.replay History.calls empty_db).
Proof.
  split; [vm_compute; reflexivity|]. split; [vm_compute; reflexivity|].
  apply reachable_schema_ok. apply reachable_replay. apply reach_empty.
Defined.

Lemma existsb_false_find_none {A} (p : A -> bool) (l : list A) :
  existsb p l = false -> List.find p l = None.
Proof.
  induction l as [|a l IH]; simpl; [done|]. destruct (p a); [discriminate|]. exact IH.
Qed.

(** [createTicket] inserts all or nothing.  When it throws, the store and
    the outbox are exactly as before.  When it returns, the id was unused,
    the requester is registered, exactly one row was appended, with the
    given title, description, priority and status, the creation time of the
    call, and a label the CHECK constraint accepts, and the returned ticket
    is that row as [mapRowToTicket] reads it. *)
Theorem createTicket_all_or_nothing
    (newId : jstring) (now : Z) (ticket : NewTicket) (w : World) :
  (forall w1 e, Database.createTicket newId now ticket w = (w1, Thrown e) -> w1 = w)
  /\ (forall w1 t,
        Database.createTicket newId now ticket w = (w1, Returned t) ->
        exists row,
          w1 = {| db := Database.set_tickets (db w) (ticket_requests (db w) ++ [row]);
                  sent := sent w |}
          /\ t = Database.mapRowToTicket row
          /\ ticket_of (db w) newId = None
          /\ Database.user_exists (db w) (n_telegram_user_id ticket) = true
          /\ t_id row = newId
          /\ n_title ticket = Some (t_title row)
          /\ n_description ticket = Some (t_description row)
          /\ n_priority ticket = Some (t_priority row)
          /\ t_status row = n_status ticket
          /\ t_created_at row = Database.current_timestamp now
          /\ Database.check_label (t_label row) = true).
Proof.
  destruct (Database.createTicket newId now ticket w) as [w' o] eqn:Hrun.
  unfold Database.createTicket, bind at 1, read_db at 1 in Hrun.
  destruct (Database.insert_ticket (db w) newId now ticket _) as [e0|row] eqn:Hins.
  - unfold throw in Hrun. inversion Hrun; subst w' o.
    split; intros w1 x H; [by inversion H|discriminate H].
  - apply insert_ticket_inr in Hins
      as (Hfresh & Hid & Ht & Hd & _ & Hp & Hl & _ & Hu & _ & Hst & Hc).
    pose proof (existsb_false_find_none _ _ Hfresh) as Hnone.
    unfold bind, write_db, Database.getTicketById, bind, read_db, ret in Hrun.
    cbn [db sent Database.set_tickets ticket_requests] in Hrun.
    rewrite (find_app_fresh _ _ row Hnone) in Hrun by (rewrite Hid; apply eqb_refl).
    cbn [option_map] in Hrun. inversion Hrun; subst w' o.
    split; intros w1 x H; [discriminate H|].
    inversion H; subst w1 x. exists row. by repeat split.
Qed.

Lemma createTicket_all_or_nothing_witness :
  let w := Samples.store Samples.alice [] (Samples.session_in IDLE ∅ 1000) in
  let incomplete := CallbackHandler.draft_ticket (js "1001") Samples.alice
                      (Samples.session_in AWAITING_CONFIRMATION
                         {[ "label" := JStr (js "Bug") ]} 1000) in
  fst (Database.createTicket (js "t1") 2000 incomplete w) = w.
Proof.
  intros w incomplete.
  apply (proj1 (createTicket_all_or_nothing (js "t1") 2000 incomplete w) _
           (SqliteConstraint "NOT NULL constraint failed")).
  reflexivity.
Defined.

Lemma find_map_keyed {A} (key : A -> jstring) (g : A -> A) (i : jstring) (l : list A) :
  (forall r, key (g r) = key r) ->
  List.find (fun r => JS.eqb (key r) i) (List.map g l)
  = option_map g (List.find (fun r => JS.eqb (key r) i) l).
Proof.
  intros Hg. induction l as [|a l IH]; simpl; [done|].
  rewrite Hg. destruct (JS.eqb (key a) i); [done|exact IH].
Qed.



(** [createUser] registers all or nothing.  When it throws (the id or the
    Telegram id is taken) the store is exactly as before.  When it returns,
    neither was taken, exactly one row was appended, it is the returned
    user, with both counters at zero, the flags as given and an empty
    username stored as [null], and [getUserById] finds it. *)
Theorem createUser_all_or_nothing
    (newId : jstring) (now : Z) (user : NewUser) (w : World) :
  (forall w1 e, Database.createUser newId now user w = (w1, Thrown e) -> w1 = w)
  /\ (forall w1 u,
        Database.createUser newId now user w = (w1, Returned u) ->
        w1 = {| db := Database.set_users (db w) (users (db w) ++ [u]); sent := sent w |}
        /\ user_of (db w) (u_telegram_user_id user) = None
        /\ (newId ∉ List.map id (users (db w)))
        /\ id u = newId
        /\ telegram_user_id u = u_telegram_user_id user
        /\ telegram_username u = Database.or_null (u_telegram_username user)
        /\ is_authenticated u = u_is_authenticated user
        /\ tickets_created_today u = 0 /\ total_tickets_created u = 0
        /\ Database.getUserById (u_telegram_user_id user) w1 = (w1, Returned (Some u))).
Proof.
  destruct (Database.createUser newId now user w) as [w' o] eqn:Hrun.
  unfold Database.createUser, bind at 1, read_db at 1 in Hrun.
  destruct (existsb (fun r => JS.eqb (id r) newId) (users (db w))) eqn:E1.
  { unfold throw in Hrun. inversion Hrun; subst.
    split; intros w1 x H; [by inversion H|discriminate H]. }
  unfold Database.user_exists in Hrun.
  destruct (existsb (fun r => JS.eqb (telegram_user_id r) (u_telegram_user_id user))
              (users (db w))) eqn:E2.
  { unfold throw in Hrun. inversion Hrun; subst.
    split; intros w1 x H; [by inversion H|discriminate H]. }
  pose proof (existsb_false_find_none _ _ E2) as Hnone.
  unfold bind, write_db, Database.getUserById, bind, read_db, ret in Hrun.
  cbn [db sent Database.set_users users] in Hrun.
  rewrite (find_app_fresh _ _ _ Hnone) in Hrun by apply eqb_refl.
  inversion Hrun; subst w' o. split; intros w1 x H; [discriminate H|].
  inversion H; subst w1 x. cbn [id telegram_user_id telegram_username is_authenticated
    tickets_created_today total_tickets_created].
  split; [reflexivity|]. split; [exact Hnone|].
  split; [exact (existsb_false_not_in _ _ _ E1)|].
  repeat (split; [reflexivity|]).
  unfold Database.getUserById, bind, read_db, ret.
  cbn [db Database.set_users users].
  by rewrite (find_app_fresh _ _ _ Hnone) by apply eqb_refl.
Qed.

Lemma createUser_all_or_nothing_witness :
  let w := Samples.store Samples.alice [] (Samples.session_in IDLE ∅ 1000) in
  let again := {| u_telegram_user_id := js "1001"; u_telegram_username := None;
                  u_full_name := js "Alice A"; u_department := js "Falcon";
                  u_email := None; u_is_active := true; u_is_authenticated := true |} in
  fst (Database.createUser (js "k2") 2000 again w) = w.
Proof.
  intros w again.
  apply (proj1 (createUser_all_or_nothing (js "k2") 2000 again w) _
           (SqliteConstraint "UNIQUE constraint failed: users.telegram_user_id")).
  reflexivity.
Defined.

Lemma map_no_match {A} (key : A -> jstring) (g : A -> A) (i : jstring) (l : list A) :
  (forall r, JS.eqb (key r) i = false -> g r = r) ->
  List.find (fun r => JS.eqb (key r) i) l = None ->
  List.map g l = l.
Proof.
  intros Hg. induction l as [|a l IH]; simpl; [done|].
  destruct (JS.eqb (key a) i) eqn:E; [discriminate|].
  intros H. by rewrite (Hg a E), IH.
Qed.





(** ** The [sessions] table *)

(** Saving and reading back.  For a registered user [saveSession] stores
    the session and [Database.getSession] then returns it: state and
    timestamps as saved, and the draft with exactly the keys whose value is
    not [undefined]; the rows of other users are not touched.  For an
    unregistered user [saveSession] throws and writes nothing. *)
Theorem saveSession_getSession_round_trip (s : Session) (w : World) :
  (Database.user_exists (db w) (userId s) = true ->
   exists w1 s1,
     Database.saveSession s w = (w1, Returned tt)
     /\ Database.getSession (userId s) w1 = (w1, Returned (Some s1))
     /\ userId s1 = userId s /\ state s1 = state s
     /\ lastActivity s1 = lastActivity s /\ createdAt s1 = createdAt s
     /\ (forall k v, ticketData s1 !! k = Some v
                     <-> ticketData s !! k = Some v /\ v <> JUndefined)
     /\ (forall v, v <> userId s -> session_of (db w1) v = session_of (db w) v)
     /\ users (db w1) = users (db w)
     /\ ticket_requests (db w1) = ticket_requests (db w)
     /\ audit_log (db w1) = audit_log (db w))
  /\ (Database.user_exists (db w) (userId s) = false ->
      exists e, Database.saveSession s w = (w, Thrown e)).
Proof.
  split.
  - intros Hu. exists {| db := put_session (db w) s; sent := sent w |}, (stored s).
    split; [by apply saveSession_run|]. split.
    + unfold Database.getSession, bind, read_db, ret. cbn [db].
      fold (session_of (put_session (db w) s) (userId s)).
      by rewrite session_of_put_same.
    + repeat (split; [reflexivity|]). split.
      * intros k v. apply json_roundtrip_lookup.
      * split; [|by repeat split]. intros v Hv. by apply session_of_put_other.
  - intros Hu. eexists. unfold Database.saveSession, bind, read_db. simpl.
    rewrite Hu. reflexivity.
Qed.

Lemma saveSession_getSession_round_trip_witness :
  let s := Samples.session_in AWAITING_TITLE
             (<[ "title" := JUndefined ]> {[ "label" := JStr (js "Bug") ]}) 1000 in
  let w := Samples.store Samples.alice [] (Samples.session_in IDLE ∅ 500) in
  exists w1 s1,
    Database.saveSession s w = (w1, Returned tt)
    /\ Database.getSession (js "1001") w1 = (w1, Returned (Some s1))
    /\ state s1 = AWAITING_TITLE
    /\ ticketData s1 !! "label" = Some (JStr (js "Bug"))
    /\ ticketData s1 !! "title" = None.
Proof.
  intros s w.
  destruct (proj1 (saveSession_getSession_round_trip s w) eq_refl)
    as (w1 & s1 & H1 & H2 & _ & H3 & _ & _ & Hk & _).
  exists w1, s1. split; [exact H1|]. split; [exact H2|]. split; [exact H3|]. split.
  - apply Hk. split; [reflexivity|discriminate].
  - destruct (ticketData s1 !! "title") as [v|] eqn:E; [|done].
    apply Hk in E as [E Hv]. vm_compute in E. inversion E. by subst v.
Defined.

Lemma sql_seconds_shift (now k : Z) : (now - k * 1000) / 1000 = now / 1000 - k.
Proof.
  replace (now - k * 1000) with (now + (- k) * 1000) by lia.
  rewrite Z.div_add by lia. lia.
Qed.

(** The periodic sweep never throws and writes nothing but [sessions].
    With a timeout of zero or more it deletes exactly the rows whose last
    activity, in whole seconds, is more than the timeout before the
    current second, and keeps the others as they are; with a negative
    timeout it deletes nothing.  Whatever the timeout, it never deletes a
    session that [getSession] would still return at that moment. *)
Theorem cleanup_spares_live_sessions (timeoutMinutes now : Z) (w : World) :
  exists w1,
    SessionManager.cleanupTick timeoutMinutes now w = (w1, Returned tt)
    /\ users (db w1) = users (db w)
    /\ ticket_requests (db w1) = ticket_requests (db w)
    /\ audit_log (db w1) = audit_log (db w)
    /\ sent w1 = sent w
    /\ (0 <= timeoutMinutes ->
        forall s, In s (sessions (db w1))
                  <-> In s (sessions (db w))
                      /\ ~ lastActivity s / 1000 < now / 1000 - timeoutMinutes * 60)
    /\ (timeoutMinutes < 0 -> sessions (db w1) = sessions (db w))
    /\ (forall s, In s (sessions (db w)) ->
                  SessionManager.expired timeoutMinutes now s = false ->
                  In s (sessions (db w1))).
Proof.
  unfold SessionManager.cleanupTick, try_catch, Database.cleanupExpiredSessions,
    bind, read_db, write_db, ret.
  destruct (timeoutMinutes <? 0) eqn:Hneg.
  - apply Z.ltb_lt in Hneg. exists w. repeat (split; [reflexivity|]).
    split; [intros H; lia|]. split; [done|]. by intros s Hs _.
  - apply Z.ltb_ge in Hneg. eexists. split; [reflexivity|].
    cbn [db sent sessions users ticket_requests audit_log Database.set_sessions].
    repeat (split; [reflexivity|]).
    assert (Hin : forall s,
      In s (List.filter
              (fun r => negb (Database.datetime_of_ms (lastActivity r)
                              <? Database.current_timestamp now - timeoutMinutes * 60))
              (sessions (db w)))
      <-> In s (sessions (db w))
          /\ ~ lastActivity s / 1000 < now / 1000 - timeoutMinutes * 60).
    { intros s. rewrite filter_In, negb_true_iff, Z.ltb_ge.
      unfold Database.datetime_of_ms, Database.current_timestamp.
      split; intros [? ?]; split; (done || lia). }
    split; [intros _; exact Hin|]. split; [intros H; lia|].
    intros s Hs He. apply Hin. split; [exact Hs|].
    unfold SessionManager.expired in He. apply Z.ltb_ge in He.
    assert (H : (now - timeoutMinutes * 60 * 1000) / 1000 <= lastActivity s / 1000)
      by (apply Z.div_le_mono; lia).
    rewrite sql_seconds_shift in H. lia.
Qed.

(** Two sessions at a timeout of 30 minutes: the one idle for 30 minutes
    and a second is swept, the one idle for exactly 30 minutes stays; at a
    timeout of -5 both stay. *)
Lemma cleanup_spares_live_sessions_witness :
  let stale := Samples.session_in AWAITING_TITLE ∅ 0 in
  let live_one :=
    {| userId := js "1002"; state := AWAITING_DESCRIPTION; ticketData := Samples.draft;
       lastActivity := 1000; createdAt := 900 |} in
  let w := {| db := {| users := [Samples.alice]; ticket_requests := [];
                       sessions := [stale; live_one]; audit_log := [] |};
              sent := [] |} in
  In live_one (sessions (db (fst (SessionManager.cleanupTick 30 1801000 w))))
  /\ ~ In stale (sessions (db (fst (SessionManager.cleanupTick 30 1801000 w))))
  /\ sessions (db (fst (SessionManager.cleanupTick (-5) 1801000 w))) = [stale; live_one].
Proof.
  intros stale live_one w. split; [|split].
  - destruct (cleanup_spares_live_sessions 30 1801000 w)
      as (w1 & Hrun & _ & _ & _ & _ & _ & _ & Hlive).
    rewrite Hrun. cbn [fst]. apply Hlive; [right; by left|reflexivity].
  - destruct (cleanup_spares_live_sessions 30 1801000 w)
      as (w1 & Hrun & _ & _ & _ & _ & Hexact & _).
    rewrite Hrun. cbn [fst]. intros H.
    apply (Hexact ltac:(lia)) in H as [_ H]. apply H. vm_compute. reflexivity.
  - destruct (cleanup_spares_live_sessions (-5) 1801000 w)
      as (w1 & Hrun & _ & _ & _ & _ & _ & Hneg & _).
    rewrite Hrun. cbn [fst]. exact (Hneg ltac:(lia)).
Defined.

(** ** The duplicate window in calendar days *)

Lemma window_is_day_number (now created : Z) :
  Database.date_now_minus_days now 30 <= created
  <-> now / 86400000 - 30 <= created / 86400.
Proof.
  unfold Database.date_now_minus_days.
  pose proof (Z.div_mod created 86400 ltac:(lia)).
  pose proof (Z.mod_pos_bound created 86400 ltac:(lia)). lia.
Qed.

(** [findDuplicateTicket] only reads: it never throws and leaves the world
    as it is.  With the default limit it answers [true] exactly when some
    record, of any requester and any status, has the very same title and
    was created on a UTC day that is at most 30 days before today's: the
    window is counted in calendar days, not in hours. *)
Theorem findDuplicateTicket_calendar_window (now : Z) (title : jstring) (w : World) :
  exists b,
    Database.findDuplicateTicket now title 30 w = (w, Returned b)
    /\ (b = true
        <-> exists r, In r (ticket_requests (db w)) /\ t_title r = title
                      /\ now / 86400000 - 30 <= t_created_at r / 86400).
Proof.
  exists (0 <? Z.of_nat (length (Database.duplicate_rows (db w) now title 30))).
  split; [by destruct w|].
  rewrite Z.ltb_lt. unfold Database.duplicate_rows. split.
  - intros H.
    destruct (List.filter _ (ticket_requests (db w))) as [|r l] eqn:E; [simpl in H; lia|].
    assert (Hin : In r (r :: l)) by (by left). rewrite <- E in Hin.
    apply filter_In in Hin as [Hin Hc]. apply andb_true_iff in Hc as [H1 H2].
    exists r. split; [exact Hin|]. split; [by apply eqb_eq|].
    apply window_is_day_number. by apply Z.leb_le.
  - intros (r & Hin & Ht & Hd).
    assert (Hf : In r (List.filter
              (fun r0 => JS.eqb (t_title r0) title
                         && (Database.date_now_minus_days now 30 <=? t_created_at r0))
              (ticket_requests (db w)))).
    { apply filter_In. split; [exact Hin|]. apply andb_true_iff. split.
      - by apply eqb_eq.
      - apply Z.leb_le. by apply window_is_day_number. }
    destruct (List.filter _ (ticket_requests (db w))); [destruct Hf|simpl; lia].
Qed.

(** A record created 30 days and 23 hours ago still counts as a duplicate
    late in the day, and one created 30 days and one hour ago no longer
    counts early in the day. *)
Lemma findDuplicateTicket_calendar_window_witness :
  let late := 1769903400000 in     (* 2026-01-31 23:50:00 UTC *)
  let early := 1769819400000 in    (* 2026-01-31 00:30:00 UTC *)
  (exists b,
      Database.findDuplicateTicket late Samples.title1 30
        (Samples.store Samples.alice
           [Samples.old_ticket (Database.current_timestamp (late - 30 * 86400000 - 23 * 3600000))
              FAILED]
           (Samples.session_in IDLE ∅ 1000))
      = (Samples.store Samples.alice
           [Samples.old_ticket (Database.current_timestamp (late - 30 * 86400000 - 23 * 3600000))
              FAILED]
           (Samples.session_in IDLE ∅ 1000), Returned b)
      /\ b = true)
  /\ snd (Database.findDuplicateTicket early Samples.title1 30
            (Samples.store Samples.alice
               [Samples.old_ticket
                  (Database.current_timestamp (early - 30 * 86400000 - 3600000)) CREATED]
               (Samples.session_in IDLE ∅ 1000)))
     = Returned false.
Proof.
  intros late early. split; [|reflexivity].
  destruct (findDuplicateTicket_calendar_window late Samples.title1
              (Samples.store Samples.alice
                 [Samples.old_ticket
                    (Database.current_timestamp (late - 30 * 86400000 - 23 * 3600000)) FAILED]
                 (Samples.session_in IDLE ∅ 1000))) as (b & Hrun & Hb).
  exists b. split; [exact Hrun|]. apply Hb.
  eexists. split; [by left|]. split; [reflexivity|]. vm_compute. discriminate.
Defined.

(** ** Session manager: reads, updates and deletions at the edges *)

(** Reading a live session writes nothing: [getSession] returns the stored
    session and leaves the world, [lastActivity] included, exactly as it
    was, so a second read returns the same session; and for a user without
    a session row it returns [null], again without writing. *)
Theorem getSession_reads_only (timeoutMinutes now : Z) (u : jstring) (w : World) :
  (forall s, session_of (db w) u = Some s ->
             now - lastActivity s <= timeoutMinutes * 60000 ->
             SessionManager.getSession timeoutMinutes now u w = (w, Returned (Some s))
             /\ SessionManager.isSessionActive timeoutMinutes now u w = (w, Returned true))
  /\ (session_of (db w) u = None ->
      SessionManager.getSession timeoutMinutes now u w = (w, Returned None)
      /\ SessionManager.isSessionActive timeoutMinutes now u w = (w, Returned false)).
Proof.
  split.
  - intros s Hs Hl.
    assert (He : SessionManager.expired timeoutMinutes now s = false).
    { unfold SessionManager.expired. apply Z.ltb_ge. lia. }
    pose proof (getSession_live timeoutMinutes now w u s Hs He) as Hg.
    split; [exact Hg|]. unfold SessionManager.isSessionActive.
    by rewrite (bind_returned _ _ w w (Some s) Hg).
  - intros Hs. pose proof (getSession_absent timeoutMinutes now w u Hs) as Hg.
    split; [exact Hg|]. unfold SessionManager.isSessionActive.
    by rewrite (bind_returned _ _ w w None Hg).
Qed.

Lemma getSession_reads_only_witness :
  let s := Samples.session_in AWAITING_TITLE Samples.draft 1000 in
  let w := Samples.store Samples.alice [] s in
  SessionManager.getSession 30 1801000 (js "1001") w = (w, Returned (Some s))
  /\ SessionManager.getSession 30 1801000 (js "77") w = (w, Returned None).
Proof.
  intros s w. split.
  - apply (proj1 (getSession_reads_only 30 1801000 (js "1001") w) s); [reflexivity|].
    simpl. lia.
  - apply (proj2 (getSession_reads_only 30 1801000 (js "77") w)). reflexivity.
Defined.

(** [updateSession] without a live session.  With no session row it throws
    [Session not found] and writes nothing.  With an expired row it throws
    the same error, and the expired row has been deleted and the deletion
    logged on the way.  In neither case is a session created. *)
Theorem updateSession_needs_live_session
    (timeoutMinutes now : Z) (u : jstring) (updates : SessionUpdates) (w : World) :
  (session_of (db w) u = None ->
   SessionManager.updateSession timeoutMinutes now u updates w
   = (w, Thrown (Error "Session not found")))
  /\ (forall s, sessions_ok (db w) -> session_of (db w) u = Some s ->
        timeoutMinutes * 60000 < now - lastActivity s ->
        exists w1,
          SessionManager.updateSession timeoutMinutes now u updates w
          = (w1, Thrown (Error "Session not found"))
          /\ session_of (db w1) u = None
          /\ audit_log (db w1)
             = audit_log (db w) ++
               [{| a_user_id := u; a_action := "SESSION_DELETED"; a_details := None;
                   a_created_at := Database.current_timestamp now |}]).
Proof.
  split.
  - intros Hs. unfold SessionManager.updateSession.
    by rewrite (bind_returned _ _ w w None (getSession_absent _ _ w u Hs)).
  - intros s Hok Hs Hl.
    destruct (session_of_ok _ _ _ Hok Hs) as (_ & Hu & _).
    assert (He : SessionManager.expired timeoutMinutes now s = true).
    { unfold SessionManager.expired. apply Z.ltb_lt. lia. }
    eexists. split.
    + unfold SessionManager.updateSession.
      by rewrite (bind_returned _ _ w _ None (getSession_expired _ _ w u s Hs He Hu)).
    + split; [apply session_of_drop|reflexivity].
Qed.

Lemma updateSession_needs_live_session_witness :
  let s := Samples.session_in AWAITING_TITLE Samples.draft 0 in
  let w := Samples.store Samples.alice [] s in
  let upd := {| upd_state := Some IDLE; upd_ticketData := None; upd_lastActivity := None |} in
  SessionManager.updateSession 30 1800001 (js "77") upd w
  = (w, Thrown (Error "Session not found"))
  /\ exists w1,
       SessionManager.updateSession 30 1800001 (js "1001") upd w
       = (w1, Thrown (Error "Session not found"))
       /\ session_of (db w1) (js "1001") = None.
Proof.
  intros s w upd. split.
  - apply (proj1 (updateSession_needs_live_session 30 1800001 (js "77") upd w)). reflexivity.
  - destruct (proj2 (updateSession_needs_live_session 30 1800001 (js "1001") upd w) s)
      as (w1 & H1 & H2 & _).
    + concrete_ok.
    + reflexivity.
    + simpl. lia.
    + exists w1. split; [exact H1|exact H2].
Defined.

(** ** One session across the steps of a handler *)

Lemma json_roundtrip_insert (d : TicketData) (k : string) (v : jsval) :
  v <> JUndefined -> json_roundtrip (<[ k := v ]> d) = <[ k := v ]> (json_roundtrip d).
Proof. intros Hv. unfold json_roundtrip. by apply map_filter_insert_True. Qed.

Lemma spread_singleton (d : TicketData) (k : string) (v : jsval) :
  spread d {[ k := v ]} = <[ k := v ]> d.
Proof. unfold spread. symmetry. apply insert_union_singleton_l. Qed.

Lemma same_but_session_of_refl (u : jstring) (d : DB) : same_but_session_of u d d.
Proof. by repeat split. Qed.

Lemma same_but_session_of_trans (u : jstring) (d d1 d2 : DB) :
  same_but_session_of u d d1 -> same_but_session_of u d1 d2 -> same_but_session_of u d d2.
Proof.
  intros (A1 & A2 & A3 & A4) (B1 & B2 & B3 & B4). repeat split; try congruence.
  intros v Hv. rewrite (B1 v Hv). by apply A1.
Qed.

Lemma live_user_exists (timeoutMinutes now : Z) (d : DB) (u : jstring) (s : Session) :
  live timeoutMinutes now d u s ->
  userId s = u /\ Database.user_exists d u = true
  /\ json_roundtrip (ticketData s) = ticketData s.
Proof. intros (Hok & Hs & _). by apply session_of_ok. Qed.

Lemma user_exists_same (u : jstring) (d d1 : DB) :
  users d1 = users d -> Database.user_exists d1 u = Database.user_exists d u.
Proof. intros H. unfold Database.user_exists. by rewrite H. Qed.

Section Steps.

Variable timeoutMinutes : Z.
Variable now : Z.
Hypothesis timeout_nonneg : 0 <= timeoutMinutes.

Lemma updateSession_step (w : World) (u : jstring) (s : Session) (updates : SessionUpdates) :
  live timeoutMinutes now (db w) u s ->
  exists w1,
    SessionManager.updateSession timeoutMinutes now u updates w = (w1, Returned tt)
    /\ live timeoutMinutes now (db w1) u
         (row s (default (state s) (upd_state updates))
            (json_roundtrip (default (ticketData s) (upd_ticketData updates))) now)
    /\ same_but_session_of u (db w) (db w1)
    /\ sent w1 = sent w.
Proof.
  intros Hl. destruct (live_user_exists _ _ _ _ _ Hl) as (Hid & Hex & Hjson).
  destruct Hl as (Hok & Hs & He).
  eexists. split; [by apply updateSession_live|].
  cbn [db sent]. split; [|split; [|reflexivity]].
  - split; [|split].
    + apply sessions_ok_put; [simpl; by rewrite Hid|exact Hok].
    + rewrite <- Hid at 1. apply (session_of_put_same (db w) (updated now s updates)).
    + by apply expired_fresh.
  - split; [|by repeat split].
    intros v Hv. apply session_of_put_other. simpl. congruence.
Qed.

Lemma updateSessionState_step (w : World) (u : jstring) (s : Session) (st : SessionState) :
  live timeoutMinutes now (db w) u s ->
  exists w1,
    SessionManager.updateSessionState timeoutMinutes now u st w = (w1, Returned tt)
    /\ live timeoutMinutes now (db w1) u (row s st (ticketData s) now)
    /\ same_but_session_of u (db w) (db w1)
    /\ sent w1 = sent w.
Proof.
  intros Hl. destruct (live_user_exists _ _ _ _ _ Hl) as (_ & _ & Hjson).
  destruct (updateSession_step w u s
              {| upd_state := Some st; upd_ticketData := None; upd_lastActivity := None |} Hl)
    as (w1 & Hrun & Hl1 & Hf & Hsent).
  exists w1. split; [exact Hrun|]. split; [|by split].
  simpl in Hl1. by rewrite Hjson in Hl1.
Qed.

Lemma updateTicketData_step (w : World) (u : jstring) (s : Session) (partial : TicketData) :
  live timeoutMinutes now (db w) u s ->
  exists w1,
    SessionManager.updateTicketData timeoutMinutes now u partial w = (w1, Returned tt)
    /\ live timeoutMinutes now (db w1) u
         (row s (state s) (json_roundtrip (spread (ticketData s) partial)) now)
    /\ same_but_session_of u (db w) (db w1)
    /\ sent w1 = sent w.
Proof.
  intros Hl.
  destruct (updateSession_step w u s
              {| upd_state := None;
                 upd_ticketData := Some (spread (ticketData s) partial);
                 upd_lastActivity := None |} Hl)
    as (w1 & Hrun & Hl1 & Hf & Hsent).
  exists w1. split; [|split; [exact Hl1|split; [exact Hf|exact Hsent]]].
  destruct Hl as (_ & Hs & He).
  unfold SessionManager.updateTicketData.
  by rewrite (bind_returned _ _ w w (Some s) (getSession_live _ _ w u s Hs He)).
Qed.

(** Setting one defined field of a stored draft. *)
Lemma updateTicketData_field (w : World) (u : jstring) (s : Session)
    (k : string) (v : jsval) :
  v <> JUndefined ->
  live timeoutMinutes now (db w) u s ->
  exists w1,
    SessionManager.updateTicketData timeoutMinutes now u {[ k := v ]} w = (w1, Returned tt)
    /\ live timeoutMinutes now (db w1) u (row s (state s) (<[ k := v ]> (ticketData s)) now)
    /\ same_but_session_of u (db w) (db w1)
    /\ sent w1 = sent w.
Proof.
  intros Hv Hl. destruct (live_user_exists _ _ _ _ _ Hl) as (_ & _ & Hjson).
  destruct (updateTicketData_step w u s {[ k := v ]} Hl) as (w1 & Hrun & Hl1 & Hf & Hsent).
  exists w1. split; [exact Hrun|]. split; [|by split].
  by rewrite spread_singleton, json_roundtrip_insert, Hjson in Hl1.
Qed.

Lemma getSession_step (w : World) (u : jstring) (s : Session) :
  live timeoutMinutes now (db w) u s ->
  SessionManager.getSession timeoutMinutes now u w = (w, Returned (Some s)).
Proof. intros (_ & Hs & He). by apply getSession_live. Qed.

Lemma live_say (w : World) (c : BotCall) (u : jstring) (s : Session) :
  live timeoutMinutes now (db w) u s -> live timeoutMinutes now (db (say w c)) u s.
Proof. done. Qed.

End Steps.

(** ** Texts: no session, descriptions, comments *)

(** A text from a user who has no session is answered with the invitation
    to run /start and changes nothing in the store: no session is created
    for it.  A message without sender, without text, or whose text is
    blank once trimmed, is dropped without any reply. *)
Theorem text_without_session_is_not_an_input
    (cfg : Config) (gw : Answers) (now : Z) (msg : MessageHandler.Message) (w : World) :
  (forall u t,
      MessageHandler.from_id msg = Some u -> u <> [] ->
      MessageHandler.text msg = Some t -> JS.trim t <> [] ->
      session_of (db w) u = None ->
      MessageHandler.handleMessage cfg gw now msg w
      = (say w (SendMessage (MessageHandler.chat_id msg) MsgPleaseStart), Returned tt))
  /\ (MessageHandler.from_id msg = None
      \/ MessageHandler.text msg = None
      \/ (exists t, MessageHandler.text msg = Some t /\ JS.trim t = []) ->
      MessageHandler.handleMessage cfg gw now msg w = (w, Returned tt)).
Proof.
  split.
  - intros u t Hfrom Hu Htext Ht Hs.
    unfold MessageHandler.handleMessage. rewrite Hfrom, Htext. simpl.
    rewrite (truthy_nonempty u Hu), (truthy_nonempty _ Ht). simpl.
    apply try_catch_returned.
    by rewrite (bind_returned _ _ w w None (getSession_absent _ _ w u Hs)).
  - intros [Hfrom|[Htext|(t & Htext & Ht)]]; unfold MessageHandler.handleMessage.
    + by rewrite Hfrom.
    + rewrite Htext. simpl. by destruct (MessageHandler.from_id msg).
    + rewrite Htext. simpl. destruct (MessageHandler.from_id msg); [|done].
      rewrite Ht. simpl. by rewrite orb_true_r.
Qed.

Lemma text_without_session_is_not_an_input_witness :
  let w := {| db := {| users := [Samples.alice]; ticket_requests := [];
                       sessions := []; audit_log := [] |}; sent := [] |} in
  MessageHandler.handleMessage (config Samples.env0) Samples.tracker_down Samples.t_now
    (Samples.text_message "hello there") w
  = (say w (SendMessage 7 MsgPleaseStart), Returned tt)
  /\ MessageHandler.handleMessage (config Samples.env0) Samples.tracker_down Samples.t_now
       (Samples.text_message "   ") w
     = (w, Returned tt).
Proof.
  intros w. split.
  - apply (proj1 (text_without_session_is_not_an_input (config Samples.env0)
                    Samples.tracker_down Samples.t_now
                    (Samples.text_message "hello there") w)
             (js "1001") (js "hello there")); try reflexivity; discriminate.
  - apply (proj2 (text_without_session_is_not_an_input (config Samples.env0)
                    Samples.tracker_down Samples.t_now (Samples.text_message "   ") w)).
    right. right. exists (js "   "). split; reflexivity.
Defined.

Lemma validateDescription_accepts (d : jstring) :
  10 <= strlen d -> isValid (validateDescription d) = true.
Proof.
  intros H. unfold validateDescription, descriptionSchema_validate.
  destruct d as [|c d']; [unfold strlen in H; simpl in H; lia|].
  destruct (strlen (c :: d') <? 10) eqn:E; [apply Z.ltb_lt in E; lia|done].
Qed.

Lemma validateDescription_refuses (d : jstring) :
  strlen d < 10 ->
  validateDescription d
  = {| isValid := false;
       error := Some (if JS.truthy d then msg_desc_min else msg_string_empty) |}.
Proof.
  intros H. unfold validateDescription, descriptionSchema_validate.
  destruct d as [|c d']; [done|].
  destruct (strlen (c :: d') <? 10) eqn:E; [done|apply Z.ltb_ge in E; lia].
Qed.

Lemma handleDescriptionInput_category_run
    (cfg : Config) (now chatId : Z) (u t : jstring) (w : World) (s : Session) :
  0 <= session_timeoutMinutes cfg ->
  live (session_timeoutMinutes cfg) now (db w) u s ->
  field_truthy (ticketData s) "awaitingTemplate" = false ->
  field_truthy (ticketData s) "label" = true ->
  10 <= strlen (sanitizeInput t) ->
  exists w1,
    MessageHandler.handleDescriptionInput cfg now chatId u t w = (w1, Returned tt)
    /\ live (session_timeoutMinutes cfg) now (db w1) u
         (row s AWAITING_CONFIRMATION
            (<[ "priority" := JStr (TicketPriority_value MEDIUM) ]>
               (<[ "description" := JStr (sanitizeInput t) ]> (ticketData s))) now)
    /\ sent w1 = sent w ++ [SendMessage chatId (MsgDescriptionSavedSummary (ticketData s))]
    /\ same_but_session_of u (db w) (db w1).
Proof.
  intros timeout_nonneg Hl Htpl Hlabel Hlen.
  pose proof (validateDescription_accepts _ Hlen) as Hv.
  destruct (updateTicketData_field _ now timeout_nonneg w u s "description"
              (JStr (sanitizeInput t)) ltac:(done) Hl) as (w1 & H1 & Hl1 & Hf1 & Hs1).
  destruct (updateSessionState_step _ now timeout_nonneg w1 u _ AWAITING_CONFIRMATION Hl1)
    as (w2 & H2 & Hl2 & Hf2 & Hs2).
  destruct (updateTicketData_field _ now timeout_nonneg w2 u _ "priority"
              (JStr (TicketPriority_value MEDIUM)) ltac:(done) Hl2)
    as (w3 & H3 & Hl3 & Hf3 & Hs3).
  exists (say w3 (SendMessage chatId (MsgDescriptionSavedSummary (ticketData s)))).
  split; [|split; [|split]].
  - unfold MessageHandler.handleDescriptionInput. cbv zeta.
    rewrite (bind_returned _ _ w w (Some s) (getSession_step _ now w u s Hl)).
    rewrite Htpl, Hv. cbn [negb].
    rewrite (bind_returned _ _ w w1 true)
      by (by rewrite (bind_returned _ _ w w1 tt H1)).
    cbn [negb]. rewrite Hlabel.
    rewrite (bind_returned _ _ w1 w2 tt H2).
    by rewrite (bind_returned _ _ w2 w3 tt H3).
  - exact Hl3.
  - unfold say. cbn [sent]. by rewrite Hs3, Hs2, Hs1.
  - eapply same_but_session_of_trans; [exact Hf1|].
    eapply same_but_session_of_trans; [exact Hf2|exact Hf3].
Qed.

(** ** Confirmation: success, cancel, edit, incomplete draft *)

Lemma or_null_nonempty (x : jstring) : x <> [] -> Database.or_null (Some x) = Some x.
Proof. intros H. unfold Database.or_null. by rewrite truthy_nonempty. Qed.

Lemma live_same_sessions (timeoutMinutes now : Z) (d d1 : DB) (u : jstring) (s : Session) :
  sessions d1 = sessions d ->
  (forall v, Database.user_exists d v = true -> Database.user_exists d1 v = true) ->
  live timeoutMinutes now d u s -> live timeoutMinutes now d1 u s.
Proof.
  intros Hs Hu (Hok & Hrow & He). split; [|split; [|exact He]].
  - by apply (sessions_ok_same d d1).
  - unfold session_of in *. by rewrite Hs.
Qed.

Lemma user_exists_bump (d : DB) (u v : jstring) :
  Database.user_exists (Database.set_users d (List.map (Database.bump u) (users d))) v
  = Database.user_exists d v.
Proof.
  unfold Database.user_exists. simpl. apply existsb_map_same.
  intros r. unfold Database.bump. by destruct (JS.eqb (telegram_user_id r) u).
Qed.

Lemma addAuditLog_run (now : Z) (u : jstring) (action : string) (details : option jstring)
    (w : World) :
  Database.user_exists (db w) u = true ->
  Database.addAuditLog now u action details w
  = ({| db := Database.set_audit (db w)
                (audit_log (db w) ++
                 [{| a_user_id := u; a_action := action;
                     a_details := Database.or_null details;
                     a_created_at := Database.current_timestamp now |}]);
        sent := sent w |}, Returned tt).
Proof.
  intros Hu. unfold Database.addAuditLog, bind, read_db. simpl. by rewrite Hu.
Qed.

Lemma createTicket_row (newId : jstring) (now : Z) (ticket : NewTicket) (w : World)
    (title description label priority : jstring) :
  n_title ticket = Some title ->
  n_description ticket = Some description ->
  n_label ticket = Some label ->
  n_priority ticket = Some priority ->
  Database.check_label (if JS.eqb label (js "Request") then js "Other" else label) = true ->
  Database.check_priority priority = true ->
  ticket_of (db w) newId = None ->
  Database.user_exists (db w) (n_telegram_user_id ticket) = true ->
  Database.createTicket newId now ticket w
  = (let row :=
       {| t_id := newId;
          t_telegram_user_id := n_telegram_user_id ticket;
          t_telegram_username := Database.or_null (n_telegram_username ticket);
          t_department := n_department ticket;
          t_title := title; t_description := description;
          t_label := if JS.eqb label (js "Request") then js "Other" else label;
          t_priority := priority;
          t_status := n_status ticket;
          t_linear_ticket_id := Database.or_null (n_linear_ticket_id ticket);
          t_linear_ticket_url := Database.or_null (n_linear_ticket_url ticket);
          t_created_at := Database.current_timestamp now;
          t_submitted_at := n_submitted_at ticket;
          t_session_data := option_map json_roundtrip (n_session_data ticket) |} in
     ({| db := Database.set_tickets (db w) (ticket_requests (db w) ++ [row]);
         sent := sent w |},
      Returned (Database.mapRowToTicket row))).
Proof.
  intros Ht Hd Hl Hp Hcl Hcp Hfresh Hu.
  unfold Database.createTicket, Database.insert_ticket. rewrite Ht, Hd, Hl, Hp.
  unfold bind at 1, read_db at 1.
  unfold ticket_of in Hfresh. rewrite (find_none_existsb _ _ Hfresh).
  rewrite Hcl, Hcp, Hu. cbn [negb].
  unfold bind at 1, write_db. unfold bind, Database.getTicketById, bind, read_db, ret.
  cbn [db sent Database.set_tickets ticket_requests].
  rewrite (find_app_fresh _ _ _ Hfresh) by (cbn [t_id]; apply eqb_refl).
  reflexivity.
Qed.

Lemma field_str_of (d : TicketData) (k : string) (x : jstring) :
  d !! k = Some (JStr x) -> field_str d k = Some x.
Proof. intros H. unfold field_str. by rewrite H. Qed.

(** The main path of the workflow.  A live session whose draft has its
    four fields within the constraints of the table, an unused record id
    and a tracker that answers with a ticket whose id and url are not
    empty: confirming appends exactly one record, already CREATED and
    carrying the tracker's id, its url and the submission time; both
    counters of the user go up by one; the session is IDLE with an empty
    draft; one TICKET_CREATED audit row is written; the user sees the
    progress note and then the success note, and the reviewer's chat is
    notified exactly when one is configured. *)
Theorem confirmed_draft_becomes_created_ticket
    (cfg : Config) (gw : Answers) (now : Z) (newId : jstring) (chatId messageId : Z)
    (u : jstring) (user : User) (w : World) (s : Session)
    (title description label priority : jstring) (lt : LinearTicket) :
  0 <= session_timeoutMinutes cfg ->
  live (session_timeoutMinutes cfg) now (db w) u s ->
  ticketData s !! "title" = Some (JStr title) ->
  ticketData s !! "description" = Some (JStr description) ->
  ticketData s !! "label" = Some (JStr label) ->
  ticketData s !! "priority" = Some (JStr priority) ->
  Database.check_label (if JS.eqb label (js "Request") then js "Other" else label) = true ->
  Database.check_priority priority = true ->
  ticket_of (db w) newId = None ->
  createTicket_answer gw = Some lt -> lt_id lt <> [] -> lt_url lt <> [] ->
  exists w1,
    CallbackHandler.handleConfirmation cfg gw now newId chatId messageId u (js "yes") user w
    = (w1, Returned tt)
    /\ ticket_requests (db w1)
       = ticket_requests (db w)
         ++ [created_ticket newId u user title description label priority now lt]
    /\ users (db w1) = List.map (Database.bump u) (users (db w))
    /\ session_of (db w1) u = Some (row s IDLE ∅ now)
    /\ (forall v, v <> u -> session_of (db w1) v = session_of (db w) v)
    /\ audit_log (db w1)
       = audit_log (db w)
         ++ [{| a_user_id := u; a_action := "TICKET_CREATED";
                a_details := Database.or_null (Some (lt_identifier lt));
                a_created_at := Database.current_timestamp now |}]
    /\ sent w1
       = sent w
         ++ [EditMessageText chatId messageId MsgCreating;
             EditMessageText chatId messageId
               (MsgTicketCreated (lt_identifier lt) (lt_url lt))]
         ++ (if JS.truthy (auth_reginaChatId cfg)
             then [SendMessageTo (auth_reginaChatId cfg)
                     (MsgNewTicketNotice (lt_identifier lt) (lt_url lt) (ticketData s))]
             else []).
Proof.
  intros Hnn Hl Ht Hd Hlb Hp Hcl Hcp Hfresh Hgw Hid Hurl.
  destruct (live_user_exists _ _ _ _ _ Hl) as (Huid & Hex & Hjson).
  set (w0 := say w (EditMessageText chatId messageId MsgCreating)).
  (* the record is inserted *)
  pose proof (createTicket_row newId now (CallbackHandler.draft_ticket u user s) w0
                title description label priority
                (field_str_of _ _ _ Ht) (field_str_of _ _ _ Hd)
                (field_str_of _ _ _ Hlb) (field_str_of _ _ _ Hp)
                Hcl Hcp Hfresh Hex) as Hc.
  cbv zeta in Hc. cbn [CallbackHandler.draft_ticket n_telegram_user_id n_telegram_username
    n_department n_status n_linear_ticket_id n_linear_ticket_url n_submitted_at
    n_session_data Database.or_null option_map] in Hc.
  set (r0 := {| t_id := newId; t_telegram_user_id := u;
                t_telegram_username := Database.or_null (telegram_username user);
                t_department := department user;
                t_title := title; t_description := description;
                t_label := if JS.eqb label (js "Request") then js "Other" else label;
                t_priority := priority; t_status := SUBMITTED;
                t_linear_ticket_id := None; t_linear_ticket_url := None;
                t_created_at := Database.current_timestamp now;
                t_submitted_at := None; t_session_data := None |}) in Hc.
  set (w1 := {| db := Database.set_tickets (db w0) (ticket_requests (db w0) ++ [r0]);
                sent := sent w0 |}) in Hc.
  (* the tracker's answer is written to it *)
  set (lin := Some (lt_id lt, lt_url lt, Database.current_timestamp now)).
  set (w2 := {| db := Database.set_tickets (db w1)
                        (List.map (Database.set_status newId CREATED lin)
                           (ticket_requests (db w1)));
                sent := sent w1 |}).
  assert (H2 : Database.updateTicketStatus now (t_id (Database.mapRowToTicket r0)) CREATED
                 (Some (lt_id lt)) (Some (lt_url lt)) w1 = (w2, Returned tt)).
  { rewrite updateTicketStatus_frame.
    by rewrite (or_null_nonempty _ Hid), (or_null_nonempty _ Hurl). }
  assert (Htk : ticket_requests (db w2)
                = ticket_requests (db w)
                  ++ [created_ticket newId u user title description label priority now lt]).
  { unfold w2, w1, w0, say. cbn [db ticket_requests Database.set_tickets].
    rewrite map_app. f_equal.
    - apply (map_no_match t_id _ newId); [|exact Hfresh].
      intros r Hr. unfold Database.set_status. by rewrite Hr.
    - cbn [List.map]. unfold Database.set_status, r0. cbn [t_id]. by rewrite eqb_refl. }
  (* the counters *)
  set (w3 := {| db := Database.set_users (db w2) (List.map (Database.bump u) (users (db w2)));
                sent := sent w2 |}).
  assert (H3 : Database.incrementUserTicketCount u w2 = (w3, Returned tt)) by reflexivity.
  (* the session *)
  assert (Hl3 : live (session_timeoutMinutes cfg) now (db w3) u s).
  { apply (live_same_sessions _ _ (db w)); [reflexivity| |exact Hl].
    intros v Hv. unfold w3. cbn [db]. by rewrite user_exists_bump. }
  destruct (updateSession_step _ now Hnn w3 u s
              {| upd_state := Some IDLE; upd_ticketData := Some ∅;
                 upd_lastActivity := None |} Hl3)
    as (w4 & H4 & (_ & Hrow4 & _) & (Hoth4 & Hus4 & Htk4 & Hau4) & Hs4).
  cbn [upd_state upd_ticketData default from_option Datatypes.id] in Hrow4.
  rewrite json_roundtrip_empty in Hrow4.
  (* the notes and the audit row *)
  set (w5 := say w4 (EditMessageText chatId messageId
                       (MsgTicketCreated (lt_identifier lt) (lt_url lt)))).
  assert (Hex5 : Database.user_exists (db w5) u = true).
  { unfold w5, say. cbn [db]. rewrite (user_exists_same u (db w3) (db w4) Hus4).
    unfold w3. cbn [db]. by rewrite user_exists_bump. }
  pose proof (addAuditLog_run now u "TICKET_CREATED" (Some (lt_identifier lt)) w5 Hex5) as H6.
  set (w6 := {| db := Database.set_audit (db w5) _; sent := sent w5 |}) in H6.
  exists (if JS.truthy (auth_reginaChatId cfg)
          then say w6 (SendMessageTo (auth_reginaChatId cfg)
                         (MsgNewTicketNotice (lt_identifier lt) (lt_url lt) (ticketData s)))
          else w6).
  split.
  { unfold CallbackHandler.handleConfirmation. cbv zeta.
    rewrite (bind_returned _ _ w w (Some s) (getSession_step _ now w u s Hl)).
    rewrite eqb_refl.
    rewrite (bind_returned _ _ w w0 tt) by reflexivity.
    apply try_catch_returned.
    rewrite (bind_returned _ _ w0 w1 _ Hc).
    rewrite (bind_returned _ _ w1 w1 lt)
      by (unfold Gateway.createTicket; by rewrite Hgw).
    rewrite (bind_returned _ _ w1 w2 tt H2).
    rewrite (bind_returned _ _ w2 w3 tt H3).
    rewrite (bind_returned _ _ w3 w4 tt H4).
    rewrite (bind_returned _ _ w4 w5 tt) by reflexivity.
    rewrite (bind_returned _ _ w5 w6 tt H6).
    unfold when. by destruct (JS.truthy (auth_reginaChatId cfg)). }
  assert (Hdb : db (if JS.truthy (auth_reginaChatId cfg)
                    then say w6 (SendMessageTo (auth_reginaChatId cfg)
                           (MsgNewTicketNotice (lt_identifier lt) (lt_url lt) (ticketData s)))
                    else w6) = db w6)
    by (by destruct (JS.truthy (auth_reginaChatId cfg))).
  rewrite Hdb. unfold w6, w5, say. cbn [db ticket_requests users audit_log sessions
    Database.set_audit session_of].
  split; [by rewrite Htk4|]. split; [by rewrite Hus4|].
  split; [exact Hrow4|]. split; [exact Hoth4|]. split; [by rewrite Hau4|].
  destruct (JS.truthy (auth_reginaChatId cfg)); cbn [sent]; rewrite Hs4;
    unfold w3, w2, w1, w0, say; cbn [sent]; rewrite <- ?app_assoc; reflexivity.
Qed.

Lemma confirmed_draft_becomes_created_ticket_witness :
  let cfg := config {| SESSION_TIMEOUT_MINUTES := None; REGINA_CHAT_ID := Some (js "42") |} in
  let lt := {| lt_id := js "lin-1"; lt_identifier := js "FAL-7";
               lt_url := js "https://linear.app/FAL-7" |} in
  let gw := {| createTicket_answer := Some lt; addComment_answer := true |} in
  let s := Samples.session_in AWAITING_CONFIRMATION Samples.draft Samples.t_now in
  exists w1,
    CallbackHandler.handleConfirmation cfg gw Samples.t_now (js "t1") 7 9 (js "1001")
      (js "yes") Samples.alice (Samples.store Samples.alice [] s)
    = (w1, Returned tt)
    /\ List.map t_status (ticket_requests (db w1)) = [CREATED]
    /\ List.map tickets_created_today (users (db w1)) = [1]
    /\ option_map state (session_of (db w1) (js "1001")) = Some IDLE
    /\ sent w1
       = [EditMessageText 7 9 MsgCreating;
          EditMessageText 7 9 (MsgTicketCreated (js "FAL-7") (js "https://linear.app/FAL-7"));
          SendMessageTo (js "42")
            (MsgNewTicketNotice (js "FAL-7") (js "https://linear.app/FAL-7") Samples.draft)].
Proof.
  intros cfg lt gw s.
  destruct (confirmed_draft_becomes_created_ticket cfg gw Samples.t_now (js "t1") 7 9
              (js "1001") Samples.alice (Samples.store Samples.alice [] s) s
              Samples.title1 (js "The app crashes on startup") (js "Bug") (js "High") lt)
    as (w1 & Hrun & Htk & Hus & Hrow & _ & _ & Hsent);
    try reflexivity; try discriminate.
  - split; [concrete_ok|]. split; reflexivity.
  - exists w1. split; [exact Hrun|]. rewrite Htk, Hus, Hrow, Hsent.
    repeat split; reflexivity.
Defined.

(** Cancelling at the confirmation step empties the draft and returns the
    session to IDLE; no record, no counter and no audit row is written.
    Choosing to edit only shows the edit menu, and any other value of the
    button does nothing at all. *)
Theorem confirmation_cancel_discards_draft
    (cfg : Config) (gw : Answers) (now : Z) (newId : jstring) (chatId messageId : Z)
    (u : jstring) (user : User) (w : World) (s : Session) :
  0 <= session_timeoutMinutes cfg ->
  live (session_timeoutMinutes cfg) now (db w) u s ->
  (exists w1,
      CallbackHandler.handleConfirmation cfg gw now newId chatId messageId u
        (js "cancel") user w = (w1, Returned tt)
      /\ session_of (db w1) u = Some (row s IDLE ∅ now)
      /\ same_but_session_of u (db w) (db w1)
      /\ sent w1 = sent w ++ [EditMessageText chatId messageId MsgCancelled])
  /\ CallbackHandler.handleConfirmation cfg gw now newId chatId messageId u
       (js "edit") user w
     = (say w (EditMessageText chatId messageId MsgWhatToEdit), Returned tt)
  /\ (forall action,
         action <> js "yes" -> action <> js "edit" -> action <> js "cancel" ->
         CallbackHandler.handleConfirmation cfg gw now newId chatId messageId u
           action user w = (w, Returned tt)).
Proof.
  intros Hnn Hl. pose proof (getSession_step _ now w u s Hl) as Hg.
  split; [|split].
  - destruct (updateSession_step _ now Hnn w u s
                {| upd_state := Some IDLE; upd_ticketData := Some ∅;
                   upd_lastActivity := None |} Hl)
      as (w1 & H1 & (_ & Hrow & _) & Hf & Hs).
    cbn [upd_state upd_ticketData default from_option Datatypes.id] in Hrow.
    rewrite json_roundtrip_empty in Hrow.
    exists (say w1 (EditMessageText chatId messageId MsgCancelled)).
    split; [|split; [exact Hrow|split; [exact Hf|]]].
    + unfold CallbackHandler.handleConfirmation. cbv zeta.
      rewrite (bind_returned _ _ w w (Some s) Hg).
      replace (JS.eqb (js "cancel") (js "yes")) with false by reflexivity.
      replace (JS.eqb (js "cancel") (js "edit")) with false by reflexivity.
      rewrite eqb_refl. by rewrite (bind_returned _ _ w w1 tt H1).
    + unfold say. cbn [sent]. by rewrite Hs.
  - unfold CallbackHandler.handleConfirmation. cbv zeta.
    rewrite (bind_returned _ _ w w (Some s) Hg).
    replace (JS.eqb (js "edit") (js "yes")) with false by reflexivity.
    by rewrite eqb_refl.
  - intros action H1 H2 H3. unfold CallbackHandler.handleConfirmation. cbv zeta.
    rewrite (bind_returned _ _ w w (Some s) Hg).
    rewrite (proj2 (eqb_neq _ _) H1), (proj2 (eqb_neq _ _) H2), (proj2 (eqb_neq _ _) H3).
    reflexivity.
Qed.

Lemma confirmation_cancel_discards_draft_witness :
  let s := Samples.session_in AWAITING_CONFIRMATION Samples.draft Samples.t_now in
  let w := Samples.store Samples.alice [] s in
  exists w1,
    CallbackHandler.handleConfirmation (config Samples.env0) Samples.tracker_down
      Samples.t_now (js "t1") 7 9 (js "1001") (js "cancel") Samples.alice w
    = (w1, Returned tt)
    /\ option_map ticketData (session_of (db w1) (js "1001")) = Some ∅
    /\ ticket_requests (db w1) = [] /\ audit_log (db w1) = [].
Proof.
  intros s w.
  destruct (confirmation_cancel_discards_draft (config Samples.env0) Samples.tracker_down
              Samples.t_now (js "t1") 7 9 (js "1001") Samples.alice w s)
    as ((w1 & Hrun & Hrow & (_ & _ & Htk & Hau) & _) & _).
  - simpl. lia.
  - split; [concrete_ok|]. split; reflexivity.
  - exists w1. split; [exact Hrun|]. rewrite Hrow, Htk, Hau. repeat split; reflexivity.
Defined.

(** A draft that lacks its title, description, label or priority cannot
    be recorded.  Confirming it ends with the failure note whatever the
    tracker would answer: the insert is refused before the tracker is
    asked, and the store is left exactly as it was (no record, no counter
    change, the session and its draft kept). *)
Theorem incomplete_draft_is_never_recorded
    (cfg : Config) (gw : Answers) (now : Z) (newId : jstring) (chatId messageId : Z)
    (u : jstring) (user : User) (w : World) (s : Session) :
  session_of (db w) u = Some s ->
  SessionManager.expired (session_timeoutMinutes cfg) now s = false ->
  field_str (ticketData s) "title" = None
  \/ field_str (ticketData s) "description" = None
  \/ field_str (ticketData s) "label" = None
  \/ field_str (ticketData s) "priority" = None ->
  ticketData s !! "id" = None ->
  CallbackHandler.handleConfirmation cfg gw now newId chatId messageId u (js "yes") user w
  = ({| db := db w;
        sent := sent w ++ [EditMessageText chatId messageId MsgCreating;
                           EditMessageText chatId messageId MsgCreateFailed] |},
     Returned tt).
Proof.
  intros Hs He Hmiss Hid.
  unfold CallbackHandler.handleConfirmation. cbv zeta.
  rewrite (bind_returned _ _ w w (Some s) (getSession_live _ now w u s Hs He)).
  rewrite eqb_refl.
  set (w0 := say w (EditMessageText chatId messageId MsgCreating)).
  rewrite (bind_returned _ _ w w0 tt) by reflexivity.
  assert (Hthrow : exists e,
             Database.createTicket newId now (CallbackHandler.draft_ticket u user s) w0
             = (w0, Thrown e)).
  { unfold Database.createTicket, Database.insert_ticket, bind, read_db, throw.
    cbn [CallbackHandler.draft_ticket n_title n_description n_label n_priority].
    destruct (existsb _ (ticket_requests (db w0))); [by eexists|].
    destruct Hmiss as [H|[H|[H|H]]]; rewrite H;
      repeat match goal with
             | |- context [match ?x with Some _ => _ | None => _ end] => destruct x
             end; by eexists. }
  destruct Hthrow as (e & Hthrow).
  rewrite (try_catch_thrown _ _ w0 w0 e) by (by apply bind_thrown).
  unfold field_str. rewrite Hid. unfold w0, say. cbn [db sent].
  unfold bind, ret, bot. cbn [db sent]. by rewrite <- app_assoc.
Qed.

Lemma incomplete_draft_is_never_recorded_witness :
  let lt := {| lt_id := js "lin-1"; lt_identifier := js "FAL-7";
               lt_url := js "https://linear.app/FAL-7" |} in
  let gw := {| createTicket_answer := Some lt; addComment_answer := true |} in
  let s := Samples.session_in AWAITING_CONFIRMATION
             {[ "priority" := JStr (js "High") ]} Samples.t_now in
  let w := Samples.store Samples.alice [] s in
  CallbackHandler.handleConfirmation (config Samples.env0) gw Samples.t_now (js "t1") 7 9
    (js "1001") (js "yes") Samples.alice w
  = ({| db := db w;
        sent := [EditMessageText 7 9 MsgCreating; EditMessageText 7 9 MsgCreateFailed] |},
     Returned tt).
Proof.
  intros lt gw s w.
  apply (incomplete_draft_is_never_recorded (config Samples.env0) gw Samples.t_now
           (js "t1") 7 9 (js "1001") Samples.alice w s); try reflexivity.
  left. reflexivity.
Defined.

(** ** Buttons need an authenticated user *)

(** A button pressed by someone who is not registered, or whose row is
    not authenticated, is acknowledged and answered with the request to
    authenticate, whatever the button was: no handler runs and the store
    is left exactly as it was. *)
Theorem callback_requires_authenticated_user
    (cfg : Config) (gw : Answers) (now : Z) (newId : jstring)
    (q : CallbackHandler.CallbackQuery) (w : World) :
  user_of (db w) (CallbackHandler.q_from q) = None
  \/ (exists user, user_of (db w) (CallbackHandler.q_from q) = Some user
                   /\ is_authenticated user = false) ->
  CallbackHandler.handleCallback cfg gw now newId q w
  = ({| db := db w;
        sent := sent w ++ [AnswerCallbackQuery;
                           EditMessageText (CallbackHandler.q_chatId q)
                             (CallbackHandler.q_messageId q) MsgNeedAuthentication] |},
     Returned tt).
Proof.
  intros H. unfold CallbackHandler.handleCallback. cbv zeta.
  apply try_catch_returned.
  rewrite (bind_returned _ _ w (say w AnswerCallbackQuery) tt) by reflexivity.
  assert (Hget : forall o, user_of (db w) (CallbackHandler.q_from q) = o ->
            Database.getUserById (CallbackHandler.q_from q) (say w AnswerCallbackQuery)
            = (say w AnswerCallbackQuery, Returned o)).
  { intros o Ho. unfold Database.getUserById, bind, read_db, ret. cbn [say db].
    unfold user_of in Ho. by rewrite Ho. }
  destruct H as [Hn|(user & Hu & Ha)].
  - rewrite (bind_returned _ _ _ _ None (Hget _ Hn)).
    unfold bot, say. cbn [db sent]. by rewrite <- app_assoc.
  - rewrite (bind_returned _ _ _ _ (Some user) (Hget _ Hu)). rewrite Ha.
    unfold bot, say. cbn [db sent]. by rewrite <- app_assoc.
Qed.

Lemma callback_requires_authenticated_user_witness :
  let w := {| db := empty_db; sent := [] |} in
  CallbackHandler.handleCallback (config Samples.env0) Samples.tracker_down Samples.t_now
    (js "t1") (Samples.button CallbackHandler.CbConfirm "yes") w
  = ({| db := empty_db;
        sent := [AnswerCallbackQuery; EditMessageText 7 9 MsgNeedAuthentication] |},
     Returned tt).
Proof.
  intros w.
  apply (callback_requires_authenticated_user (config Samples.env0) Samples.tracker_down
           Samples.t_now (js "t1") (Samples.button CallbackHandler.CbConfirm "yes") w).
  left. reflexivity.
Defined.

(** ** Comments *)

(** A text typed while a comment is awaited.  When the session names the
    issue, the tracker is asked once and the session is reset to IDLE
    with an empty draft whether or not the tracker took the comment: a
    refused comment is reported and not kept for a retry.  When the
    session names no issue, the text is answered with the expiry note and
    nothing is written, so the session stays as it was. *)
Theorem comment_text_ends_the_operation
    (cfg : Config) (gw : Answers) (now chatId : Z) (u comment : jstring)
    (w : World) (s : Session) :
  0 <= session_timeoutMinutes cfg ->
  live (session_timeoutMinutes cfg) now (db w) u s ->
  (field_truthy (ticketData s) "issueId" = true ->
   exists w1,
     MessageHandler.handleCommentInput cfg gw now chatId u comment w = (w1, Returned tt)
     /\ session_of (db w1) u = Some (row s IDLE ∅ now)
     /\ same_but_session_of u (db w) (db w1)
     /\ sent w1
        = sent w ++ [SendMessage chatId
                       (if addComment_answer gw then MsgCommentAdded else MsgCommentFailed)])
  /\ (field_truthy (ticketData s) "issueId" = false ->
      MessageHandler.handleCommentInput cfg gw now chatId u comment w
      = (say w (SendMessage chatId MsgSessionExpired), Returned tt)).
Proof.
  intros Hnn Hl. pose proof (getSession_step _ now w u s Hl) as Hg. split.
  - intros Hi.
    set (w0 := say w (SendMessage chatId
                        (if addComment_answer gw then MsgCommentAdded else MsgCommentFailed))).
    destruct (updateSession_step _ now Hnn w0 u s
                {| upd_state := Some IDLE; upd_ticketData := Some ∅;
                   upd_lastActivity := None |} (live_say _ now w _ u s Hl))
      as (w1 & H1 & (_ & Hrow & _) & Hf & Hs).
    cbn [upd_state upd_ticketData default from_option Datatypes.id] in Hrow.
    rewrite json_roundtrip_empty in Hrow.
    exists w1. split; [|split; [exact Hrow|split; [exact Hf|exact Hs]]].
    unfold MessageHandler.handleCommentInput. cbv zeta. apply try_catch_returned.
    rewrite (bind_returned _ _ w w (Some s) Hg). rewrite Hi.
    rewrite (bind_returned _ _ w w (addComment_answer gw)) by reflexivity.
    by rewrite (bind_returned _ _ w w0 tt) by reflexivity.
  - intros Hi. unfold MessageHandler.handleCommentInput. cbv zeta.
    apply try_catch_returned.
    rewrite (bind_returned _ _ w w (Some s) Hg). by rewrite Hi.
Qed.

Lemma comment_text_ends_the_operation_witness :
  let s := Samples.session_in ADDING_COMMENT {[ "issueId" := JStr (js "iss-1") ]}
             Samples.t_now in
  let w := Samples.store Samples.alice [] s in
  exists w1,
    MessageHandler.handleCommentInput (config Samples.env0) Samples.tracker_down
      Samples.t_now 7 (js "1001") (js "please look at this") w
    = (w1, Returned tt)
    /\ option_map state (session_of (db w1) (js "1001")) = Some IDLE
    /\ sent w1 = [SendMessage 7 MsgCommentFailed].
Proof.
  intros s w.
  destruct (proj1 (comment_text_ends_the_operation (config Samples.env0)
                     Samples.tracker_down Samples.t_now 7 (js "1001")
                     (js "please look at this") w s
                     ltac:(vm_compute; discriminate)
                     ltac:(split; [concrete_ok|split; reflexivity]))
              eq_refl)
    as (w1 & Hrun & Hrow & _ & Hsent).
  exists w1. split; [exact Hrun|]. rewrite Hrow, Hsent. split; reflexivity.
Defined.

(** ** The category flow, end to end *)

Lemma field_truthy_insert_ne (d : TicketData) (k k' : string) (v : jsval) :
  k <> k' -> field_truthy (<[ k := v ]> d) k' = field_truthy d k'.
Proof. intros H. unfold field_truthy. by rewrite lookup_insert_ne. Qed.

Lemma field_truthy_insert_str (d : TicketData) (k : string) (x : jstring) :
  x <> [] -> field_truthy (<[ k := JStr x ]> d) k = true.
Proof. intros H. unfold field_truthy. rewrite lookup_insert_eq. by apply truthy_nonempty. Qed.

Lemma live_later (timeoutMinutes now now' : Z) (d : DB) (u : jstring) (s : Session) :
  now' - lastActivity s <= timeoutMinutes * 60000 ->
  live timeoutMinutes now d u s -> live timeoutMinutes now' d u s.
Proof.
  intros H (Hok & Hrow & _). split; [exact Hok|]. split; [exact Hrow|].
  unfold SessionManager.expired. apply Z.ltb_ge. lia.
Qed.

Lemma handleMessage_touch (cfg : Config) (gw : Answers) (now chat : Z)
    (u t : jstring) (w : World) (s : Session) :
  0 <= session_timeoutMinutes cfg ->
  u <> [] -> JS.trim t <> [] ->
  live (session_timeoutMinutes cfg) now (db w) u s ->
  exists w0,
    MessageHandler.handleMessage cfg gw now
      {| MessageHandler.chat_id := chat; MessageHandler.from_id := Some u;
         MessageHandler.text := Some t |} w
    = try_catch (MessageHandler.route cfg gw now chat u (JS.trim t) (state s))
        (fun _ => bot (SendMessage chat MsgErrorOccurred)) w0
    /\ live (session_timeoutMinutes cfg) now (db w0) u (row s (state s) (ticketData s) now)
    /\ same_but_session_of u (db w) (db w0)
    /\ sent w0 = sent w.
Proof.
  intros Hnn Hu Ht Hl. destruct (live_user_exists _ _ _ _ _ Hl) as (_ & _ & Hjson).
  destruct (updateSession_step _ now Hnn w u s
              {| upd_state := None; upd_ticketData := None; upd_lastActivity := Some now |} Hl)
    as (w0 & H0 & Hl0 & Hf & Hs).
  cbn [upd_state upd_ticketData default from_option Datatypes.id] in Hl0.
  rewrite Hjson in Hl0.
  exists w0. split; [|split; [exact Hl0|split; [exact Hf|exact Hs]]].
  unfold MessageHandler.handleMessage.
  cbn [MessageHandler.from_id MessageHandler.text MessageHandler.chat_id option_map].
  rewrite (truthy_nonempty u Hu), (truthy_nonempty _ Ht). cbn [negb orb].
  unfold try_catch at 1.
  rewrite (bind_returned _ _ w w (Some s) (getSession_step _ now w u s Hl)).
  by rewrite (bind_returned _ _ w w0 tt H0).
Qed.

Lemma handleTitleInput_run (cfg : Config) (now chat : Z) (u t : jstring)
    (w : World) (s : Session) :
  0 <= session_timeoutMinutes cfg ->
  live (session_timeoutMinutes cfg) now (db w) u s ->
  isValid (validateTitle (sanitizeInput t)) = true ->
  Database.duplicate_rows (db w) now (sanitizeInput t) 30 = [] ->
  exists w1,
    MessageHandler.handleTitleInput cfg now chat u t w = (w1, Returned tt)
    /\ live (session_timeoutMinutes cfg) now (db w1) u
         (row s AWAITING_DESCRIPTION
            (<[ "title" := JStr (sanitizeInput t) ]> (ticketData s)) now)
    /\ same_but_session_of u (db w) (db w1)
    /\ sent w1 = sent w ++ [SendMessage chat MsgTitleSaved].
Proof.
  intros Hnn Hl Hv Hd.
  destruct (updateTicketData_field _ now Hnn w u s "title"
              (JStr (sanitizeInput t)) ltac:(done) Hl) as (w1 & H1 & Hl1 & Hf1 & Hs1).
  destruct (updateSessionState_step _ now Hnn w1 u _ AWAITING_DESCRIPTION Hl1)
    as (w2 & H2 & Hl2 & Hf2 & Hs2).
  exists (say w2 (SendMessage chat MsgTitleSaved)).
  split; [|split; [exact Hl2|split]].
  - unfold MessageHandler.handleTitleInput. cbv zeta. rewrite Hv. cbn [negb].
    rewrite (bind_returned _ _ w w false).
    + rewrite (bind_returned _ _ w w1 tt H1).
      by rewrite (bind_returned _ _ w1 w2 tt H2).
    + unfold Database.findDuplicateTicket, bind, read_db, ret. rewrite Hd. by destruct w.
  - eapply same_but_session_of_trans; [exact Hf1|exact Hf2].
  - unfold say. cbn [sent]. by rewrite Hs2, Hs1.
Qed.

Lemma handleCategorySelection_run (cfg : Config) (now chat messageId : Z)
    (u category : jstring) (w : World) (s : Session) :
  0 <= session_timeoutMinutes cfg ->
  live (session_timeoutMinutes cfg) now (db w) u s ->
  exists w1,
    CallbackHandler.handleCategorySelection cfg now chat messageId u category w
    = (w1, Returned tt)
    /\ live (session_timeoutMinutes cfg) now (db w1) u
         (row s AWAITING_TITLE (<[ "label" := JStr category ]> (ticketData s)) now)
    /\ same_but_session_of u (db w) (db w1)
    /\ sent w1 = sent w ++ [EditMessageText chat messageId (MsgCategorySelected category)].
Proof.
  intros Hnn Hl.
  destruct (updateTicketData_field _ now Hnn w u s "label"
              (JStr category) ltac:(done) Hl) as (w1 & H1 & Hl1 & Hf1 & Hs1).
  destruct (updateSessionState_step _ now Hnn w1 u _ AWAITING_TITLE Hl1)
    as (w2 & H2 & Hl2 & Hf2 & Hs2).
  exists (say w2 (EditMessageText chat messageId (MsgCategorySelected category))).
  split; [|split; [exact Hl2|split]].
  - unfold CallbackHandler.handleCategorySelection. cbv zeta.
    rewrite (bind_returned _ _ w w1 tt H1).
    by rewrite (bind_returned _ _ w1 w2 tt H2).
  - eapply same_but_session_of_trans; [exact Hf1|exact Hf2].
  - unfold say. cbn [sent]. by rewrite Hs2, Hs1.
Qed.

Lemma updateTicketData_two_fields (timeoutMinutes now : Z) (w : World) (u : jstring)
    (s : Session) (k1 k2 : string) (v1 v2 : jsval) :
  0 <= timeoutMinutes ->
  v1 <> JUndefined -> v2 <> JUndefined ->
  live timeoutMinutes now (db w) u s ->
  exists w1,
    SessionManager.updateTicketData timeoutMinutes now u (<[ k1 := v1 ]> {[ k2 := v2 ]}) w
    = (w1, Returned tt)
    /\ live timeoutMinutes now (db w1) u
         (row s (state s) (<[ k1 := v1 ]> (<[ k2 := v2 ]> (ticketData s))) now)
    /\ same_but_session_of u (db w) (db w1)
    /\ sent w1 = sent w.
Proof.
  intros Hnn Hv1 Hv2 Hl. destruct (live_user_exists _ _ _ _ _ Hl) as (_ & _ & Hjson).
  destruct (updateTicketData_step _ now Hnn w u s (<[ k1 := v1 ]> {[ k2 := v2 ]}) Hl)
    as (w1 & Hrun & Hl1 & Hf & Hsent).
  exists w1. split; [exact Hrun|]. split; [|by split].
  assert (E : spread (ticketData s) (<[ k1 := v1 ]> {[ k2 := v2 ]})
              = <[ k1 := v1 ]> (<[ k2 := v2 ]> (ticketData s))).
  { unfold spread. rewrite <- insert_union_l. by rewrite <- insert_union_singleton_l. }
  by rewrite E, !json_roundtrip_insert, Hjson in Hl1.
Qed.

Lemma handleDescriptionInput_template_run
    (cfg : Config) (now chatId : Z) (u t : jstring) (w : World) (s : Session) :
  0 <= session_timeoutMinutes cfg ->
  live (session_timeoutMinutes cfg) now (db w) u s ->
  field_truthy (ticketData s) "awaitingTemplate" = true ->
  field_truthy (ticketData s) "label" = true ->
  exists w1,
    MessageHandler.handleDescriptionInput cfg now chatId u t w = (w1, Returned tt)
    /\ live (session_timeoutMinutes cfg) now (db w1) u
         (row s AWAITING_CONFIRMATION
            (<[ "priority" := JStr (TicketPriority_value MEDIUM) ]>
               (<[ "description" := JStr t ]>
                  (<[ "awaitingTemplate" := JBool false ]> (ticketData s)))) now)
    /\ sent w1 = sent w ++ [SendMessage chatId (MsgDescriptionSavedSummary (ticketData s))]
    /\ same_but_session_of u (db w) (db w1).
Proof.
  intros Hnn Hl Htpl Hlabel.
  destruct (updateTicketData_two_fields _ now w u s "description" "awaitingTemplate"
              (JStr t) (JBool false) Hnn ltac:(done) ltac:(done) Hl)
    as (w1 & H1 & Hl1 & Hf1 & Hs1).
  destruct (updateSessionState_step _ now Hnn w1 u _ AWAITING_CONFIRMATION Hl1)
    as (w2 & H2 & Hl2 & Hf2 & Hs2).
  destruct (updateTicketData_field _ now Hnn w2 u _ "priority"
              (JStr (TicketPriority_value MEDIUM)) ltac:(done) Hl2)
    as (w3 & H3 & Hl3 & Hf3 & Hs3).
  exists (say w3 (SendMessage chatId (MsgDescriptionSavedSummary (ticketData s)))).
  split; [|split; [exact Hl3|split]].
  - unfold MessageHandler.handleDescriptionInput. cbv zeta.
    rewrite (bind_returned _ _ w w (Some s) (getSession_step _ now w u s Hl)).
    rewrite Htpl.
    rewrite (bind_returned _ _ w w1 true)
      by (by rewrite (bind_returned _ _ w w1 tt H1)).
    cbn [negb]. rewrite Hlabel.
    rewrite (bind_returned _ _ w1 w2 tt H2).
    by rewrite (bind_returned _ _ w2 w3 tt H3).
  - unfold say. cbn [sent]. by rewrite Hs3, Hs2, Hs1.
  - eapply same_but_session_of_trans; [exact Hf1|].
    eapply same_but_session_of_trans; [exact Hf2|exact Hf3].
Qed.

(** The streamlined creation flow.  An authenticated user with a live
    session, in whatever state and with whatever draft, presses a
    category button, then sends a valid title that is no duplicate, then
    a description; each step arrives before the session times out.  What
    the description must be depends on the draft the flow started from.
    When that draft does not await a template, the description needs ten
    code units or more once sanitised, and is stored sanitised.  When it
    does (the flag set by an earlier template choice is still there), any
    text that is not blank is taken: it is stored as typed, trimmed only,
    and the flag is cleared.  In both cases all three events are handled
    without error, the session ends in AWAITING_CONFIRMATION, and its
    draft is the earlier draft with the category as label, the sanitised
    title, that description and priority Medium.  Nothing but that
    session row is written. *)
Theorem category_title_description_reach_confirmation
    (cfg : Config) (gw : Answers) (newId : jstring) (t1 t2 t3 chat messageId : Z)
    (u category title description : jstring) (user : User) (w : World) (s : Session) :
  0 <= session_timeoutMinutes cfg ->
  u <> [] -> category <> [] ->
  user_of (db w) u = Some user -> is_authenticated user = true ->
  live (session_timeoutMinutes cfg) t1 (db w) u s ->
  t2 - t1 <= session_timeoutMinutes cfg * 60000 ->
  t3 - t2 <= session_timeoutMinutes cfg * 60000 ->
  isValid (validateTitle (sanitizeInput (JS.trim title))) = true ->
  Database.duplicate_rows (db w) t2 (sanitizeInput (JS.trim title)) 30 = [] ->
  JS.trim description <> [] ->
  (field_truthy (ticketData s) "awaitingTemplate" = false ->
   10 <= strlen (sanitizeInput (JS.trim description))) ->
  exists w1 w2 w3,
    CallbackHandler.handleCallback cfg gw t1 newId
      {| CallbackHandler.q_chatId := chat; CallbackHandler.q_messageId := messageId;
         CallbackHandler.q_from := u; CallbackHandler.q_action := CallbackHandler.CbCategory;
         CallbackHandler.q_value := category |} w
    = (w1, Returned tt)
    /\ MessageHandler.handleMessage cfg gw t2
         {| MessageHandler.chat_id := chat; MessageHandler.from_id := Some u;
            MessageHandler.text := Some title |} w1
       = (w2, Returned tt)
    /\ MessageHandler.handleMessage cfg gw t3
         {| MessageHandler.chat_id := chat; MessageHandler.from_id := Some u;
            MessageHandler.text := Some description |} w2
       = (w3, Returned tt)
    /\ session_of (db w3) u
       = Some (row s AWAITING_CONFIRMATION
                 (<[ "priority" := JStr (TicketPriority_value MEDIUM) ]>
                    (if field_truthy (ticketData s) "awaitingTemplate"
                     then
                       <[ "description" := JStr (JS.trim description) ]>
                         (<[ "awaitingTemplate" := JBool false ]>
                            (<[ "title" := JStr (sanitizeInput (JS.trim title)) ]>
                               (<[ "label" := JStr category ]> (ticketData s))))
                     else
                       <[ "description" := JStr (sanitizeInput (JS.trim description)) ]>
                         (<[ "title" := JStr (sanitizeInput (JS.trim title)) ]>
                            (<[ "label" := JStr category ]> (ticketData s))))) t3)
    /\ same_but_session_of u (db w) (db w3)
    /\ sent w3
       = sent w ++ [AnswerCallbackQuery;
                    EditMessageText chat messageId (MsgCategorySelected category);
                    SendMessage chat MsgTitleSaved;
                    SendMessage chat
                      (MsgDescriptionSavedSummary
                         (<[ "title" := JStr (sanitizeInput (JS.trim title)) ]>
                            (<[ "label" := JStr category ]> (ticketData s))))].
Proof.
  intros Hnn Hu Hcat Huser Hauth Hl H12 H23 Hv Hdup Hne2 Hlen.
  (* the category button *)
  destruct (handleCategorySelection_run cfg t1 chat messageId u category
              (say w AnswerCallbackQuery) s Hnn (live_say _ t1 w _ u s Hl))
    as (w1 & H1 & Hl1 & Hf1 & Hs1).
  (* the title *)
  assert (Hne1 : JS.trim title <> []) by (by apply sanitize_valid_nonempty).
  apply (live_later _ t1 t2) in Hl1; [|cbn [row lastActivity]; lia].
  destruct (handleMessage_touch cfg gw t2 chat u title w1 _ Hnn Hu Hne1 Hl1)
    as (w1' & Hm2 & Hl1' & Hf1' & Hs1').
  cbn [row state ticketData] in Hm2, Hl1'.
  assert (Hdup1 : Database.duplicate_rows (db w1') t2 (sanitizeInput (JS.trim title)) 30 = []).
  { unfold Database.duplicate_rows in *.
    destruct Hf1 as (_ & _ & Ht1 & _). destruct Hf1' as (_ & _ & Ht1' & _).
    rewrite Ht1', Ht1. exact Hdup. }
  destruct (handleTitleInput_run cfg t2 chat u (JS.trim title) w1' _ Hnn Hl1' Hv Hdup1)
    as (w2 & H2 & Hl2 & Hf2 & Hs2).
  cbn [row state ticketData createdAt userId] in Hl2.
  (* the description *)
  apply (live_later _ t2 t3) in Hl2; [|cbn [row lastActivity]; lia].
  destruct (handleMessage_touch cfg gw t3 chat u description w2 _ Hnn Hu Hne2 Hl2)
    as (w2' & Hm3 & Hl2' & Hf2' & Hs2').
  cbn [row state ticketData] in Hm3, Hl2'.
  assert (Hflag : field_truthy
                    (<[ "title" := JStr (sanitizeInput (JS.trim title)) ]>
                       (<[ "label" := JStr category ]> (ticketData s))) "awaitingTemplate"
                  = field_truthy (ticketData s) "awaitingTemplate")
    by (by rewrite !field_truthy_insert_ne).
  assert (Hlabel : field_truthy
                     (<[ "title" := JStr (sanitizeInput (JS.trim title)) ]>
                        (<[ "label" := JStr category ]> (ticketData s))) "label" = true).
  { rewrite field_truthy_insert_ne by done. by apply field_truthy_insert_str. }
  assert (Hstep : exists w3,
    MessageHandler.handleDescriptionInput cfg t3 chat u (JS.trim description) w2'
    = (w3, Returned tt)
    /\ session_of (db w3) u
       = Some (row s AWAITING_CONFIRMATION
                 (<[ "priority" := JStr (TicketPriority_value MEDIUM) ]>
                    (if field_truthy (ticketData s) "awaitingTemplate"
                     then
                       <[ "description" := JStr (JS.trim description) ]>
                         (<[ "awaitingTemplate" := JBool false ]>
                            (<[ "title" := JStr (sanitizeInput (JS.trim title)) ]>
                               (<[ "label" := JStr category ]> (ticketData s))))
                     else
                       <[ "description" := JStr (sanitizeInput (JS.trim description)) ]>
                         (<[ "title" := JStr (sanitizeInput (JS.trim title)) ]>
                            (<[ "label" := JStr category ]> (ticketData s))))) t3)
    /\ sent w3
       = sent w2' ++ [SendMessage chat
                        (MsgDescriptionSavedSummary
                           (<[ "title" := JStr (sanitizeInput (JS.trim title)) ]>
                              (<[ "label" := JStr category ]> (ticketData s))))]
    /\ same_but_session_of u (db w2') (db w3)).
  { destruct (field_truthy (ticketData s) "awaitingTemplate") eqn:Htpl.
    - destruct (handleDescriptionInput_template_run cfg t3 chat u (JS.trim description) w2' _
                  Hnn Hl2' Hflag Hlabel) as (w3 & H3 & (_ & Hrow & _) & Hs3 & Hf3).
      by exists w3.
    - destruct (handleDescriptionInput_category_run cfg t3 chat u (JS.trim description) w2' _
                  Hnn Hl2' Hflag Hlabel (Hlen eq_refl))
        as (w3 & H3 & (_ & Hrow & _) & Hs3 & Hf3).
      by exists w3. }
  destruct Hstep as (w3 & H3 & Hrow & Hs3 & Hf3).
  exists w1, w2, w3. split; [|split; [|split; [|split; [exact Hrow|split]]]].
  - by apply (handleCallback_returned cfg gw t1 newId _ w w1 user
                (CallbackHandler.handleCategorySelection cfg t1 chat messageId u category)).
  - rewrite Hm2. by apply try_catch_returned.
  - rewrite Hm3. by apply try_catch_returned.
  - apply (same_but_session_of_trans u _ (db w1)); [exact Hf1|].
    apply (same_but_session_of_trans u _ (db w1')); [exact Hf1'|].
    apply (same_but_session_of_trans u _ (db w2)); [exact Hf2|].
    apply (same_but_session_of_trans u _ (db w2')); [exact Hf2'|exact Hf3].
  - rewrite Hs3, Hs2', Hs2, Hs1', Hs1. unfold say. cbn [sent].
    by rewrite <- !app_assoc.
Qed.

(** The flow from an idle session with an empty draft, and the same flow
    from a draft still flagged by an earlier template choice, where the
    description [n/a] is taken. *)
Lemma category_title_description_reach_confirmation_witness :
  let cfg := config Samples.env0 in
  let flagged := Samples.session_in AWAITING_CONFIRMATION
                   (<[ "awaitingTemplate" := JBool true ]> Samples.draft) Samples.t_now in
  (exists w1 w2 w3,
      CallbackHandler.handleCallback cfg Samples.tracker_down (Samples.t_now + 1000) (js "t1")
        (Samples.button CallbackHandler.CbCategory "Bug")
        (Samples.store Samples.alice [] (Samples.session_in IDLE ∅ Samples.t_now))
      = (w1, Returned tt)
      /\ MessageHandler.handleMessage cfg Samples.tracker_down (Samples.t_now + 60000)
           (Samples.text_message " Fix login crash on startup ") w1
         = (w2, Returned tt)
      /\ MessageHandler.handleMessage cfg Samples.tracker_down (Samples.t_now + 120000)
           (Samples.text_message "The app crashes on startup") w2
         = (w3, Returned tt)
      /\ option_map state (session_of (db w3) (js "1001")) = Some AWAITING_CONFIRMATION
      /\ option_map ticketData (session_of (db w3) (js "1001"))
         = Some (<[ "priority" := JStr (js "Medium") ]> Samples.draft))
  /\ (exists w1 w2 w3,
        CallbackHandler.handleCallback cfg Samples.tracker_down (Samples.t_now + 1000)
          (js "t1") (Samples.button CallbackHandler.CbCategory "Feature")
          (Samples.store Samples.alice [] flagged)
        = (w1, Returned tt)
        /\ MessageHandler.handleMessage cfg Samples.tracker_down (Samples.t_now + 60000)
             (Samples.text_message "Export the monthly report") w1
           = (w2, Returned tt)
        /\ MessageHandler.handleMessage cfg Samples.tracker_down (Samples.t_now + 120000)
             (Samples.text_message " n/a ") w2
           = (w3, Returned tt)
        /\ option_map state (session_of (db w3) (js "1001")) = Some AWAITING_CONFIRMATION
        /\ option_map (fun r => (ticketData r !! "description",
                                 ticketData r !! "awaitingTemplate"))
             (session_of (db w3) (js "1001"))
           = Some (Some (JStr (js "n/a")), Some (JBool false))).
Proof.
  intros cfg flagged. split.
  - destruct (category_title_description_reach_confirmation cfg Samples.tracker_down
                (js "t1") (Samples.t_now + 1000) (Samples.t_now + 60000)
                (Samples.t_now + 120000) 7 9
                (js "1001") (js "Bug") (js " Fix login crash on startup ")
                (js "The app crashes on startup") Samples.alice
                (Samples.store Samples.alice [] (Samples.session_in IDLE ∅ Samples.t_now))
                (Samples.session_in IDLE ∅ Samples.t_now))
      as (w1 & w2 & w3 & H1 & H2 & H3 & Hrow & _);
      try reflexivity; try discriminate.
    + split; [concrete_ok|]. split; reflexivity.
    + exists w1, w2, w3. split; [exact H1|]. split; [exact H2|]. split; [exact H3|].
      rewrite Hrow. split; reflexivity.
  - destruct (category_title_description_reach_confirmation cfg Samples.tracker_down
                (js "t1") (Samples.t_now + 1000) (Samples.t_now + 60000)
                (Samples.t_now + 120000) 7 9
                (js "1001") (js "Feature") (js "Export the monthly report")
                (js " n/a ") Samples.alice
                (Samples.store Samples.alice [] flagged) flagged)
      as (w1 & w2 & w3 & H1 & H2 & H3 & Hrow & _);
      try reflexivity; try discriminate.
    + split; [concrete_ok|]. split; reflexivity.
    + exists w1, w2, w3. split; [exact H1|]. split; [exact H2|]. split; [exact H3|].
      rewrite Hrow. split; reflexivity.
Defined.

(** ** Commands: /start and /cancel *)

Lemma bind2_returned {A B} (m : M2 A) (k : A -> M2 B) (w w1 : World2) (a : A) :
  m w = (w1, Returned a) -> bind2 m k w = k a w1.
Proof. intros H. unfold bind2. by rewrite H. Qed.

Lemma bind2_thrown {A B} (m : M2 A) (k : A -> M2 B) (w w1 : World2) (e : Exn) :
  m w = (w1, Thrown e) -> bind2 m k w = (w1, Thrown e).
Proof. intros H. unfold bind2. by rewrite H. Qed.

Lemma try_catch2_returned {A} (m : M2 A) (h : Exn -> M2 A) (w w1 : World2) (a : A) :
  m w = (w1, Returned a) -> try_catch2 m h w = (w1, Returned a).
Proof. intros H. unfold try_catch2. by rewrite H. Qed.

Lemma try_catch2_thrown {A} (m : M2 A) (h : Exn -> M2 A) (w w1 : World2) (e : Exn) :
  m w = (w1, Thrown e) -> try_catch2 m h w = h e w1.
Proof. intros H. unfold try_catch2. by rewrite H. Qed.

Lemma lift_run {A} (m : M A) (w : World2) (b : World) (o : outcome A) :
  m (base w) = (b, o) -> lift m w = ({| base := b; told := told w |}, o).
Proof. intros H. unfold lift. by rewrite H. Qed.

Lemma find_filter_other {A} (p q : A -> bool) (l : list A) :
  (forall y, p y = true -> q y = true) ->
  List.find p (List.filter q l) = List.find p l.
Proof.
  intros Hpq. induction l as [|y l IH]; simpl; [done|].
  destruct (p y) eqn:Hp.
  - rewrite (Hpq _ Hp). simpl. by rewrite Hp.
  - destruct (q y); simpl; [by rewrite Hp|done].
Qed.

Lemma session_of_drop_other (now : Z) (d : DB) (u v : jstring) :
  v <> u -> session_of (drop_session now d u) v = session_of d v.
Proof.
  intros Hv. unfold session_of, drop_session. simpl. apply find_filter_other.
  intros y Hy. apply eqb_eq in Hy. apply negb_true_iff, eqb_neq. congruence.
Qed.

Lemma deleteSession_run (now : Z) (u : jstring) (b : World) :
  Database.user_exists (db b) u = true ->
  SessionManager.deleteSession now u b
  = ({| db := drop_session now (db b) u; sent := sent b |}, Returned tt).
Proof.
  intros Hu.
  unfold SessionManager.deleteSession, Database.deleteSession, Database.addAuditLog,
    bind, read_db, write_db, ret.
  simpl. unfold Database.user_exists in *. simpl. by rewrite Hu.
Qed.

Lemma createSession_run (now : Z) (u : jstring) (b : World) :
  Database.user_exists (db b) u = true ->
  SessionManager.createSession now u b
  = ({| db := Database.set_audit (put_session (db b) (fresh_session u now))
                (audit_log (db b) ++ [audit_row now u "SESSION_CREATED" None]);
        sent := sent b |}, Returned (fresh_session u now)).
Proof.
  intros Hu.
  unfold SessionManager.createSession, Database.saveSession, Database.addAuditLog,
    bind, read_db, write_db, ret.
  simpl. rewrite Hu. simpl. unfold Database.user_exists in *. simpl. by rewrite Hu.
Qed.

(** What [deleteSession] followed by [createSession] leaves behind. *)
Lemma reset_session_facts (now : Z) (u : jstring) (d : DB) :
  let d1 := Database.set_audit (put_session (drop_session now d u) (fresh_session u now))
              (audit_log (drop_session now d u) ++ [audit_row now u "SESSION_CREATED" None]) in
  session_of d1 u = Some (fresh_session u now)
  /\ (forall v, v <> u -> session_of d1 v = session_of d v)
  /\ users d1 = users d
  /\ ticket_requests d1 = ticket_requests d
  /\ audit_log d1
     = audit_log d ++ [audit_row now u "SESSION_DELETED" None;
                       audit_row now u "SESSION_CREATED" None].
Proof.
  intros d1. split; [|split; [|split; [done|split; [done|]]]].
  - pose proof (session_of_put_same (drop_session now d u) (fresh_session u now)) as H.
    unfold stored in H. cbn [fresh_session userId state ticketData lastActivity createdAt] in H.
    rewrite json_roundtrip_empty in H. exact H.
  - intros v Hv.
    transitivity (session_of (drop_session now d u) v); [|by apply session_of_drop_other].
    apply (session_of_put_other (drop_session now d u) (fresh_session u now)). exact Hv.
  - unfold d1. cbn [audit_log Database.set_audit drop_session]. by rewrite <- app_assoc.
Qed.

Lemma user_of_exists (d : DB) (u : jstring) (user : User) :
  user_of d u = Some user -> Database.user_exists d u = true.
Proof. intros H. unfold Database.user_exists. by apply (find_some_existsb _ _ user). Qed.

Lemma user_of_key (d : DB) (u : jstring) (user : User) :
  user_of d u = Some user -> telegram_user_id user = u.
Proof. intros H. apply find_some in H as [_ H]. by apply eqb_eq. Qed.

Lemma user_of_map_keyed (g : User -> User) (d : DB) (u : jstring) :
  (forall r, telegram_user_id (g r) = telegram_user_id r) ->
  user_of (Database.set_users d (List.map g (users d))) u = option_map g (user_of d u).
Proof. intros Hg. unfold user_of. simpl. by apply (find_map_keyed telegram_user_id). Qed.

Lemma touch_key (now : Z) (u : jstring) (r : User) :
  telegram_user_id (Database.touch now u r) = telegram_user_id r.
Proof. unfold Database.touch. by destruct (JS.eqb (telegram_user_id r) u). Qed.

Lemma authenticate_key (b : bool) (u : jstring) (r : User) :
  telegram_user_id (Database.authenticate b u r) = telegram_user_id r.
Proof. unfold Database.authenticate. by destruct (JS.eqb (telegram_user_id r) u). Qed.

(** /start.  For a sender seen for the first time (with an unused row
    id) one authenticated user row with zero counters is appended and the
    registration is logged.  For a known sender the row is kept: its
    counters and its stored name are untouched, its last activity is
    refreshed and it is authenticated if it was not.  In both cases the
    sender ends with a fresh IDLE session with an empty draft, so a draft
    in progress is lost; a deletion and a creation of the session are
    logged even when there was no session; no ticket record changes; and
    the greeting is the one for a returning user. *)
Theorem start_registers_or_refreshes_user
    (now : Z) (newId : jstring) (msg : CommandHandler.CommandMessage)
    (from : CommandHandler.TelegramUser) (w : World2) :
  CommandHandler.c_from msg = Some from ->
  CommandHandler.tg_id from <> [] ->
  let u := CommandHandler.tg_id from in
  let d := db (base w) in
  let greeting := (ByMessage (CommandHandler.c_chat msg),
                   NoticeWelcome true (CommandHandler.fullName_of from)) in
  (user_of d u = None ->
   existsb (fun r => JS.eqb (id r) newId) (users d) = false ->
   exists w1,
     CommandHandler.handleStart now newId msg w = (w1, Returned tt)
     /\ users (db (base w1)) = users d ++ [registered_user newId now from]
     /\ session_of (db (base w1)) u = Some (fresh_session u now)
     /\ ticket_requests (db (base w1)) = ticket_requests d
     /\ audit_log (db (base w1))
        = audit_log d
          ++ [audit_row now u "USER_REGISTERED"
                (Database.or_null
                   (Some (CommandHandler.fullName_of from ++ 95%N :: js "Falcon")));
              audit_row now u "SESSION_DELETED" None;
              audit_row now u "SESSION_CREATED" None]
     /\ told w1 = told w ++ [greeting])
  /\ (forall user,
         user_of d u = Some user ->
         exists w1 user1,
           CommandHandler.handleStart now newId msg w = (w1, Returned tt)
           /\ user_of (db (base w1)) u = Some user1
           /\ is_authenticated user1 = true
           /\ last_active user1 = Database.current_timestamp now
           /\ tickets_created_today user1 = tickets_created_today user
           /\ total_tickets_created user1 = total_tickets_created user
           /\ full_name user1 = full_name user
           /\ session_of (db (base w1)) u = Some (fresh_session u now)
           /\ ticket_requests (db (base w1)) = ticket_requests d
           /\ audit_log (db (base w1))
              = audit_log d
                ++ [audit_row now u "SESSION_DELETED" None;
                    audit_row now u "SESSION_CREATED" None]
           /\ told w1 = told w ++ [greeting]).
Proof.
  intros Hfrom Hid u d greeting.
  assert (Hget : forall o, user_of d u = o ->
            lift (Database.getUserById u) w = (w, Returned o)).
  { intros o Ho. rewrite (lift_run _ w (base w) (Returned o)); [by destruct w|].
    unfold Database.getUserById, bind, read_db, ret. unfold user_of in Ho. fold d.
    rewrite Ho. by destruct (base w). }
  split.
  - intros Hnew Hfresh.
    (* the row is inserted and read back *)
    assert (Hnot : Database.user_exists d u = false) by (by apply find_none_existsb).
    set (d1 := Database.set_users d (users d ++ [registered_user newId now from])).
    assert (Hex1 : Database.user_exists d1 u = true).
    { unfold Database.user_exists, d1. simpl. rewrite existsb_app. simpl.
      unfold u. by rewrite eqb_refl, orb_true_r. }
    set (b1 := {| db := d1; sent := sent (base w) |}).
    assert (Hc : Database.createUser newId now
                   {| u_telegram_user_id := u;
                      u_telegram_username := CommandHandler.tg_username from;
                      u_full_name := CommandHandler.fullName_of from;
                      u_department := js "Falcon"; u_email := None;
                      u_is_active := true; u_is_authenticated := true |} (base w)
                 = (b1, Returned (registered_user newId now from))).
    { unfold Database.createUser, bind at 1, read_db at 1. fold d.
      rewrite Hfresh. cbn [u_telegram_user_id]. rewrite Hnot.
      unfold bind, write_db, Database.getUserById, bind, read_db, ret.
      cbn [db users Database.set_users u_telegram_username u_full_name u_department
           u_email u_is_active u_is_authenticated Database.or_null].
      unfold user_of in Hnew. rewrite (find_app_fresh _ _ _ Hnew); [reflexivity|].
      cbn [telegram_user_id]. apply eqb_refl. }
    pose proof (addAuditLog_run now u "USER_REGISTERED"
                  (Some (CommandHandler.fullName_of from ++ 95%N :: js "Falcon")) b1 Hex1)
      as Ha.
    set (b2 := {| db := Database.set_audit (db b1) _; sent := sent b1 |}) in Ha.
    assert (Hex2 : Database.user_exists (db b2) u = true) by exact Hex1.
    pose proof (deleteSession_run now u b2 Hex2) as Hd.
    set (b3 := {| db := drop_session now (db b2) u; sent := sent b2 |}) in Hd.
    assert (Hex3 : Database.user_exists (db b3) u = true) by exact Hex1.
    pose proof (createSession_run now u b3 Hex3) as Hs.
    set (b4 := {| db := Database.set_audit _ _; sent := sent b3 |}) in Hs.
    destruct (reset_session_facts now u (db b2)) as (R1 & _ & R3 & R4 & R5).
    exists {| base := b4; told := told w ++ [greeting] |}.
    split; [|cbn [base told]; split; [exact R3|split; [exact R1|split; [exact R4|split]]]].
    + unfold CommandHandler.handleStart. rewrite Hfrom. cbv zeta. fold u.
      rewrite (truthy_nonempty u Hid). cbn [negb].
      apply try_catch2_returned.
      rewrite (bind2_returned _ _ w w None (Hget None Hnew)).
      erewrite bind2_returned; [|].
      2:{ erewrite bind2_returned; [|apply lift_run; exact Hc].
          erewrite bind2_returned; [|apply lift_run; exact Ha]. reflexivity. }
      erewrite bind2_returned; [|apply lift_run; exact Hd].
      erewrite bind2_returned; [|apply lift_run; exact Hs].
      reflexivity.
    + refine (eq_trans R5 _). unfold b2, b1, d1.
      cbn [db audit_log Database.set_audit Database.set_users].
      by rewrite <- app_assoc.
    + reflexivity.
  - intros user Huser.
    pose proof (user_of_exists d u user Huser) as Hex.
    set (d1 := Database.set_users d (List.map (Database.touch now u) (users d))).
    set (b1 := {| db := d1; sent := sent (base w) |}).
    assert (H1 : Database.updateUserLastActive now u (base w) = (b1, Returned tt))
      by reflexivity.
    set (d2 := if is_authenticated user then d1
               else Database.set_users d1
                      (List.map (Database.authenticate true u) (users d1))).
    set (b2 := {| db := d2; sent := sent (base w) |}).
    assert (H2 : (if negb (is_authenticated user)
                  then lift (Database.updateUserAuthentication u true)
                  else ret2 tt) {| base := b1; told := told w |}
                 = ({| base := b2; told := told w |}, Returned tt)).
    { unfold b2, d2. by destruct (is_authenticated user). }
    assert (Hu2 : user_of d2 u
                  = Some (if is_authenticated user then Database.touch now u user
                          else Database.authenticate true u (Database.touch now u user))).
    { unfold d2. destruct (is_authenticated user).
      - unfold d1. rewrite (user_of_map_keyed _ d u (touch_key now u)). by rewrite Huser.
      - rewrite (user_of_map_keyed _ d1 u (authenticate_key true u)).
        unfold d1. rewrite (user_of_map_keyed _ d u (touch_key now u)). by rewrite Huser. }
    assert (Hex2 : Database.user_exists (db b2) u = true)
      by (by apply (user_of_exists d2 u _ Hu2)).
    pose proof (deleteSession_run now u b2 Hex2) as Hd.
    set (b3 := {| db := drop_session now (db b2) u; sent := sent b2 |}) in Hd.
    assert (Hex3 : Database.user_exists (db b3) u = true) by exact Hex2.
    pose proof (createSession_run now u b3 Hex3) as Hs.
    set (b4 := {| db := Database.set_audit _ _; sent := sent b3 |}) in Hs.
    destruct (reset_session_facts now u (db b2)) as (R1 & _ & R3 & R4 & R5).
    exists {| base := b4; told := told w ++ [greeting] |}.
    exists (if is_authenticated user then Database.touch now u user
            else Database.authenticate true u (Database.touch now u user)).
    pose proof (user_of_key d u user Huser) as Hkey.
    split; [|cbn [base told]; split].
    + unfold CommandHandler.handleStart. rewrite Hfrom. cbv zeta. fold u.
      rewrite (truthy_nonempty u Hid). cbn [negb].
      apply try_catch2_returned.
      rewrite (bind2_returned _ _ w w (Some user) (Hget _ Huser)).
      erewrite bind2_returned; [|].
      2:{ erewrite bind2_returned; [|apply lift_run; exact H1].
          erewrite bind2_returned; [|exact H2]. reflexivity. }
      erewrite bind2_returned; [|apply lift_run; exact Hd].
      erewrite bind2_returned; [|apply lift_run; exact Hs].
      reflexivity.
    + unfold user_of in *. fold (user_of (db b4) u). unfold user_of.
      change (users (db b4)) with (users (db b2)). exact Hu2.
    + assert (Hfields : forall x : User,
                x = (if is_authenticated user then Database.touch now u user
                     else Database.authenticate true u (Database.touch now u user)) ->
                is_authenticated x = true
                /\ last_active x = Database.current_timestamp now
                /\ tickets_created_today x = tickets_created_today user
                /\ total_tickets_created x = total_tickets_created user
                /\ full_name x = full_name user).
      { intros x ->. unfold Database.authenticate, Database.touch.
        rewrite Hkey, eqb_refl. cbn [telegram_user_id]. rewrite ?eqb_refl.
        destruct (is_authenticated user) eqn:Ha; cbn; by rewrite ?Ha. }
      destruct (Hfields _ eq_refl) as (F1 & F2 & F3 & F4 & F5).
      split; [exact F1|]. split; [exact F2|]. split; [exact F3|]. split; [exact F4|].
      split; [exact F5|]. split; [exact R1|]. split.
      * refine (eq_trans R4 _). unfold b2, d2, d1. by destruct (is_authenticated user).
      * split; [|reflexivity]. refine (eq_trans R5 _). unfold b2, d2, d1.
        by destruct (is_authenticated user).
Qed.

Lemma start_registers_or_refreshes_user_witness :
  let from := {| CommandHandler.tg_id := js "1001";
                 CommandHandler.tg_first_name := js "Alice";
                 CommandHandler.tg_last_name := Some (js "A");
                 CommandHandler.tg_username := Some (js "alice") |} in
  let msg := {| CommandHandler.c_chat := 7; CommandHandler.c_from := Some from |} in
  exists w1,
    CommandHandler.handleStart Samples.t_now (js "k1") msg
      {| base := {| db := empty_db; sent := [] |}; told := [] |}
    = (w1, Returned tt)
    /\ List.map full_name (users (db (base w1))) = [js "Alice A"]
    /\ List.map state (sessions (db (base w1))) = [IDLE]
    /\ told w1 = [(ByMessage 7, NoticeWelcome true (js "Alice A"))].
Proof.
  intros from msg.
  destruct (proj1 (start_registers_or_refreshes_user Samples.t_now (js "k1") msg from
                     {| base := {| db := empty_db; sent := [] |}; told := [] |}
                     eq_refl ltac:(discriminate)) eq_refl eq_refl)
    as (w1 & Hrun & Hus & _ & _ & _ & Htold).
  exists w1. split; [exact Hrun|]. split; [rewrite Hus; reflexivity|].
  split; [|rewrite Htold; reflexivity].
  apply (f_equal fst) in Hrun. simpl in Hrun. rewrite <- Hrun. reflexivity.
Defined.

(** /cancel.  With a live session that is not IDLE the session is reset
    to IDLE with an empty draft, the cancellation is confirmed and one
    TICKET_CANCELLED audit row is written, whatever operation was under
    way; users and ticket records are untouched.  Without a session, or
    with an IDLE one, there is nothing to cancel and nothing is written. *)
Theorem cancel_command_resets_operation
    (cfg : Config) (now : Z) (msg : CommandHandler.CommandMessage)
    (from : CommandHandler.TelegramUser) (w : World2) :
  CommandHandler.c_from msg = Some from ->
  CommandHandler.tg_id from <> [] ->
  0 <= session_timeoutMinutes cfg ->
  let u := CommandHandler.tg_id from in
  let chat := ByMessage (CommandHandler.c_chat msg) in
  (forall s,
      live (session_timeoutMinutes cfg) now (db (base w)) u s -> state s <> IDLE ->
      exists w1,
        CommandHandler.handleCancel cfg now msg w = (w1, Returned tt)
        /\ session_of (db (base w1)) u = Some (row s IDLE ∅ now)
        /\ audit_log (db (base w1))
           = audit_log (db (base w)) ++ [audit_row now u "TICKET_CANCELLED" None]
        /\ users (db (base w1)) = users (db (base w))
        /\ ticket_requests (db (base w1)) = ticket_requests (db (base w))
        /\ told w1 = told w ++ [(chat, NoticeOperationCancelled)])
  /\ (session_of (db (base w)) u = None
      \/ (exists s, live (session_timeoutMinutes cfg) now (db (base w)) u s
                    /\ state s = IDLE) ->
      CommandHandler.handleCancel cfg now msg w
      = ({| base := base w; told := told w ++ [(chat, NoticeNothingToCancel)] |},
         Returned tt)).
Proof.
  intros Hfrom Hid Hnn u chat. split.
  - intros s Hl Hst.
    pose proof (getSession_step _ now (base w) u s Hl) as Hg.
    destruct (live_user_exists _ _ _ _ _ Hl) as (_ & Hex & _).
    destruct (updateSession_step _ now Hnn (base w) u s
                {| upd_state := Some IDLE; upd_ticketData := Some ∅;
                   upd_lastActivity := None |} Hl)
      as (b1 & H1 & (_ & Hrow & _) & (_ & Hus & Htk & Hau) & _).
    cbn [upd_state upd_ticketData default from_option Datatypes.id] in Hrow.
    rewrite json_roundtrip_empty in Hrow.
    assert (Hex1 : Database.user_exists (db b1) u = true)
      by (by rewrite (user_exists_same u (db (base w)) (db b1) Hus)).
    pose proof (addAuditLog_run now u "TICKET_CANCELLED" None b1 Hex1) as Ha.
    set (b2 := {| db := Database.set_audit (db b1) _; sent := sent b1 |}) in Ha.
    exists {| base := b2; told := told w ++ [(chat, NoticeOperationCancelled)] |}.
    split; [|cbn [base told b2 db]; split; [exact Hrow|]].
    + unfold CommandHandler.handleCancel. rewrite Hfrom. cbv zeta. fold u.
      rewrite (truthy_nonempty u Hid). cbn [negb].
      apply try_catch2_returned.
      erewrite bind2_returned; [|apply lift_run; exact Hg].
      cbv beta iota. destruct (state s); [congruence|..]; cbv beta iota;
        (erewrite bind2_returned; [|apply lift_run; exact H1]);
        (erewrite bind2_returned; [|reflexivity]);
        (rewrite (lift_run _ _ b2 (Returned tt)); [reflexivity|exact Ha]).
    + unfold b2. cbn [db audit_log users ticket_requests Database.set_audit].
      split; [by rewrite Hau|]. split; [exact Hus|]. split; [exact Htk|reflexivity].
  - intros H. unfold CommandHandler.handleCancel. rewrite Hfrom. cbv zeta. fold u.
    rewrite (truthy_nonempty u Hid). cbn [negb].
    apply try_catch2_returned.
    destruct H as [Hn|(s & Hl & Hst)].
    + erewrite bind2_returned;
        [|apply lift_run; exact (getSession_absent _ now (base w) u Hn)].
      by destruct w.
    + erewrite bind2_returned;
        [|apply lift_run; exact (getSession_step _ now (base w) u s Hl)].
      cbv beta iota. rewrite Hst. by destruct w.
Qed.

Lemma cancel_command_resets_operation_witness :
  let from := {| CommandHandler.tg_id := js "1001";
                 CommandHandler.tg_first_name := js "Alice";
                 CommandHandler.tg_last_name := None;
                 CommandHandler.tg_username := None |} in
  let msg := {| CommandHandler.c_chat := 7; CommandHandler.c_from := Some from |} in
  let s := Samples.session_in AWAITING_DESCRIPTION Samples.draft Samples.t_now in
  exists w1,
    CommandHandler.handleCancel (config Samples.env0) Samples.t_now msg
      {| base := Samples.store Samples.alice [] s; told := [] |}
    = (w1, Returned tt)
    /\ option_map state (session_of (db (base w1)) (js "1001")) = Some IDLE
    /\ List.map a_action (audit_log (db (base w1))) = ["TICKET_CANCELLED"%string]
    /\ told w1 = [(ByMessage 7, NoticeOperationCancelled)].
Proof.
  intros from msg s.
  destruct (proj1 (cancel_command_resets_operation (config Samples.env0) Samples.t_now msg
                     from {| base := Samples.store Samples.alice [] s; told := [] |}
                     eq_refl ltac:(discriminate) ltac:(vm_compute; discriminate)) s)
    as (w1 & Hrun & Hrow & Hau & _ & _ & Htold).
  - split; [concrete_ok|]. split; reflexivity.
  - discriminate.
  - exists w1. split; [exact Hrun|].
    split; [exact (f_equal (option_map state) Hrow)|].
    split; [exact (f_equal (List.map a_action) Hau)|exact Htold].
Defined.

(** ** Entering the comment operation *)

Lemma json_roundtrip_singleton (k : string) (v : jsval) :
  v <> JUndefined -> json_roundtrip {[ k := v ]} = {[ k := v ]}.
Proof.
  intros Hv. rewrite <- insert_empty.
  by rewrite json_roundtrip_insert, json_roundtrip_empty.
Qed.

(** The Add Comment button.  When the tracker knows the issue and the
    user has a live session, the prompt is shown and the session becomes
    ADDING_COMMENT with a draft that holds the issue id and nothing else:
    a ticket draft in progress is replaced.  When the user has no session
    the prompt is shown and then replaced by the failure note, and no
    session is created.  When the tracker does not know the issue,
    nothing is written. *)
Theorem add_comment_button_starts_comment
    (cfg : Config) (now chat messageId : Z) (u issueId : jstring) (w : World2) :
  0 <= session_timeoutMinutes cfg ->
  (forall s identifier title,
      live (session_timeoutMinutes cfg) now (db (base w)) u s ->
      exists w1,
        CallbackOps.handleAddComment cfg now (Some (identifier, title))
          chat messageId u issueId w = (w1, Returned tt)
        /\ session_of (db (base w1)) u
           = Some (row s ADDING_COMMENT {[ "issueId" := JStr issueId ]} now)
        /\ same_but_session_of u (db (base w)) (db (base w1))
        /\ sent (base w1) = sent (base w)
        /\ told w1
           = told w ++ [(ByEdit chat messageId, NoticeTypeComment identifier title)])
  /\ (forall identifier title,
         session_of (db (base w)) u = None ->
         CallbackOps.handleAddComment cfg now (Some (identifier, title))
           chat messageId u issueId w
         = ({| base := base w;
               told := told w ++ [(ByEdit chat messageId, NoticeTypeComment identifier title);
                                  (ByEdit chat messageId, NoticeAddCommentFailed)] |},
            Returned tt))
  /\ CallbackOps.handleAddComment cfg now None chat messageId u issueId w
     = ({| base := base w;
           told := told w ++ [(ByEdit chat messageId, NoticeIssueNotFound)] |},
        Returned tt).
Proof.
  intros Hnn. split; [|split].
  - intros s identifier title Hl.
    destruct (updateSession_step _ now Hnn (base w) u s
                {| upd_state := Some ADDING_COMMENT;
                   upd_ticketData := Some {[ "issueId" := JStr issueId ]};
                   upd_lastActivity := None |} Hl)
      as (b1 & H1 & (_ & Hrow & _) & Hf & Hs).
    cbn [upd_state upd_ticketData default from_option Datatypes.id] in Hrow.
    rewrite json_roundtrip_singleton in Hrow by done.
    exists {| base := b1;
              told := told w ++ [(ByEdit chat messageId, NoticeTypeComment identifier title)] |}.
    split; [|split; [exact Hrow|split; [exact Hf|split; [exact Hs|reflexivity]]]].
    unfold CallbackOps.handleAddComment. apply try_catch2_returned.
    erewrite bind2_returned; [|reflexivity].
    rewrite (lift_run _ _ b1 (Returned tt)); [reflexivity|exact H1].
  - intros identifier title Hn.
    unfold CallbackOps.handleAddComment.
    erewrite try_catch2_thrown.
    2:{ erewrite bind2_returned; [|reflexivity].
        apply lift_run. cbn [base]. unfold SessionManager.updateSession.
        rewrite (bind_returned _ _ (base w) (base w) None
                   (getSession_absent _ now (base w) u Hn)).
        reflexivity. }
    unfold tell. cbn [base told]. by rewrite <- app_assoc.
  - reflexivity.
Qed.

Lemma add_comment_button_starts_comment_witness :
  let s := Samples.session_in AWAITING_DESCRIPTION Samples.draft Samples.t_now in
  exists w1,
    CallbackOps.handleAddComment (config Samples.env0) Samples.t_now
      (Some (js "FAL-7", js "Login fails")) 7 9 (js "1001") (js "iss-1")
      {| base := Samples.store Samples.alice [] s; told := [] |}
    = (w1, Returned tt)
    /\ option_map state (session_of (db (base w1)) (js "1001")) = Some ADDING_COMMENT
    /\ option_map ticketData (session_of (db (base w1)) (js "1001"))
       = Some {[ "issueId" := JStr (js "iss-1") ]}.
Proof.
  intros s.
  destruct (proj1 (add_comment_button_starts_comment (config Samples.env0) Samples.t_now
                     7 9 (js "1001") (js "iss-1")
                     {| base := Samples.store Samples.alice [] s; told := [] |}
                     ltac:(vm_compute; discriminate)) s (js "FAL-7") (js "Login fails"))
    as (w1 & Hrun & Hrow & _).
  - split; [concrete_ok|]. split; reflexivity.
  - exists w1. split; [exact Hrun|]. rewrite Hrow. split; reflexivity.
Defined.

(** ** The template offer *)

Lemma handleLabelSelection_run (cfg : Config) (now chat messageId : Z)
    (u label : jstring) (w : World) (s : Session) :
  0 <= session_timeoutMinutes cfg ->
  live (session_timeoutMinutes cfg) now (db w) u s ->
  exists w1,
    CallbackHandler.handleLabelSelection cfg now chat messageId u label w
    = (w1, Returned tt)
    /\ live (session_timeoutMinutes cfg) now (db w1) u
         (row s AWAITING_PRIORITY (<[ "label" := JStr label ]> (ticketData s)) now)
    /\ same_but_session_of u (db w) (db w1)
    /\ sent w1
       = sent w ++ [EditMessageText chat messageId
                      (if JS.eqb label (TicketLabel_value BUG)
                       then MsgLabelOfferTemplate label
                       else MsgLabelSelectPriority label)].
Proof.
  intros Hnn Hl.
  destruct (updateTicketData_field _ now Hnn w u s "label"
              (JStr label) ltac:(done) Hl) as (w1 & H1 & Hl1 & Hf1 & Hs1).
  destruct (updateSessionState_step _ now Hnn w1 u _ AWAITING_PRIORITY Hl1)
    as (w2 & H2 & Hl2 & Hf2 & Hs2).
  exists (say w2 (EditMessageText chat messageId
                    (if JS.eqb label (TicketLabel_value BUG)
                     then MsgLabelOfferTemplate label
                     else MsgLabelSelectPriority label))).
  split; [|split; [exact Hl2|split]].
  - unfold CallbackHandler.handleLabelSelection. cbv zeta.
    rewrite (bind_returned _ _ w w1 tt H1).
    rewrite (bind_returned _ _ w1 w2 tt H2).
    by destruct (JS.eqb label (TicketLabel_value BUG)).
  - eapply same_but_session_of_trans; [exact Hf1|exact Hf2].
  - unfold say. cbn [sent]. by rewrite Hs2, Hs1.
Qed.

Lemma handleTemplate_run (cfg : Config) (now chat messageId : Z)
    (u action : jstring) (w : World2) (s : Session) :
  0 <= session_timeoutMinutes cfg ->
  action <> js "skip" ->
  live (session_timeoutMinutes cfg) now (db (base w)) u s ->
  exists w1,
    CallbackOps.handleTemplate cfg now chat messageId u action w = (w1, Returned tt)
    /\ live (session_timeoutMinutes cfg) now (db (base w1)) u
         (row s (state s) (<[ "awaitingTemplate" := JBool true ]> (ticketData s)) now)
    /\ same_but_session_of u (db (base w)) (db (base w1))
    /\ sent (base w1) = sent (base w)
    /\ told w1 = told w ++ [(ByEdit chat messageId, NoticeTemplate action)].
Proof.
  intros Hnn Hact Hl.
  destruct (updateTicketData_field _ now Hnn (base w) u s "awaitingTemplate"
              (JBool true) ltac:(done) Hl) as (b1 & H1 & Hl1 & Hf1 & Hs1).
  exists {| base := b1; told := told w ++ [(ByEdit chat messageId, NoticeTemplate action)] |}.
  split; [|split; [exact Hl1|split; [exact Hf1|split; [exact Hs1|reflexivity]]]].
  unfold CallbackOps.handleTemplate. rewrite (proj2 (eqb_neq _ _) Hact).
  erewrite bind2_returned;
    [|apply lift_run; exact (getSession_step _ now (base w) u s Hl)].
  cbv beta iota.
  erewrite bind2_returned; [|apply lift_run; exact H1].
  reflexivity.
Qed.

(** The template offered after the Bug label cannot be answered.  The
    label button leaves the session in AWAITING_PRIORITY and choosing the
    template only marks the draft as awaiting it, without changing the
    state; so the text the user then sends, as the template note asks, is
    answered with the request to use the buttons and is not stored: the
    session keeps its state and its draft gets no description. *)
Theorem filled_template_is_refused_after_label
    (cfg : Config) (gw : Answers) (t1 t2 t3 chat messageId : Z)
    (u action text : jstring) (w : World) (s : Session) :
  0 <= session_timeoutMinutes cfg ->
  u <> [] -> JS.trim text <> [] -> action <> js "skip" ->
  live (session_timeoutMinutes cfg) t1 (db w) u s ->
  t2 - t1 <= session_timeoutMinutes cfg * 60000 ->
  t3 - t2 <= session_timeoutMinutes cfg * 60000 ->
  exists w1 w2 w3,
    CallbackHandler.handleLabelSelection cfg t1 chat messageId u (TicketLabel_value BUG) w
    = (w1, Returned tt)
    /\ CallbackOps.handleTemplate cfg t2 chat messageId u action
         {| base := w1; told := [] |}
       = (w2, Returned tt)
    /\ told w2 = [(ByEdit chat messageId, NoticeTemplate action)]
    /\ MessageHandler.handleMessage cfg gw t3
         {| MessageHandler.chat_id := chat; MessageHandler.from_id := Some u;
            MessageHandler.text := Some text |} (base w2)
       = (w3, Returned tt)
    /\ sent w3
       = sent w ++ [EditMessageText chat messageId
                      (MsgLabelOfferTemplate (TicketLabel_value BUG));
                    SendMessage chat MsgUseProvidedButtons]
    /\ session_of (db w3) u
       = Some (row s AWAITING_PRIORITY
                 (<[ "awaitingTemplate" := JBool true ]>
                    (<[ "label" := JStr (TicketLabel_value BUG) ]> (ticketData s))) t3)
    /\ same_but_session_of u (db w) (db w3).
Proof.
  intros Hnn Hu Htext Hact Hl H12 H23.
  destruct (handleLabelSelection_run cfg t1 chat messageId u (TicketLabel_value BUG) w s
              Hnn Hl) as (w1 & H1 & Hl1 & Hf1 & Hs1).
  apply (live_later _ t1 t2) in Hl1; [|cbn [row lastActivity]; lia].
  destruct (handleTemplate_run cfg t2 chat messageId u action
              {| base := w1; told := [] |} _ Hnn Hact Hl1)
    as (w2 & H2 & Hl2 & Hf2 & Hs2 & Ht2).
  cbn [row state ticketData base] in Hl2, Hf2, Hs2.
  apply (live_later _ t2 t3) in Hl2; [|cbn [row lastActivity]; lia].
  destruct (handleMessage_touch cfg gw t3 chat u text (base w2) _ Hnn Hu Htext Hl2)
    as (w3 & H3 & Hl3 & Hf3 & Hs3).
  cbn [row state ticketData] in H3, Hl3.
  exists w1, w2, (say w3 (SendMessage chat MsgUseProvidedButtons)).
  split; [exact H1|]. split; [exact H2|]. split; [exact Ht2|].
  split; [by rewrite H3|]. split; [|split].
  - unfold say. cbn [sent]. rewrite Hs3, Hs2, Hs1. rewrite eqb_refl.
    by rewrite <- app_assoc.
  - by destruct Hl3 as (_ & Hrow & _).
  - apply (same_but_session_of_trans u _ (db w1)); [exact Hf1|].
    apply (same_but_session_of_trans u _ (db (base w2))); [exact Hf2|exact Hf3].
Qed.

Lemma filled_template_is_refused_after_label_witness :
  let s := Samples.session_in AWAITING_LABEL
             (<[ "title" := JStr Samples.title1 ]>
                {[ "description" := JStr (js "The app crashes on startup") ]})
             Samples.t_now in
  exists w1 w2 w3,
    CallbackHandler.handleLabelSelection (config Samples.env0) (Samples.t_now + 1000) 7 9
      (js "1001") (js "Bug") (Samples.store Samples.alice [] s)
    = (w1, Returned tt)
    /\ CallbackOps.handleTemplate (config Samples.env0) (Samples.t_now + 2000) 7 9
         (js "1001") (js "bug") {| base := w1; told := [] |}
       = (w2, Returned tt)
    /\ MessageHandler.handleMessage (config Samples.env0) Samples.tracker_down
         (Samples.t_now + 60000) (Samples.text_message "Steps: open the app, it crashes")
         (base w2)
       = (w3, Returned tt)
    /\ sent w3 = [EditMessageText 7 9 (MsgLabelOfferTemplate (js "Bug"));
                  SendMessage 7 MsgUseProvidedButtons]
    /\ option_map state (session_of (db w3) (js "1001")) = Some AWAITING_PRIORITY.
Proof.
  intros s.
  destruct (filled_template_is_refused_after_label (config Samples.env0)
              Samples.tracker_down (Samples.t_now + 1000) (Samples.t_now + 2000)
              (Samples.t_now + 60000) 7 9 (js "1001") (js "bug")
              (js "Steps: open the app, it crashes") (Samples.store Samples.alice [] s) s)
    as (w1 & w2 & w3 & H1 & H2 & _ & H3 & Hsent & Hrow & _);
    try discriminate.
  - split; [concrete_ok|]. split; reflexivity.
  - exists w1, w2, w3. split; [exact H1|]. split; [exact H2|]. split; [exact H3|].
    split; [exact Hsent|]. by rewrite Hrow.
Defined.

(** ** What the description step checks *)

(** The description step, case by case, for a live session.  A text typed
    outside a template is refused when, once sanitised, it has fewer than
    ten code units: the reason is reported and nothing is written.  A
    text sent while the draft awaits a template is stored as it came,
    neither sanitised nor measured, and the flag is cleared.  An accepted
    description in a draft without label moves the session to the label
    step and sets no priority.  With a label in the draft, an accepted
    description is stored sanitised, the priority is set to Medium
    whatever it was, and the session moves to AWAITING_CONFIRMATION; the
    summary sent with that reply is rendered from the draft as it was
    read when the text came in, before the description and the priority
    were written. *)
Theorem description_step_checks
    (cfg : Config) (now chat : Z) (u t : jstring) (w : World) (s : Session) :
  0 <= session_timeoutMinutes cfg ->
  live (session_timeoutMinutes cfg) now (db w) u s ->
  (field_truthy (ticketData s) "awaitingTemplate" = false ->
   strlen (sanitizeInput t) < 10 ->
   MessageHandler.handleDescriptionInput cfg now chat u t w
   = (say w (SendMessage chat
               (MsgDescriptionInvalid
                  (if JS.truthy (sanitizeInput t) then msg_desc_min else msg_string_empty))),
      Returned tt))
  /\ (field_truthy (ticketData s) "awaitingTemplate" = true ->
      field_truthy (ticketData s) "label" = true ->
      exists w1,
        MessageHandler.handleDescriptionInput cfg now chat u t w = (w1, Returned tt)
        /\ session_of (db w1) u
           = Some (row s AWAITING_CONFIRMATION
                     (<[ "priority" := JStr (TicketPriority_value MEDIUM) ]>
                        (<[ "description" := JStr t ]>
                           (<[ "awaitingTemplate" := JBool false ]> (ticketData s)))) now)
        /\ same_but_session_of u (db w) (db w1))
  /\ (field_truthy (ticketData s) "awaitingTemplate" = false ->
      field_truthy (ticketData s) "label" = false ->
      10 <= strlen (sanitizeInput t) ->
      exists w1,
        MessageHandler.handleDescriptionInput cfg now chat u t w = (w1, Returned tt)
        /\ session_of (db w1) u
           = Some (row s AWAITING_LABEL
                     (<[ "description" := JStr (sanitizeInput t) ]> (ticketData s)) now)
        /\ sent w1 = sent w ++ [SendMessage chat MsgDescriptionSavedLabel]
        /\ same_but_session_of u (db w) (db w1))
  /\ (field_truthy (ticketData s) "awaitingTemplate" = false ->
      field_truthy (ticketData s) "label" = true ->
      10 <= strlen (sanitizeInput t) ->
      exists w1,
        MessageHandler.handleDescriptionInput cfg now chat u t w = (w1, Returned tt)
        /\ session_of (db w1) u
           = Some (row s AWAITING_CONFIRMATION
                     (<[ "priority" := JStr (TicketPriority_value MEDIUM) ]>
                        (<[ "description" := JStr (sanitizeInput t) ]> (ticketData s))) now)
        /\ sent w1 = sent w ++ [SendMessage chat (MsgDescriptionSavedSummary (ticketData s))]
        /\ same_but_session_of u (db w) (db w1)).
Proof.
  intros Hnn Hl. pose proof (getSession_step _ now w u s Hl) as Hg.
  split; [|split; [|split]].
  - intros Htpl Hlen.
    unfold MessageHandler.handleDescriptionInput. cbv zeta.
    rewrite (bind_returned _ _ w w (Some s) Hg). rewrite Htpl.
    rewrite (validateDescription_refuses _ Hlen). cbn [isValid error negb default
      from_option Datatypes.id].
    erewrite bind_returned; [|erewrite bind_returned; reflexivity]. reflexivity.
  - intros Htpl Hlabel.
    destruct (updateTicketData_two_fields _ now w u s "description" "awaitingTemplate"
                (JStr t) (JBool false) Hnn ltac:(done) ltac:(done) Hl)
      as (w1 & H1 & Hl1 & Hf1 & Hs1).
    destruct (updateSessionState_step _ now Hnn w1 u _ AWAITING_CONFIRMATION Hl1)
      as (w2 & H2 & Hl2 & Hf2 & Hs2).
    destruct (updateTicketData_field _ now Hnn w2 u _ "priority"
                (JStr (TicketPriority_value MEDIUM)) ltac:(done) Hl2)
      as (w3 & H3 & (_ & Hrow & _) & Hf3 & Hs3).
    exists (say w3 (SendMessage chat (MsgDescriptionSavedSummary (ticketData s)))).
    split; [|split; [exact Hrow|]].
    + unfold MessageHandler.handleDescriptionInput. cbv zeta.
      rewrite (bind_returned _ _ w w (Some s) Hg). rewrite Htpl.
      rewrite (bind_returned _ _ w w1 true)
        by (by rewrite (bind_returned _ _ w w1 tt H1)).
      cbn [negb]. rewrite Hlabel.
      rewrite (bind_returned _ _ w1 w2 tt H2).
      by rewrite (bind_returned _ _ w2 w3 tt H3).
    + eapply same_but_session_of_trans; [exact Hf1|].
      eapply same_but_session_of_trans; [exact Hf2|exact Hf3].
  - intros Htpl Hlabel Hlen.
    pose proof (validateDescription_accepts _ Hlen) as Hv.
    destruct (updateTicketData_field _ now Hnn w u s "description"
                (JStr (sanitizeInput t)) ltac:(done) Hl) as (w1 & H1 & Hl1 & Hf1 & Hs1).
    destruct (updateSessionState_step _ now Hnn w1 u _ AWAITING_LABEL Hl1)
      as (w2 & H2 & (_ & Hrow & _) & Hf2 & Hs2).
    exists (say w2 (SendMessage chat MsgDescriptionSavedLabel)).
    split; [|split; [exact Hrow|split]].
    + unfold MessageHandler.handleDescriptionInput. cbv zeta.
      rewrite (bind_returned _ _ w w (Some s) Hg). rewrite Htpl, Hv. cbn [negb].
      rewrite (bind_returned _ _ w w1 true)
        by (by rewrite (bind_returned _ _ w w1 tt H1)).
      cbn [negb]. rewrite Hlabel.
      by rewrite (bind_returned _ _ w1 w2 tt H2).
    + unfold say. cbn [sent]. by rewrite Hs2, Hs1.
    + eapply same_but_session_of_trans; [exact Hf1|exact Hf2].
  - intros Htpl Hlabel Hlen.
    destruct (handleDescriptionInput_category_run cfg now chat u t w s Hnn Hl Htpl Hlabel Hlen)
      as (w1 & Hrun & (_ & Hrow & _) & Hsent & Hf).
    by exists w1.
Qed.

Lemma description_step_checks_witness :
  let s := Samples.session_in AWAITING_DESCRIPTION
             (<[ "label" := JStr (js "Bug") ]> {[ "awaitingTemplate" := JBool true ]})
             Samples.t_now in
  let w := Samples.store Samples.alice [] s in
  exists w1,
    MessageHandler.handleDescriptionInput (config Samples.env0) Samples.t_now 7 (js "1001")
      (js " n/a ") w
    = (w1, Returned tt)
    /\ option_map (fun r => ticketData r !! "description") (session_of (db w1) (js "1001"))
       = Some (Some (JStr (js " n/a ")))
    /\ option_map state (session_of (db w1) (js "1001")) = Some AWAITING_CONFIRMATION.
Proof.
  intros s w.
  destruct (proj1 (proj2 (description_step_checks (config Samples.env0) Samples.t_now 7
                            (js "1001") (js " n/a ") w s
                            ltac:(vm_compute; discriminate)
                            ltac:(split; [concrete_ok|split; reflexivity])))
              eq_refl eq_refl)
    as (w1 & Hrun & Hrow & _).
  exists w1. split; [exact Hrun|]. rewrite Hrow. split; reflexivity.
Defined.

(** ** Editing the priority *)

Lemma handlePrioritySelection_run (cfg : Config) (now chat messageId : Z)
    (u priority : jstring) (w : World) (s : Session) :
  0 <= session_timeoutMinutes cfg ->
  live (session_timeoutMinutes cfg) now (db w) u s ->
  exists w1,
    CallbackHandler.handlePrioritySelection cfg now chat messageId u priority w
    = (w1, Returned tt)
    /\ live (session_timeoutMinutes cfg) now (db w1) u
         (row s AWAITING_CONFIRMATION (<[ "priority" := JStr priority ]> (ticketData s)) now)
    /\ same_but_session_of u (db w) (db w1)
    /\ sent w1
       = sent w ++ [EditMessageText chat messageId
                      (MsgReviewSummary (<[ "priority" := JStr priority ]> (ticketData s)))].
Proof.
  intros Hnn Hl.
  destruct (updateTicketData_field _ now Hnn w u s "priority"
              (JStr priority) ltac:(done) Hl) as (w1 & H1 & Hl1 & Hf1 & Hs1).
  destruct (updateSessionState_step _ now Hnn w1 u _ AWAITING_CONFIRMATION Hl1)
    as (w2 & H2 & Hl2 & Hf2 & Hs2).
  cbn [row ticketData] in Hl2.
  exists (say w2 (EditMessageText chat messageId
                    (MsgReviewSummary (<[ "priority" := JStr priority ]> (ticketData s))))).
  split; [|split; [exact Hl2|split]].
  - unfold CallbackHandler.handlePrioritySelection. cbv zeta.
    rewrite (bind_returned _ _ w w1 tt H1).
    rewrite (bind_returned _ _ w1 w2 tt H2).
    by rewrite (bind_returned _ _ w2 w2 _ (getSession_step _ now w2 u _ Hl2)).
  - eapply same_but_session_of_trans; [exact Hf1|exact Hf2].
  - unfold say. cbn [sent]. by rewrite Hs2, Hs1.
Qed.

Lemma handleEdit_priority_run (cfg : Config) (now chat messageId : Z)
    (u : jstring) (w : World) (s : Session) :
  0 <= session_timeoutMinutes cfg ->
  live (session_timeoutMinutes cfg) now (db w) u s ->
  exists w1,
    CallbackHandler.handleEdit cfg now chat messageId u (js "priority") w = (w1, Returned tt)
    /\ live (session_timeoutMinutes cfg) now (db w1) u
         (row s AWAITING_PRIORITY (ticketData s) now)
    /\ same_but_session_of u (db w) (db w1)
    /\ sent w1 = sent w ++ [EditMessageText chat messageId MsgSelectNewPriority].
Proof.
  intros Hnn Hl.
  destruct (updateSessionState_step _ now Hnn w u s AWAITING_PRIORITY Hl)
    as (w1 & H1 & Hl1 & Hf1 & Hs1).
  exists (say w1 (EditMessageText chat messageId MsgSelectNewPriority)).
  split; [|split; [exact Hl1|split; [exact Hf1|]]].
  - unfold CallbackHandler.handleEdit. cbv zeta.
    rewrite (bind_returned _ _ w w (Some s) (getSession_step _ now w u s Hl)).
    replace (JS.eqb (js "priority") (js "title")) with false by reflexivity.
    replace (JS.eqb (js "priority") (js "description")) with false by reflexivity.
    replace (JS.eqb (js "priority") (js "label")) with false by reflexivity.
    rewrite eqb_refl. by rewrite (bind_returned _ _ w w1 tt H1).
  - unfold say. cbn [sent]. by rewrite Hs1.
Qed.

(** Editing the priority changes the priority and nothing else.  An
    authenticated user with a live session who chooses to edit the
    priority and then presses a priority button is back at the
    confirmation step; the draft is the earlier one with the new
    priority, which is what the review then shows; in between, the
    session waits in AWAITING_PRIORITY with the draft untouched.  The
    value of the button is stored as it comes, and no other row of the
    store is written. *)
Theorem edited_priority_changes_only_priority
    (cfg : Config) (gw : Answers) (newId : jstring) (t1 t2 chat messageId : Z)
    (u priority : jstring) (user : User) (w : World) (s : Session) :
  0 <= session_timeoutMinutes cfg ->
  user_of (db w) u = Some user -> is_authenticated user = true ->
  live (session_timeoutMinutes cfg) t1 (db w) u s ->
  t2 - t1 <= session_timeoutMinutes cfg * 60000 ->
  exists w1 w2,
    CallbackHandler.handleCallback cfg gw t1 newId
      {| CallbackHandler.q_chatId := chat; CallbackHandler.q_messageId := messageId;
         CallbackHandler.q_from := u; CallbackHandler.q_action := CallbackHandler.CbEdit;
         CallbackHandler.q_value := js "priority" |} w
    = (w1, Returned tt)
    /\ session_of (db w1) u = Some (row s AWAITING_PRIORITY (ticketData s) t1)
    /\ CallbackHandler.handleCallback cfg gw t2 newId
         {| CallbackHandler.q_chatId := chat; CallbackHandler.q_messageId := messageId;
            CallbackHandler.q_from := u;
            CallbackHandler.q_action := CallbackHandler.CbPriority;
            CallbackHandler.q_value := priority |} w1
       = (w2, Returned tt)
    /\ session_of (db w2) u
       = Some (row s AWAITING_CONFIRMATION
                 (<[ "priority" := JStr priority ]> (ticketData s)) t2)
    /\ same_but_session_of u (db w) (db w2)
    /\ sent w2
       = sent w ++ [AnswerCallbackQuery;
                    EditMessageText chat messageId MsgSelectNewPriority;
                    AnswerCallbackQuery;
                    EditMessageText chat messageId
                      (MsgReviewSummary (<[ "priority" := JStr priority ]> (ticketData s)))].
Proof.
  intros Hnn Huser Hauth Hl H12.
  destruct (handleEdit_priority_run cfg t1 chat messageId u
              (say w AnswerCallbackQuery) s Hnn (live_say _ t1 w _ u s Hl))
    as (w1 & H1 & Hl1 & Hf1 & Hs1).
  pose proof Hl1 as (_ & Hrow1 & _).
  apply (live_later _ t1 t2) in Hl1; [|cbn [row lastActivity]; lia].
  destruct (handlePrioritySelection_run cfg t2 chat messageId u priority
              (say w1 AnswerCallbackQuery) _ Hnn (live_say _ t2 w1 _ u _ Hl1))
    as (w2 & H2 & Hl2 & Hf2 & Hs2).
  cbn [row ticketData] in H2, Hl2, Hs2.
  assert (Huser1 : user_of (db w1) u = Some user).
  { destruct Hf1 as (_ & Hus & _). unfold user_of in *. cbn [say db] in Hus.
    by rewrite Hus. }
  exists w1, w2. split; [|split; [exact Hrow1|split; [|split; [|split]]]].
  - by apply (handleCallback_returned cfg gw t1 newId _ w w1 user
                (CallbackHandler.handleEdit cfg t1 chat messageId u (js "priority"))).
  - by apply (handleCallback_returned cfg gw t2 newId _ w1 w2 user
                (CallbackHandler.handlePrioritySelection cfg t2 chat messageId u priority)).
  - by destruct Hl2 as (_ & Hrow2 & _).
  - apply (same_but_session_of_trans u _ (db w1)); [exact Hf1|exact Hf2].
  - rewrite Hs2. unfold say. cbn [sent]. rewrite Hs1. unfold say. cbn [sent].
    by rewrite <- !app_assoc.
Qed.

Lemma edited_priority_changes_only_priority_witness :
  let s := Samples.session_in AWAITING_CONFIRMATION Samples.draft Samples.t_now in
  exists w1 w2,
    CallbackHandler.handleCallback (config Samples.env0) Samples.tracker_down
      (Samples.t_now + 1000) (js "t1") (Samples.button CallbackHandler.CbEdit "priority")
      (Samples.store Samples.alice [] s)
    = (w1, Returned tt)
    /\ CallbackHandler.handleCallback (config Samples.env0) Samples.tracker_down
         (Samples.t_now + 5000) (js "t1") (Samples.button CallbackHandler.CbPriority "Low") w1
       = (w2, Returned tt)
    /\ option_map state (session_of (db w2) (js "1001")) = Some AWAITING_CONFIRMATION
    /\ option_map ticketData (session_of (db w2) (js "1001"))
       = Some (<[ "priority" := JStr (js "Low") ]> Samples.draft).
Proof.
  intros s.
  destruct (edited_priority_changes_only_priority (config Samples.env0) Samples.tracker_down
              (js "t1") (Samples.t_now + 1000) (Samples.t_now + 5000) 7 9
              (js "1001") (js "Low") Samples.alice (Samples.store Samples.alice [] s) s)
    as (w1 & w2 & H1 & _ & H2 & Hrow & _);
    try reflexivity; try discriminate.
  - split; [concrete_ok|]. split; reflexivity.
  - exists w1, w2. split; [exact H1|]. split; [exact H2|]. by rewrite Hrow.
Defined.
